(** * Anonas daycare web: a shallow embedding of the Django views

    The request handlers of [information/views.py], [users/views.py] and
    [monitoring/views.py] are embedded as functions from a request and a
    database to a response and a database.  Tables are finite maps from
    primary keys to rows; the clock readings a handler makes are explicit
    arguments. *)

From Stdlib Require Import ZArith String Ascii List Bool Lia.
From Stdlib Require Floats.
From stdpp Require Import base option list gmap strings sorting.

Local Open Scope string_scope.
Local Open Scope Z_scope.

(** ** Python string operations

    A string is a sequence of code points below 256 (Latin-1); on that
    range [str.lower], [str.strip] and [str.split] are as defined here. *)

Module PyStr.

(** [str.isspace] on one code point: TAB..CR, FS..US, SPACE, NEL, NBSP. *)
Definition is_space (c : ascii) : bool :=
  let n := N_of_ascii c in
  ((9 <=? n) && (n <=? 13) || (28 <=? n) && (n <=? 32)
   || (n =? 133) || (n =? 160))%N.

Definition is_upper (c : ascii) : bool :=
  let n := N_of_ascii c in
  ((65 <=? n) && (n <=? 90) || (192 <=? n) && (n <=? 222) && negb (n =? 215))%N.

Definition lower_char (c : ascii) : ascii :=
  if is_upper c then ascii_of_N (N_of_ascii c + 32) else c.

(** [s.lower()] *)
Fixpoint lower (s : string) : string :=
  match s with
  | EmptyString => EmptyString
  | String c s' => String (lower_char c) (lower s')
  end.

(** [s.lstrip()] *)
Fixpoint lstrip (s : string) : string :=
  match s with
  | EmptyString => EmptyString
  | String c s' => if is_space c then lstrip s' else s
  end.

(** [s.rstrip()] *)
Fixpoint rstrip (s : string) : string :=
  match s with
  | EmptyString => EmptyString
  | String c s' =>
      match rstrip s' with
      | EmptyString => if is_space c then EmptyString else String c EmptyString
      | r => String c r
      end
  end.

(** [s.strip()] *)
Definition strip (s : string) : string := rstrip (lstrip s).

(** [s.split(sep)] for a one-character separator: never the empty list. *)
Fixpoint split (sep : ascii) (s : string) : list string :=
  match s with
  | EmptyString => [EmptyString]
  | String c s' =>
      if Ascii.eqb c sep then EmptyString :: split sep s'
      else match split sep s' with
           | [] => [String c EmptyString]
           | w :: ws => String c w :: ws
           end
  end.

Fixpoint startswith (p s : string) : bool :=
  match p, s with
  | EmptyString, _ => true
  | String _ _, EmptyString => false
  | String a p', String b s' => Ascii.eqb a b && startswith p' s'
  end.

(** [sub in s] *)
Fixpoint contains (sub s : string) : bool :=
  startswith sub s ||
  match s with
  | EmptyString => false
  | String _ s' => contains sub s'
  end.

(** Truthiness of a string: [not s] holds of the empty string only. *)
Definition truthy (s : string) : bool :=
  match s with EmptyString => false | _ => true end.

(** What [sub in s] means: [s] is [pre ++ sub ++ post]. *)
Definition substring (sub s : string) : Prop :=
  exists pre post : string, s = pre ++ sub ++ post.

(** The string is empty or starts with a character that is not whitespace,
    as every stripped string does. *)
Definition no_space_head (s : string) : Prop :=
  match s with
  | EmptyString => True
  | String c _ => is_space c = false
  end.

End PyStr.

(** ** Python numbers and dates

    The attendance rate is computed on Python floats.  Their arithmetic is an
    interface here: the true division of two ints (the divisor not zero), the
    product of a float and an int, and [round(x, ndigits)] on a float. *)

Module PyNum.

Class PyFloatOps := {
  float : Type;
  int_truediv : Z -> Z -> float;
  float_mul_int : float -> Z -> float;
  float_round : float -> Z -> float
}.

Inductive Exn := ZeroDivisionError.

Section Numbers.
Context `{PyFloatOps}.

Inductive Num :=
| PyInt (z : Z)
| PyFloat (x : float).

(** [a / b] on two ints: raises on a zero divisor. *)
Definition truediv (a b : Z) : Exn + float :=
  if b =? 0 then inl ZeroDivisionError else inr (int_truediv a b).

(** [round(v, ndigits)] with [ndigits >= 0]: an int is returned as it is. *)
Definition round (v : Num) (ndigits : Z) : Num :=
  match v with
  | PyInt z => PyInt z
  | PyFloat x => PyFloat (float_round x ndigits)
  end.

End Numbers.

(** *** Binary64

    CPython's float is the IEEE 754 binary64 format.  For two ints below
    2^53 in magnitude, [a / b] is the correctly rounded quotient of their
    exact conversions; [round(x, ndigits)] with [ndigits >= 0] on a finite [x]
    takes the decimal with [ndigits] places nearest to the exact value of [x],
    ties to even, and returns the float nearest to that decimal. *)

Definition of_int (z : Z) : PrimFloat.float :=
  if z <? 0 then PrimFloat.opp (PrimFloat.of_uint63 (Uint63.of_Z (- z)))
  else PrimFloat.of_uint63 (Uint63.of_Z z).

(** The integer nearest to [n * 2^e], ties to the even one. *)
Definition nearest_even (n e : Z) : Z :=
  if 0 <=? e then n * 2 ^ e
  else
    let d := 2 ^ (- e) in
    let q := n / d in
    let r := n mod d in
    if 2 * r <? d then q
    else if d <? 2 * r then q + 1
    else if Z.even q then q else q + 1.

Definition round_ndigits (x : PrimFloat.float) (ndigits : Z) : PrimFloat.float :=
  match FloatOps.Prim2SF x with
  | SpecFloat.S754_finite s m e =>
      let p := 10 ^ ndigits in
      let r := PrimFloat.div (of_int (nearest_even (Z.pos m * p) e)) (of_int p) in
      if s then PrimFloat.opp r else r
  | _ => x
  end.

Definition binary64 : PyFloatOps :=
  {| float := PrimFloat.float;
     int_truediv := fun a b => PrimFloat.div (of_int a) (of_int b);
     float_mul_int := fun x n => PrimFloat.mul x (of_int n);
     float_round := round_ndigits |}.

(** [datetime.date]; [toordinal] is the proleptic Gregorian day number, the
    order of dates is the order of their ordinals, and
    [d - timedelta(days=n)] is the date of ordinal [toordinal d - n]. *)
Record Date := { year : Z; month : Z; day : Z }.

Definition is_leap (y : Z) : bool :=
  (y mod 4 =? 0) && (negb (y mod 100 =? 0) || (y mod 400 =? 0)).

Definition days_before_year (y : Z) : Z :=
  let y1 := y - 1 in y1 * 365 + y1 / 4 - y1 / 100 + y1 / 400.

Definition days_before_month (y m : Z) : Z :=
  nth (Z.to_nat m) [0; 0; 31; 59; 90; 120; 151; 181; 212; 243; 273; 304; 334] 0
  + (if (2 <? m) && is_leap y then 1 else 0).

Definition toordinal (d : Date) : Z :=
  days_before_year (year d) + days_before_month (year d) (month d) + day d.

End PyNum.

(** ** Identity

    Modelled from the spec: [users/models.py] and [users/decorators.py] are
    not part of the sources at hand.  A user carries a role tag
    (teacher, parent or admin); [teacher_profile] and [parent_profile] are
    the one-to-one reverse accessors, [None] when the profile row is absent;
    a child has a set of guardians (parents). *)

Module Users.

Inductive Role := teacher | parent | admin.

#[global] Instance Role_eq_dec : EqDecision Role.
Proof. solve_decision. Defined.

Record User := {
  user_id : Z;
  role : Role;
  teacher_profile : option Z;
  parent_profile : option Z
}.

Definition is_parent (u : User) : bool := bool_decide (role u = parent).
Definition is_teacher (u : User) : bool := bool_decide (role u = teacher).

Record Teacher := { teacher_user : Z }.

Record Child := {
  first_name : string;
  last_name : string;
  parents : gset Z
}.

End Users.

(** ** Rows of [information/models.py]

    A row's primary key is its key in the table; timestamps are integers
    and a nullable column is an [option]. *)

Module Models.

Record BotMessage := {
  bm_category : string;
  bm_keywords : string;
  bm_response_text : string;
  bm_has_buttons : bool;
  bm_button_options : option string;
  bm_priority : Z;
  bm_usage_count : Z;
  bm_is_active : bool;
  bm_created_at : Z;
  bm_updated_at : Z
}.

(** [BotMessage.get_keywords_list] *)
Definition get_keywords_list (m : BotMessage) : list string :=
  map (fun k => PyStr.lower (PyStr.strip k)) (PyStr.split "," (bm_keywords m)).

Record ChatRoom := {
  cr_parent : Z;
  cr_teacher : Z;
  cr_subject : string;
  cr_is_active : bool;
  cr_is_archived : bool;
  cr_last_message_at : option Z;
  cr_created_at : Z;
  cr_updated_at : Z
}.

Inductive MessageType := text | image | file | system.

Record ChatMessage := {
  cm_chat_room : Z;
  cm_sender : Z;
  cm_message_type : MessageType;
  cm_content : string;
  cm_image : option string;
  cm_file : option string;
  cm_is_read : bool;
  cm_read_at : option Z;
  cm_is_edited : bool;
  cm_edited_at : option Z;
  cm_created_at : Z
}.

Record Notification := {
  nt_recipient : Z;
  nt_notification_type : string;
  nt_title : string;
  nt_message : string;
  nt_link_url : string;
  nt_is_read : bool;
  nt_read_at : option Z;
  nt_created_at : Z
}.

(** Modelled from the spec: [monitoring/models.py] is not part of the
    sources at hand.  A class is owned by one teacher, an enrollment links
    a child to a class, a final grade belongs to a (student, class,
    quarter), an attendance entry to a (child, date) with a status among
    present, absent and late. *)

Record Class := { cl_teacher : Z; cl_name : string }.

Record Enrollment := { en_class_obj : Z; en_student : Z }.

Record FinalGrade := {
  fg_student : Z;
  fg_class_obj : Z;
  fg_quarter : Z;
  fg_final_grade : Z;
  fg_updated_at : Z
}.

Inductive AttendanceStatus := present | absent | late.

#[global] Instance AttendanceStatus_eq_dec : EqDecision AttendanceStatus.
Proof. solve_decision. Defined.

Record Attendance := {
  at_child : Z;
  at_date : PyNum.Date;
  at_status : AttendanceStatus;
  at_recorded_by : option Z
}.

End Models.

(** ** The database and the ORM calls the views make *)

Module Orm.
Import Users Models.

Inductive Level := success | error.

Record DB := {
  teachers : gmap Z Teacher;
  children : gmap Z Child;
  classes : gmap Z Class;
  enrollments : gmap Z Enrollment;
  final_grades : gmap Z FinalGrade;
  attendance : gmap Z Attendance;
  chat_rooms : gmap Z ChatRoom;
  chat_messages : gmap Z ChatMessage;
  notifications : gmap Z Notification;
  bot_messages : gmap Z BotMessage;
  (* django.contrib.messages: the flash messages queued for the user *)
  flash : list (Level * string)
}.

Definition set_chat_rooms (f : gmap Z ChatRoom -> gmap Z ChatRoom) (db : DB) : DB :=
  {| teachers := teachers db; children := children db; classes := classes db;
     enrollments := enrollments db; final_grades := final_grades db;
     attendance := attendance db; chat_rooms := f (chat_rooms db);
     chat_messages := chat_messages db; notifications := notifications db;
     bot_messages := bot_messages db; flash := flash db |}.

Definition set_chat_messages (f : gmap Z ChatMessage -> gmap Z ChatMessage) (db : DB) : DB :=
  {| teachers := teachers db; children := children db; classes := classes db;
     enrollments := enrollments db; final_grades := final_grades db;
     attendance := attendance db; chat_rooms := chat_rooms db;
     chat_messages := f (chat_messages db); notifications := notifications db;
     bot_messages := bot_messages db; flash := flash db |}.

Definition set_notifications (f : gmap Z Notification -> gmap Z Notification) (db : DB) : DB :=
  {| teachers := teachers db; children := children db; classes := classes db;
     enrollments := enrollments db; final_grades := final_grades db;
     attendance := attendance db; chat_rooms := chat_rooms db;
     chat_messages := chat_messages db; notifications := f (notifications db);
     bot_messages := bot_messages db; flash := flash db |}.

Definition set_bot_messages (f : gmap Z BotMessage -> gmap Z BotMessage) (db : DB) : DB :=
  {| teachers := teachers db; children := children db; classes := classes db;
     enrollments := enrollments db; final_grades := final_grades db;
     attendance := attendance db; chat_rooms := chat_rooms db;
     chat_messages := chat_messages db; notifications := notifications db;
     bot_messages := f (bot_messages db); flash := flash db |}.

(** [messages.success(request, s)] and [messages.error(request, s)] *)
Definition add_message (lv : Level) (s : string) (db : DB) : DB :=
  {| teachers := teachers db; children := children db; classes := classes db;
     enrollments := enrollments db; final_grades := final_grades db;
     attendance := attendance db; chat_rooms := chat_rooms db;
     chat_messages := chat_messages db; notifications := notifications db;
     bot_messages := bot_messages db; flash := flash db ++ [(lv, s)] |}.

Section Table.
Context {A : Type}.

(** [Model.objects.filter(...)]: the rows satisfying the condition,
    with their primary keys. *)
Definition objects_filter (P : Z -> A -> bool) (t : gmap Z A) : list (Z * A) :=
  List.filter (fun kv => P kv.1 kv.2) (map_to_list t).

Inductive GetResult :=
| Found (pk : Z) (row : A)
| DoesNotExist
| MultipleObjectsReturned.

(** [Model.objects.get(...)] on a condition that does not fix the key. *)
Definition objects_get (P : Z -> A -> bool) (t : gmap Z A) : GetResult :=
  match objects_filter P t with
  | [] => DoesNotExist
  | [(k, r)] => Found k r
  | _ => MultipleObjectsReturned
  end.

(** [Model.objects.get(id=pk, ...)]: the key selects at most one row,
    which must also satisfy the other conditions. *)
Definition get_by_id (pk : Z) (P : A -> bool) (t : gmap Z A) : option A :=
  match t !! pk with
  | Some r => if P r then Some r else None
  | None => None
  end.

(** The key an auto-increment column gives to the next row. *)
Definition next_id (t : gmap Z A) : Z :=
  1 + map_fold (fun k _ acc => Z.max k acc) 0 t.

(** [Model.objects.create(...)] *)
Definition objects_create (r : A) (t : gmap Z A) : Z * gmap Z A :=
  let k := next_id t in (k, <[k := r]> t).

(** [obj.save()] of a row loaded under key [k] *)
Definition save (k : Z) (r : A) (t : gmap Z A) : gmap Z A := <[k := r]> t.

(** [queryset.update(...)] on the rows satisfying the condition *)
Definition update_where (P : A -> bool) (f : A -> A) (t : gmap Z A) : gmap Z A :=
  (fun r => if P r then f r else r) <$> t.

End Table.

Arguments GetResult : clear implicits.

End Orm.


(** ** Requests, responses and the access decorators *)

Module Http.
Import Users Orm.

Inductive Method := GET | POST.

Record Request := {
  method : Method;
  (* request.user: [None] for an anonymous visitor *)
  user : option User;
  (* request.POST *)
  POST_data : gmap string string;
  is_ajax : bool
}.

(** [request.POST.get(key, '')] *)
Definition POST_get (req : Request) (key : string) : string :=
  default "" (POST_data req !! key).

Inductive JsonValue :=
| JBool (b : bool)
| JInt (z : Z)
| JStr (s : string)
| JDateTime (t : Z).   (* a datetime written by [isoformat()] *)

(** The body of a [JsonResponse]: the views only send flat objects. *)
Definition Json : Type := list (string * JsonValue).

Inductive Response (C : Type) :=
| JsonResponse (body : Json) (status : Z)
| Render (template : string) (context : C)
| Redirect (to : string) (args : list Z)
| Http404
| ServerError (exn : string).

Arguments JsonResponse {C} body status.
Arguments Render {C} template context.
Arguments Redirect {C} to args.
Arguments Http404 {C}.
Arguments ServerError {C} exn.

Definition View (C : Type) : Type := Request -> DB -> Response C * DB.

(** [@login_required]: an anonymous visitor is sent to the login page. *)
Definition login_required {C} (view : User -> View C) : View C :=
  fun req db =>
    match user req with
    | None => (Redirect "login" [], db)
    | Some u => view u req db
    end.

(** Modelled from the spec: [users/decorators.py] is not part of the sources
    at hand; an authenticated user of the wrong role is redirected away. *)
Definition teacher_required {C} (view : User -> View C) : User -> View C :=
  fun u req db =>
    if is_teacher u then view u req db
    else (Redirect "users:login_selection" [], db).

Definition parent_required {C} (view : User -> View C) : User -> View C :=
  fun u req db =>
    if is_parent u then view u req db
    else (Redirect "users:login_selection" [], db).

(** [get_object_or_404(Model, id=pk, ...)] *)
Definition get_object_or_404 {A C} (pk : Z) (P : A -> bool) (t : gmap Z A)
    (k : A -> Response C * DB) (db : DB) : Response C * DB :=
  match get_by_id pk P t with
  | Some r => k r
  | None => (Http404, db)
  end.

(** [request.user.teacher_profile] / [request.user.parent_profile]: the
    access raises when the profile row is absent. *)
Definition with_profile {C} (p : option Z) (k : Z -> Response C * DB) (db : DB)
    : Response C * DB :=
  match p with
  | Some i => k i
  | None => (ServerError "RelatedObjectDoesNotExist", db)
  end.

End Http.

(** ** [information/views.py] and the model methods it calls *)

Module Information.
Import PyStr Users Models Orm Http.

(** [ChatMessage.mark_as_read] on the object loaded under key [k];
    [now] is what [timezone.now()] reads. *)
Definition ChatMessage_mark_as_read (now : Z) (k : Z) (m : ChatMessage) (db : DB)
    : ChatMessage * DB :=
  if negb (cm_is_read m) then
    let m' := {| cm_chat_room := cm_chat_room m; cm_sender := cm_sender m;
                 cm_message_type := cm_message_type m; cm_content := cm_content m;
                 cm_image := cm_image m; cm_file := cm_file m;
                 cm_is_read := true; cm_read_at := Some now;
                 cm_is_edited := cm_is_edited m; cm_edited_at := cm_edited_at m;
                 cm_created_at := cm_created_at m |} in
    (m', set_chat_messages (save k m') db)
  else (m, db).

(** [Notification.mark_as_read] *)
Definition Notification_mark_as_read (now : Z) (k : Z) (n : Notification) (db : DB)
    : Notification * DB :=
  if negb (nt_is_read n) then
    let n' := {| nt_recipient := nt_recipient n;
                 nt_notification_type := nt_notification_type n;
                 nt_title := nt_title n; nt_message := nt_message n;
                 nt_link_url := nt_link_url n;
                 nt_is_read := true; nt_read_at := Some now;
                 nt_created_at := nt_created_at n |} in
    (n', set_notifications (save k n') db)
  else (n, db).

(** *** Chat *)

(** The row [ChatRoom.objects.get_or_create(parent=.., teacher=..)] inserts:
    every other column takes its default. *)
Definition new_chat_room (now parent_id teacher_id : Z) : ChatRoom :=
  {| cr_parent := parent_id; cr_teacher := teacher_id; cr_subject := "";
     cr_is_active := true; cr_is_archived := false; cr_last_message_at := None;
     cr_created_at := now; cr_updated_at := now |}.

Definition room_of_pair (parent_id teacher_id : Z) (_ : Z) (r : ChatRoom) : bool :=
  (cr_parent r =? parent_id) && (cr_teacher r =? teacher_id).

Definition start_chat (now : Z) (teacher_id : Z) : View unit :=
  login_required (parent_required (fun u req db =>
    with_profile (parent_profile u) (fun parent_id =>
    get_object_or_404 teacher_id (fun _ => true) (teachers db) (fun _ =>
      match objects_get (room_of_pair parent_id teacher_id) (chat_rooms db) with
      | Found room_id _ =>
          (Redirect "information:chat_room" [room_id], db)
      | DoesNotExist =>
          let '(room_id, rooms) :=
            objects_create (new_chat_room now parent_id teacher_id) (chat_rooms db) in
          (Redirect "information:chat_room" [room_id],
           add_message success "Chat started successfully!"
             (set_chat_rooms (fun _ => rooms) db))
      | MultipleObjectsReturned =>
          (ServerError "MultipleObjectsReturned", db)
      end) db) db)).

(** The row [ChatMessage.objects.create(...)] inserts in [send_message]. *)
Definition new_chat_message (created room_id sender : Z) (content : string) : ChatMessage :=
  {| cm_chat_room := room_id; cm_sender := sender; cm_message_type := text;
     cm_content := content; cm_image := None; cm_file := None;
     cm_is_read := false; cm_read_at := None;
     cm_is_edited := false; cm_edited_at := None; cm_created_at := created |}.

(** [room.last_message_at = now; room.save()], where saving also stamps the
    [auto_now] column [updated_at]. *)
Definition touch_room (now saved : Z) (r : ChatRoom) : ChatRoom :=
  {| cr_parent := cr_parent r; cr_teacher := cr_teacher r; cr_subject := cr_subject r;
     cr_is_active := cr_is_active r; cr_is_archived := cr_is_archived r;
     cr_last_message_at := Some now;
     cr_created_at := cr_created_at r; cr_updated_at := saved |}.

(** [created] is the clock at the insert, [now] what [timezone.now()] reads
    and [saved] the clock at [room.save()]. *)
Definition send_message (created now saved : Z) (room_id : Z) : View unit :=
  login_required (fun u req db =>
    match method req with
    | POST =>
        let content := strip (POST_get req "content") in
        if negb (truthy content) then
          (JsonResponse [("error", JStr "Message cannot be empty")] 400, db)
        else
          let post room :=
            let '(message_id, msgs) :=
              objects_create (new_chat_message created room_id (user_id u) content)
                (chat_messages db) in
            let db1 := set_chat_messages (fun _ => msgs) db in
            let db2 := set_chat_rooms (save room_id (touch_room now saved room)) db1 in
            (JsonResponse [("success", JBool true); ("message_id", JInt message_id);
                           ("content", JStr content); ("created_at", JDateTime created)]
               200, db2) in
          if is_parent u then
            with_profile (parent_profile u) (fun parent_id =>
              get_object_or_404 room_id (fun r => cr_parent r =? parent_id)
                (chat_rooms db) post db) db
          else if is_teacher u then
            with_profile (teacher_profile u) (fun teacher_id =>
              get_object_or_404 room_id (fun r => cr_teacher r =? teacher_id)
                (chat_rooms db) post db) db
          else
            (JsonResponse [("error", JStr "Unauthorized")] 403, db)
    | _ => (JsonResponse [("error", JStr "Invalid request")] 400, db)
    end).

(** [ChatRoom.Meta.unique_together = ['parent', 'teacher']]: the constraint
    the store keeps on the table of rooms. *)
Definition unique_together (rooms : gmap Z ChatRoom) : Prop :=
  forall k1 k2 r1 r2,
    rooms !! k1 = Some r1 -> rooms !! k2 = Some r2 ->
    cr_parent r1 = cr_parent r2 -> cr_teacher r1 = cr_teacher r2 -> k1 = k2.

(** The two participants of a room: the user whose parent profile is the
    room's parent, and the user whose teacher profile is the room's teacher. *)
Definition participant (u : User) (room : ChatRoom) : Prop :=
  (role u = parent /\ parent_profile u = Some (cr_parent room))
  \/ (role u = teacher /\ teacher_profile u = Some (cr_teacher room)).

(** *** Notifications *)

Definition mark_notification_read (now : Z) (notification_id : Z) : View unit :=
  login_required (fun u req db =>
    get_object_or_404 notification_id (fun n => nt_recipient n =? user_id u)
      (notifications db) (fun notification =>
        let '(_, db1) := Notification_mark_as_read now notification_id notification db in
        if is_ajax req then (JsonResponse [("success", JBool true)] 200, db1)
        else (Redirect "information:notification_list" [], db1)) db).

(** [.update(is_read=True)]: only that column is written. *)
Definition set_is_read (n : Notification) : Notification :=
  {| nt_recipient := nt_recipient n; nt_notification_type := nt_notification_type n;
     nt_title := nt_title n; nt_message := nt_message n; nt_link_url := nt_link_url n;
     nt_is_read := true; nt_read_at := nt_read_at n; nt_created_at := nt_created_at n |}.

Definition mark_all_notifications_read : View unit :=
  login_required (fun u req db =>
    let db1 :=
      set_notifications
        (update_where (fun n => (nt_recipient n =? user_id u) && negb (nt_is_read n))
           set_is_read) db in
    (Redirect "information:notification_list" [],
     add_message success "All notifications marked as read!" db1)).

(** *** Chatbot *)

Definition fallback_response : string :=
  "I'm sorry, I don't understand. Please try rephrasing your question or contact support.".

(** [any(keyword in query for keyword in keywords)] *)
Definition keyword_match (query : string) (m : BotMessage) : bool :=
  existsb (fun keyword => contains keyword query) (get_keywords_list m).

(** Some keyword of the message is a substring of the query. *)
Definition matches (query : string) (m : BotMessage) : Prop :=
  exists keyword, In keyword (get_keywords_list m) /\ substring keyword query.

Definition by_priority_desc (a b : Z * BotMessage) : Prop :=
  bm_priority b.2 <= bm_priority a.2.

#[global] Instance by_priority_desc_dec a b : Decision (by_priority_desc a b).
Proof. unfold by_priority_desc. apply _. Defined.

(** [BotMessage.objects.filter(is_active=True).order_by('-priority')].  The
    store is free to return rows of equal priority in any order; the sort
    used here fixes one. *)
Definition active_by_priority (t : gmap Z BotMessage) : list (Z * BotMessage) :=
  merge_sort by_priority_desc (objects_filter (fun _ m => bm_is_active m) t).

(** The [for ... break] loop: the first row with a matching keyword. *)
Fixpoint first_match (query : string) (rows : list (Z * BotMessage))
    : option (Z * BotMessage) :=
  match rows with
  | [] => None
  | (k, bot_msg) :: rest =>
      if keyword_match query bot_msg then Some (k, bot_msg)
      else first_match query rest
  end.

(** [bot_msg.usage_count += 1; bot_msg.save()], with [updated_at] stamped
    by the save. *)
Definition count_usage (saved : Z) (m : BotMessage) : BotMessage :=
  {| bm_category := bm_category m; bm_keywords := bm_keywords m;
     bm_response_text := bm_response_text m; bm_has_buttons := bm_has_buttons m;
     bm_button_options := bm_button_options m; bm_priority := bm_priority m;
     bm_usage_count := bm_usage_count m + 1; bm_is_active := bm_is_active m;
     bm_created_at := bm_created_at m; bm_updated_at := saved |}.

Definition chatbot_query (saved : Z) : View unit :=
  login_required (fun u req db =>
    match method req with
    | POST =>
        let query := lower (strip (POST_get req "query")) in
        if negb (truthy query) then
          (JsonResponse [("error", JStr "Query cannot be empty")] 400, db)
        else
          let rows := active_by_priority (bot_messages db) in
          let '(response, db1) :=
            match first_match query rows with
            | Some (k, bot_msg) =>
                (Some (bm_response_text bot_msg),
                 set_bot_messages (save k (count_usage saved bot_msg)) db)
            | None => (None, db)
            end in
          let response :=
            match response with
            | Some r => if truthy r then r else fallback_response
            | None => fallback_response
            end in
          (JsonResponse [("success", JBool true); ("response", JStr response)] 200, db1)
    | _ => (JsonResponse [("error", JStr "Invalid request")] 400, db)
    end).

End Information.


(** ** [users/views.py]: the parent's pages *)

Module UsersViews.
Import PyStr PyNum Users Models Orm Http.

(** [queryset.count()] *)
Definition count {A} (rows : list A) : Z := Z.of_nat (length rows).

(** [queryset.filter(status=s)] on rows already fetched *)
Definition with_status (s : AttendanceStatus) (rows : list (Z * Attendance))
    : list (Z * Attendance) :=
  List.filter (fun kv => bool_decide (at_status kv.2 = s)) rows.

(** [order_by('-date')] *)
Definition by_date_desc (a b : Z * Attendance) : Prop :=
  toordinal (at_date b.2) <= toordinal (at_date a.2).

#[global] Instance by_date_desc_dec a b : Decision (by_date_desc a b).
Proof. unfold by_date_desc. apply _. Defined.

(** [order_by('-quarter', '-updated_at')] *)
Definition by_quarter_updated_desc (a b : Z * FinalGrade) : Prop :=
  fg_quarter b.2 < fg_quarter a.2
  \/ (fg_quarter b.2 = fg_quarter a.2 /\ fg_updated_at b.2 <= fg_updated_at a.2).

#[global] Instance by_quarter_updated_desc_dec a b : Decision (by_quarter_updated_desc a b).
Proof. unfold by_quarter_updated_desc. apply _. Defined.

(** Running the body of a loop that may raise over a list. *)
Fixpoint for_each {A B} (body : A -> Exn + B) (l : list A) : Exn + list B :=
  match l with
  | [] => inr []
  | x :: rest =>
      match body x with
      | inl e => inl e
      | inr y => match for_each body rest with
                 | inl e => inl e
                 | inr ys => inr (y :: ys)
                 end
      end
  end.

Section Views.
Context `{PyFloatOps}.

Record AttendanceStats := {
  st_total_days : Z;
  st_present_days : Z;
  st_attendance_rate : Num
}.

Record ChildData := {
  cdt_child : Z * Child;
  cdt_latest_grades : list (Z * FinalGrade);
  cdt_recent_attendance : list (Z * Attendance);
  cdt_attendance_stats : AttendanceStats
}.

(** The dashboard context; its [announcements] and [events] entries, read
    from tables no statement below concerns, are left out. *)
Record DashboardContext := {
  dc_parent : Z;
  dc_children_data : list ChildData
}.

(** [Attendance.objects.filter(child=child, date__month=.., date__year=..)] *)
Definition current_month_attendance (today : Date) (child_id : Z) (db : DB)
    : list (Z * Attendance) :=
  objects_filter
    (fun _ a => (at_child a =? child_id) && (month (at_date a) =? month today)
                && (year (at_date a) =? year today))
    (attendance db).

(** The body of the [for child in children] loop of [parent_dashboard]. *)
Definition child_data (today : Date) (db : DB) (child : Z * Child) : Exn + ChildData :=
  let latest_grades :=
    take 5 (merge_sort by_quarter_updated_desc
              (objects_filter (fun _ g => fg_student g =? child.1) (final_grades db))) in
  let recent_attendance :=
    take 10 (merge_sort by_date_desc
               (objects_filter (fun _ a => at_child a =? child.1) (attendance db))) in
  let month_rows := current_month_attendance today child.1 db in
  let total_days := count month_rows in
  let present_days := count (with_status present month_rows) in
  match
    (if 0 <? total_days
     then match truediv present_days total_days with
          | inl e => inl e
          | inr q => inr (PyFloat (float_mul_int q 100))
          end
     else inr (PyInt 0))
  with
  | inl e => inl e
  | inr attendance_rate =>
      inr {| cdt_child := child;
             cdt_latest_grades := latest_grades;
             cdt_recent_attendance := recent_attendance;
             cdt_attendance_stats :=
               {| st_total_days := total_days;
                  st_present_days := present_days;
                  st_attendance_rate := round attendance_rate 1 |} |}
  end.

Definition parent_dashboard (today : Date) : View DashboardContext :=
  login_required (parent_required (fun u req db =>
    with_profile (parent_profile u) (fun parent_id =>
      let children :=
        objects_filter (fun _ c => bool_decide (parent_id ∈ parents c)) (children db) in
      match for_each (child_data today db) children with
      | inl ZeroDivisionError => (ServerError "ZeroDivisionError", db)
      | inr children_data =>
          (Render "users/parent_dashboard.html"
             {| dc_parent := parent_id; dc_children_data := children_data |}, db)
      end) db)).

Record AttendanceSummary := {
  total_days : Z;
  present_days : Z;
  absent_days : Z;
  late_days : Z;
  attendance_rate : Num
}.

Record ChildDetailContext := {
  cd_child : Z * Child;
  cd_enrolled_classes : list (Z * Class);
  cd_grades_by_quarter : list (Z * list (Z * FinalGrade));
  cd_attendance : list (Z * Attendance);
  cd_attendance_summary : AttendanceSummary
}.

(** [Class.objects.filter(enrollments__student=child)]: one row per
    enrollment of the child whose class exists. *)
Definition enrolled_classes (child_id : Z) (db : DB) : list (Z * Class) :=
  omap (fun kv => (fun c => (en_class_obj kv.2, c)) <$> classes db !! en_class_obj kv.2)
    (objects_filter (fun _ e => en_student e =? child_id) (enrollments db)).

(** The dict filled by [for quarter in range(1, 5)]. *)
Definition grades_by_quarter (child_id : Z) (db : DB) : list (Z * list (Z * FinalGrade)) :=
  omap (fun quarter =>
          match objects_filter
                  (fun _ g => (fg_student g =? child_id) && (fg_quarter g =? quarter))
                  (final_grades db) with
          | [] => None
          | grades => Some (quarter, grades)
          end)
    [1; 2; 3; 4].

(** [Attendance.objects.filter(child=child, date__gte=thirty_days_ago)] *)
Definition recent_attendance (today : Date) (child_id : Z) (db : DB)
    : list (Z * Attendance) :=
  let thirty_days_ago := toordinal today - 30 in
  objects_filter
    (fun _ a => (at_child a =? child_id) && (thirty_days_ago <=? toordinal (at_date a)))
    (attendance db).

Definition child_detail (today : Date) (child_id : Z) : View ChildDetailContext :=
  login_required (parent_required (fun u req db =>
    with_profile (parent_profile u) (fun parent_id =>
      match get_by_id child_id (fun c => bool_decide (parent_id ∈ parents c))
              (children db) with
      | None =>
          (Redirect "users:parent_dashboard" [],
           add_message error "Child not found or you do not have access." db)
      | Some child =>
          let attendance_rows :=
            take 30 (merge_sort by_date_desc
                       (objects_filter (fun _ a => at_child a =? child_id) (attendance db))) in
          let recent := recent_attendance today child_id db in
          let total_days := count recent in
          let present_days := count (with_status present recent) in
          let absent_days := count (with_status absent recent) in
          let late_days := count (with_status late recent) in
          match
            (if 0 <? total_days
             then match truediv present_days total_days with
                  | inl e => inl e
                  | inr q => inr (PyFloat (float_mul_int q 100))
                  end
             else inr (PyInt 0))
          with
          | inl ZeroDivisionError => (ServerError "ZeroDivisionError", db)
          | inr rate =>
              (Render "users/child_detail.html"
                 {| cd_child := (child_id, child);
                    cd_enrolled_classes := enrolled_classes child_id db;
                    cd_grades_by_quarter := grades_by_quarter child_id db;
                    cd_attendance := attendance_rows;
                    cd_attendance_summary :=
                      {| total_days := total_days;
                         present_days := present_days;
                         absent_days := absent_days;
                         late_days := late_days;
                         attendance_rate := round rate 1 |} |}, db)
          end
      end) db)).

(** The rate as the specification words it: present days over total days,
    times 100, rounded to one decimal; 0 when the window has no day. *)
Definition spec_attendance_rate (present_days total_days : Z) : Num :=
  if total_days =? 0 then PyInt 0
  else PyFloat (float_round (float_mul_int (int_truediv present_days total_days) 100) 1).

(** The parent is one of the child's guardians. *)
Definition guardian (parent_id child_id : Z) (db : DB) : Prop :=
  exists child, children db !! child_id = Some child /\ parent_id ∈ parents child.

End Views.

End UsersViews.

(** ** [monitoring/views.py]: the teacher's pages *)

Module Monitoring.
Import PyNum Users Models Orm Http.

Record ClassDetailContext := {
  cdc_class_obj : Z * Class;
  cdc_teacher : Z
}.

Definition class_detail (class_id : Z) : View ClassDetailContext :=
  login_required (teacher_required (fun u req db =>
    with_profile (teacher_profile u) (fun teacher_id =>
      get_object_or_404 class_id (fun c => cl_teacher c =? teacher_id) (classes db)
        (fun class_obj =>
           (Render "monitoring/class_detail.html"
              {| cdc_class_obj := (class_id, class_obj); cdc_teacher := teacher_id |}, db))
        db) db)).

(** [order_by('class_obj', 'quarter')] *)
Definition by_class_quarter (a b : Z * FinalGrade) : Prop :=
  fg_class_obj a.2 < fg_class_obj b.2
  \/ (fg_class_obj a.2 = fg_class_obj b.2 /\ fg_quarter a.2 <= fg_quarter b.2).

#[global] Instance by_class_quarter_dec a b : Decision (by_class_quarter a b).
Proof. unfold by_class_quarter. apply _. Defined.

Record StudentGradesContext := {
  sg_student : Z * Child;
  sg_grades : list (Z * FinalGrade);
  sg_teacher : Z
}.

(** [class_obj__teacher=teacher]: the grade's class exists and is the
    teacher's. *)
Definition in_class_of (teacher_id : Z) (db : DB) (g : FinalGrade) : bool :=
  match classes db !! fg_class_obj g with
  | Some c => cl_teacher c =? teacher_id
  | None => false
  end.

Definition student_grades (student_id : Z) : View StudentGradesContext :=
  login_required (teacher_required (fun u req db =>
    with_profile (teacher_profile u) (fun teacher_id =>
      get_object_or_404 student_id (fun _ => true) (children db)
        (fun student =>
           let grades :=
             merge_sort by_class_quarter
               (objects_filter
                  (fun _ g => (fg_student g =? student_id) && in_class_of teacher_id db g)
                  (final_grades db)) in
           (Render "monitoring/student_grades.html"
              {| sg_student := (student_id, student); sg_grades := grades;
                 sg_teacher := teacher_id |}, db))
        db) db)).

Record StudentAttendanceContext := {
  sa_student : Z * Child;
  sa_attendance : list (Z * Attendance);
  sa_teacher : Z
}.

Definition student_attendance (student_id : Z) : View StudentAttendanceContext :=
  login_required (teacher_required (fun u req db =>
    with_profile (teacher_profile u) (fun teacher_id =>
      get_object_or_404 student_id (fun _ => true) (children db)
        (fun student =>
           let attendance_rows :=
             take 30 (merge_sort UsersViews.by_date_desc
                        (objects_filter (fun _ a => at_child a =? student_id)
                           (attendance db))) in
           (Render "monitoring/student_attendance.html"
              {| sa_student := (student_id, student); sa_attendance := attendance_rows;
                 sa_teacher := teacher_id |}, db))
        db) db)).

(** A student is a teacher's when enrolled in a class the teacher owns. *)
Definition enrolled_with (teacher_id student_id : Z) (db : DB) : Prop :=
  exists e_id e class_obj,
    enrollments db !! e_id = Some e /\ en_student e = student_id /\
    classes db !! en_class_obj e = Some class_obj /\ cl_teacher class_obj = teacher_id.

End Monitoring.

(** ** [information/views.py]: reading a chat room

    [ChatRoom.get_unread_count], [chat_room] and [mark_messages_read].  Each
    [msg.mark_as_read()] of a loop reads the clock on its own: [clock i] is
    the reading at the [i]-th message marked. *)

Module Chat.
Import PyStr Users Models Orm Http Information.

(** [.filter(is_read=False).exclude(sender=user)] on the messages of a room *)
Definition unread_for (room_id user : Z) (_ : Z) (m : ChatMessage) : bool :=
  (cm_chat_room m =? room_id) && negb (cm_is_read m) && negb (cm_sender m =? user).

(** [ChatRoom.get_unread_count(user)] for the room of key [room_id] *)
Definition get_unread_count (room_id user : Z) (db : DB) : Z :=
  UsersViews.count (objects_filter (unread_for room_id user) (chat_messages db)).

(** [ChatMessage.Meta.ordering = ['created_at']] and [order_by('created_at')] *)
Definition by_created_at (a b : Z * ChatMessage) : Prop :=
  cm_created_at a.2 <= cm_created_at b.2.

#[global] Instance by_created_at_dec a b : Decision (by_created_at a b).
Proof. unfold by_created_at. apply _. Defined.

(** The unread messages of the room that others sent, oldest first. *)
Definition unread_messages (room_id user : Z) (db : DB) : list (Z * ChatMessage) :=
  merge_sort by_created_at (objects_filter (unread_for room_id user) (chat_messages db)).

(** [for msg in unread: msg.mark_as_read()]: the objects were loaded before
    the loop, the [i]-th of them is marked at [clock i]. *)
Fixpoint mark_each (clock : nat -> Z) (i : nat) (rows : list (Z * ChatMessage)) (db : DB)
    : DB :=
  match rows with
  | [] => db
  | (k, msg) :: rest =>
      mark_each clock (S i) rest (ChatMessage_mark_as_read (clock i) k msg db).2
  end.

(** The lookup both views start with: the room, for its parent or its
    teacher; [other] is what a user who is neither gets. *)
Definition with_room {C} (u : User) (room_id : Z) (other : Response C)
    (k : ChatRoom -> Response C * DB) (db : DB) : Response C * DB :=
  if is_parent u then
    with_profile (parent_profile u) (fun parent_id =>
      get_object_or_404 room_id (fun r => cr_parent r =? parent_id) (chat_rooms db) k db) db
  else if is_teacher u then
    with_profile (teacher_profile u) (fun teacher_id =>
      get_object_or_404 room_id (fun r => cr_teacher r =? teacher_id) (chat_rooms db) k db) db
  else (other, db).

Definition mark_messages_read (clock : nat -> Z) (room_id : Z) : View unit :=
  login_required (fun u req db =>
    with_room u room_id (JsonResponse [("error", JStr "Unauthorized")] 403)
      (fun room =>
         let unread := unread_messages room_id (user_id u) db in
         let count := UsersViews.count unread in
         (JsonResponse [("success", JBool true); ("count", JInt count)] 200,
          mark_each clock 0 unread db))
      db).

Record ChatRoomContext := {
  crc_room : Z * ChatRoom;
  crc_messages : list (Z * ChatMessage)
}.

(** [room.messages.all().order_by('created_at')] *)
Definition messages_list (room_id : Z) (db : DB) : list (Z * ChatMessage) :=
  merge_sort by_created_at
    (objects_filter (fun _ m => cm_chat_room m =? room_id) (chat_messages db)).

(** The queryset [messages_list] is lazy: the template iterates it, and so
    reads the rows, after the loop has marked them. *)
Definition chat_room (clock : nat -> Z) (room_id : Z) : View ChatRoomContext :=
  login_required (fun u req db =>
    with_room u room_id (Redirect "information:chat_list" [])
      (fun room =>
         let db1 := mark_each clock 0 (unread_messages room_id (user_id u) db) db in
         (Render "information/chat_room.html"
            {| crc_room := (room_id, room); crc_messages := messages_list room_id db1 |},
          db1))
      db).

(** A message as [mark_as_read] leaves it when it marks it at [now]. *)
Definition marked (now : Z) (m : ChatMessage) : ChatMessage :=
  {| cm_chat_room := cm_chat_room m; cm_sender := cm_sender m;
     cm_message_type := cm_message_type m; cm_content := cm_content m;
     cm_image := cm_image m; cm_file := cm_file m;
     cm_is_read := true; cm_read_at := Some now;
     cm_is_edited := cm_is_edited m; cm_edited_at := cm_edited_at m;
     cm_created_at := cm_created_at m |}.

End Chat.

(** ** [monitoring/views.py]: the pages of a class *)

Module ClassPages.
Import Users Models Orm Http.

Record ClassStudentsContext := {
  cs_class_obj : Z * Class;
  cs_enrollments : list (Z * Enrollment);
  cs_teacher : Z
}.

Definition class_students (class_id : Z) : View ClassStudentsContext :=
  login_required (teacher_required (fun u req db =>
    with_profile (teacher_profile u) (fun teacher_id =>
      get_object_or_404 class_id (fun c => cl_teacher c =? teacher_id) (classes db)
        (fun class_obj =>
           let enrollments :=
             objects_filter (fun _ e => en_class_obj e =? class_id) (enrollments db) in
           (Render "monitoring/class_students.html"
              {| cs_class_obj := (class_id, class_obj); cs_enrollments := enrollments;
                 cs_teacher := teacher_id |}, db))
        db) db)).

End ClassPages.

(** ** [information]: events and announcements

    The rows of [Event], [Announcement] and [AnnouncementRead], their tables
    beside the database of the other views, and the views on them. *)

Module Board.
Import PyStr PyNum Users Models Orm Http.

Record Event := {
  ev_title : string;
  ev_description : string;
  ev_event_type : string;
  ev_start_date : Date;
  ev_end_date : Date;
  ev_start_time : option Z;
  ev_end_time : option Z;
  ev_recurrence_pattern : option string;
  ev_recurrence_end_date : option Date;
  ev_location : string;
  ev_venue_details : string;
  ev_is_public : bool;
  ev_target_grades : string;
  ev_created_by : option Z;
  ev_image : option string;
  ev_attachment : option string;
  ev_is_active : bool;
  ev_is_cancelled : bool;
  ev_created_at : Z;
  ev_updated_at : Z
}.

(** [Event.is_upcoming], with [today] for [date.today()] *)
Definition is_upcoming (today : Date) (e : Event) : bool :=
  (toordinal today <=? toordinal (ev_start_date e)) && negb (ev_is_cancelled e).

Record Announcement := {
  an_title : string;
  an_content : string;
  an_category : string;
  an_priority : string;
  an_target_audience : string;
  an_posted_by : option Z;
  an_image : option string;
  an_attachment : option string;
  an_is_published : bool;
  an_publish_date : Z;
  an_expiry_date : option Z;
  an_views_count : Z;
  an_created_at : Z;
  an_updated_at : Z
}.

(** [Announcement.is_expired], with [now] for [timezone.now()] *)
Definition is_expired (now : Z) (a : Announcement) : bool :=
  match an_expiry_date a with
  | Some expiry => expiry <? now
  | None => false
  end.

Record AnnouncementRead := {
  ar_announcement : Z;
  ar_user : Z;
  ar_read_at : Z
}.

Record BoardDB := {
  base : DB;
  events : gmap Z Event;
  announcements : gmap Z Announcement;
  announcement_reads : gmap Z AnnouncementRead
}.

Definition BoardView (C : Type) : Type := Request -> BoardDB -> Response C * BoardDB.

(** [messages.success(request, s)] on the database underneath *)
Definition flash_success (s : string) (b : BoardDB) : BoardDB :=
  {| base := add_message success s (base b); events := events b;
     announcements := announcements b; announcement_reads := announcement_reads b |}.

(** [@login_required] and [@teacher_required], as in [Http], for the views
    on these tables. *)
Definition login_required_b {C} (view : User -> BoardView C) : BoardView C :=
  fun req b =>
    match user req with
    | None => (Redirect "login" [], b)
    | Some u => view u req b
    end.

Definition teacher_required_b {C} (view : User -> BoardView C) : User -> BoardView C :=
  fun u req b =>
    if is_teacher u then view u req b
    else (Redirect "users:login_selection" [], b).

(** [order_by('start_date')] *)
Definition by_start_date (a b : Z * Event) : Prop :=
  toordinal (ev_start_date a.2) <= toordinal (ev_start_date b.2).

#[global] Instance by_start_date_dec a b : Decision (by_start_date a b).
Proof. unfold by_start_date. apply _. Defined.

Definition event_list (today : Date) : BoardView (list (Z * Event)) :=
  login_required_b (fun u req b =>
    let events :=
      merge_sort by_start_date
        (objects_filter
           (fun _ e => ev_is_active e && (toordinal today <=? toordinal (ev_start_date e)))
           (events b)) in
    (Render "information/event_list.html" events, b)).

Definition event_detail (event_id : Z) : BoardView (Z * Event) :=
  login_required_b (fun u req b =>
    match get_by_id event_id (fun _ => true) (events b) with
    | Some event => (Render "information/event_detail.html" (event_id, event), b)
    | None => (Http404, b)
    end).

(** [created_by=teacher] on a nullable foreign key *)
Definition made_by (teacher_id : Z) (e : Event) : bool :=
  match ev_created_by e with
  | Some t => t =? teacher_id
  | None => false
  end.

Definition delete_event (event_id : Z) : BoardView unit :=
  login_required_b (teacher_required_b (fun u req b =>
    match teacher_profile u with
    | None => (ServerError "RelatedObjectDoesNotExist", b)
    | Some teacher_id =>
        match get_by_id event_id (made_by teacher_id) (events b) with
        | None => (Http404, b)
        | Some event =>
            match method req with
            | POST =>
                (Redirect "information:event_list" [],
                 flash_success "Event deleted successfully!"
                   {| base := base b; events := delete event_id (events b);
                      announcements := announcements b;
                      announcement_reads := announcement_reads b |})
            | _ => (Redirect "information:event_detail" [event_id], b)
            end
        end
    end)).

(** [order_by('-created_at')] *)
Definition by_created_desc (a b : Z * Announcement) : Prop :=
  an_created_at b.2 <= an_created_at a.2.

#[global] Instance by_created_desc_dec a b : Decision (by_created_desc a b).
Proof. unfold by_created_desc. apply _. Defined.

(** [target_audience__in=[...]] *)
Definition audience_in (audiences : list string) (a : Announcement) : bool :=
  existsb (String.eqb (an_target_audience a)) audiences.

(** The filter by role of [announcement_list]. *)
Definition for_role (u : User) (a : Announcement) : bool :=
  if is_parent u then audience_in ["all"; "parents"] a
  else if is_teacher u then audience_in ["all"; "teachers"] a
  else true.

Definition announcement_list : BoardView (list (Z * Announcement)) :=
  login_required_b (fun u req b =>
    let announcements :=
      merge_sort by_created_desc
        (objects_filter (fun _ a => an_is_published a && for_role u a) (announcements b)) in
    (Render "information/announcement_list.html" announcements, b)).

Definition read_of (announcement_id user : Z) (_ : Z) (r : AnnouncementRead) : bool :=
  (ar_announcement r =? announcement_id) && (ar_user r =? user).

(** [announcement.views_count += 1; announcement.save()] *)
Definition count_view (saved : Z) (a : Announcement) : Announcement :=
  {| an_title := an_title a; an_content := an_content a; an_category := an_category a;
     an_priority := an_priority a; an_target_audience := an_target_audience a;
     an_posted_by := an_posted_by a; an_image := an_image a;
     an_attachment := an_attachment a; an_is_published := an_is_published a;
     an_publish_date := an_publish_date a; an_expiry_date := an_expiry_date a;
     an_views_count := an_views_count a + 1;
     an_created_at := an_created_at a; an_updated_at := saved |}.

(** [now] is the clock at the insert of the read marker, [saved] the clock
    at [announcement.save()]. *)
Definition announcement_detail (now saved : Z) (announcement_id : Z)
    : BoardView (Z * Announcement) :=
  login_required_b (fun u req b =>
    match get_by_id announcement_id an_is_published (announcements b) with
    | None => (Http404, b)
    | Some announcement =>
        let marked :=
          match objects_get (read_of announcement_id (user_id u)) (announcement_reads b) with
          | Found _ _ => Some (announcement_reads b)
          | DoesNotExist =>
              Some (objects_create
                      {| ar_announcement := announcement_id; ar_user := user_id u;
                         ar_read_at := now |} (announcement_reads b)).2
          | MultipleObjectsReturned => None
          end in
        match marked with
        | None => (ServerError "MultipleObjectsReturned", b)
        | Some reads =>
            let announcement := count_view saved announcement in
            (Render "information/announcement_detail.html" (announcement_id, announcement),
             {| base := base b; events := events b;
                announcements := save announcement_id announcement (announcements b);
                announcement_reads := reads |})
        end
    end).

(** [posted_by=teacher] on a nullable foreign key *)
Definition posted_by (teacher_id : Z) (a : Announcement) : bool :=
  match an_posted_by a with
  | Some t => t =? teacher_id
  | None => false
  end.

(** [announcement.delete()]: the read markers of the announcement go with
    it ([on_delete=CASCADE]). *)
Definition delete_announcement (announcement_id : Z) : BoardView unit :=
  login_required_b (teacher_required_b (fun u req b =>
    match teacher_profile u with
    | None => (ServerError "RelatedObjectDoesNotExist", b)
    | Some teacher_id =>
        match get_by_id announcement_id (posted_by teacher_id) (announcements b) with
        | None => (Http404, b)
        | Some announcement =>
            match method req with
            | POST =>
                (Redirect "information:announcement_list" [],
                 flash_success "Announcement deleted successfully!"
                   {| base := base b; events := events b;
                      announcements := delete announcement_id (announcements b);
                      announcement_reads :=
                        filter (fun kr => ar_announcement kr.2 <> announcement_id)
                          (announcement_reads b) |})
            | _ => (Redirect "information:announcement_detail" [announcement_id], b)
            end
        end
    end)).

(** [AnnouncementRead.Meta.unique_together = ['announcement', 'user']] *)
Definition one_read_each (reads : gmap Z AnnouncementRead) : Prop :=
  forall k1 k2 r1 r2,
    reads !! k1 = Some r1 -> reads !! k2 = Some r2 ->
    ar_announcement r1 = ar_announcement r2 -> ar_user r1 = ar_user r2 -> k1 = k2.

End Board.

(** ** Counting characters *)

Module StrCount.

(** [s.count(c)] for one character *)
Fixpoint str_count (c : ascii) (s : string) : nat :=
  match s with
  | EmptyString => O
  | String x s' => (if Ascii.eqb x c then 1 else 0) + str_count c s'
  end.

End StrCount.

(** ** Sample data

    A small school: parent profile 3 (user 7) is the guardian of child 5,
    teacher profile 4 (user 8) owns class 1, in which child 5 is enrolled;
    child 6 belongs to another family and to class 2 of teacher 10. *)

Module Sample.
Import PyStr PyNum Users Models Orm Http.

Definition no_rows : DB :=
  {| teachers := ∅; children := ∅; classes := ∅; enrollments := ∅;
     final_grades := ∅; attendance := ∅; chat_rooms := ∅; chat_messages := ∅;
     notifications := ∅; bot_messages := ∅; flash := [] |}.

Definition mum : User :=
  {| user_id := 7; role := parent; teacher_profile := None; parent_profile := Some 3 |}.

Definition miss : User :=
  {| user_id := 8; role := teacher; teacher_profile := Some 4; parent_profile := None |}.

Definition office : User :=
  {| user_id := 9; role := admin; teacher_profile := None; parent_profile := None |}.

Definition post_as (u : User) (key value : string) : Request :=
  {| method := POST; user := Some u; POST_data := {[ key := value ]}; is_ajax := true |}.

Definition get_as (u : User) : Request :=
  {| method := GET; user := Some u; POST_data := ∅; is_ajax := false |}.

Definition bot (keywords response : string) (priority : Z) : BotMessage :=
  {| bm_category := "faq"; bm_keywords := keywords; bm_response_text := response;
     bm_has_buttons := false; bm_button_options := None; bm_priority := priority;
     bm_usage_count := 0; bm_is_active := true; bm_created_at := 0; bm_updated_at := 0 |}.

Definition grade_bot : BotMessage := bot "grade,grades" "Grades are posted every quarter." 5.
Definition hello_bot : BotMessage := bot "hello" "Hello! How can I help?" 10.

Definition with_bots (t : gmap Z BotMessage) : DB := set_bot_messages (fun _ => t) no_rows.

Definition chatbot_db : DB := with_bots (<[1 := grade_bot]> (<[2 := hello_bot]> ∅)).

Definition room_3_4 : ChatRoom :=
  {| cr_parent := 3; cr_teacher := 4; cr_subject := ""; cr_is_active := true;
     cr_is_archived := false; cr_last_message_at := None;
     cr_created_at := 100; cr_updated_at := 100 |}.

Definition notice (recipient : Z) (is_read : bool) (read_at : option Z) : Notification :=
  {| nt_recipient := recipient; nt_notification_type := "general";
     nt_title := "Field trip"; nt_message := "Bring a packed lunch.";
     nt_link_url := ""; nt_is_read := is_read; nt_read_at := read_at;
     nt_created_at := 90 |}.

Definition on (y m d : Z) : Date := {| year := y; month := m; day := d |}.

Definition mark (child : Z) (d : Date) (s : AttendanceStatus) (by_teacher : Z) : Attendance :=
  {| at_child := child; at_date := d; at_status := s; at_recorded_by := Some by_teacher |}.

Definition ben : Child :=
  {| first_name := "Ben"; last_name := "Reyes"; parents := {[ 11 ]} |}.

Definition school_db : DB :=
  {| teachers := {[ 4 := {| teacher_user := 8 |} ]};
     children :=
       <[5 := {| first_name := "Ana"; last_name := "Cruz"; parents := {[ 3 ]} |}]>
         {[ 6 := ben ]};
     classes :=
       <[1 := {| cl_teacher := 4; cl_name := "Kinder A" |}]>
         {[ 2 := {| cl_teacher := 10; cl_name := "Kinder B" |} ]};
     enrollments :=
       <[1 := {| en_class_obj := 1; en_student := 5 |}]>
         {[ 2 := {| en_class_obj := 2; en_student := 6 |} ]};
     final_grades :=
       {[ 1 := {| fg_student := 6; fg_class_obj := 2; fg_quarter := 1;
                  fg_final_grade := 88; fg_updated_at := 70 |} ]};
     attendance :=
       <[1 := mark 5 (on 2026 10 1) present 4]>
         (<[2 := mark 5 (on 2026 10 2) absent 4]>
            (<[3 := mark 5 (on 2026 10 5) present 4]>
               {[ 4 := mark 6 (on 2026 10 1) late 10 ]}));
     chat_rooms := {[ 1 := room_3_4 ]};
     chat_messages := ∅;
     notifications :=
       <[1 := notice 7 false None]> {[ 2 := notice 8 false None ]};
     bot_messages := ∅;
     flash := [] |}.

Definition today : Date := on 2026 10 20.

(** Room 1 with two unread messages: one from the teacher (user 8), one
    from the parent (user 7). *)
Definition chat_db : DB :=
  set_chat_messages
    (fun _ => <[1 := Information.new_chat_message 20 1 8 "Ana forgot her bag."]>
                {[ 2 := Information.new_chat_message 30 1 7 "Thank you, I will fetch it." ]})
    school_db.

Definition posted (title audience : string) (poster : option Z) (published : bool)
    (created : Z) : Board.Announcement :=
  {| Board.an_title := title; Board.an_content := "See the notice board.";
     Board.an_category := "general"; Board.an_priority := "normal";
     Board.an_target_audience := audience; Board.an_posted_by := poster;
     Board.an_image := None; Board.an_attachment := None;
     Board.an_is_published := published; Board.an_publish_date := created;
     Board.an_expiry_date := None; Board.an_views_count := 0;
     Board.an_created_at := created; Board.an_updated_at := created |}.

Definition outing (start : Date) (creator : option Z) (cancelled : bool) : Board.Event :=
  {| Board.ev_title := "Zoo outing"; Board.ev_description := "A morning at the zoo.";
     Board.ev_event_type := "one_time"; Board.ev_start_date := start;
     Board.ev_end_date := start; Board.ev_start_time := None; Board.ev_end_time := None;
     Board.ev_recurrence_pattern := None; Board.ev_recurrence_end_date := None;
     Board.ev_location := "City zoo"; Board.ev_venue_details := "";
     Board.ev_is_public := true; Board.ev_target_grades := "";
     Board.ev_created_by := creator; Board.ev_image := None; Board.ev_attachment := None;
     Board.ev_is_active := true; Board.ev_is_cancelled := cancelled;
     Board.ev_created_at := 60; Board.ev_updated_at := 60 |}.

Definition board : Board.BoardDB :=
  {| Board.base := school_db;
     Board.events :=
       <[1 := outing (on 2026 11 5) (Some 4) false]>
         {[ 2 := outing (on 2026 12 1) None true ]};
     Board.announcements :=
       <[1 := posted "Parents' evening" "parents" (Some 4) true 80]>
         {[ 2 := posted "Staff meeting" "teachers" (Some 10) false 85 ]};
     Board.announcement_reads := ∅ |}.

End Sample.

(** * Properties *)

Import PyStr PyNum Users Models Orm Http Information UsersViews Monitoring.

(** ** Tables *)

Section TableFacts.
Context {A : Type}.
Implicit Types (t : gmap Z A) (P : Z -> A -> bool).

Lemma elem_of_objects_filter P t k r :
  (k, r) ∈ objects_filter P t <-> t !! k = Some r /\ P k r = true.
Proof.
  unfold objects_filter.
  rewrite list_elem_of_In, filter_In, <- list_elem_of_In, elem_of_map_to_list.
  reflexivity.
Qed.

Lemma objects_filter_nil P t :
  objects_filter P t = [] <-> forall k r, t !! k = Some r -> P k r = false.
Proof.
  split.
  - intros Hnil k r Hk. destruct (P k r) eqn:HP; [|done].
    assert ((k, r) ∈ objects_filter P t) as Hin by (by apply elem_of_objects_filter).
    rewrite Hnil in Hin. by apply elem_of_nil in Hin.
  - intros Hall. destruct (objects_filter P t) as [|[k r] l] eqn:E; [done|].
    assert ((k, r) ∈ objects_filter P t) as Hin by (rewrite E; left).
    apply elem_of_objects_filter in Hin as [Hk HP].
    rewrite (Hall _ _ Hk) in HP. done.
Qed.

Lemma filter_Permutation_bool {B} (f : B -> bool) (l1 l2 : list B) :
  l1 ≡ₚ l2 -> List.filter f l1 ≡ₚ List.filter f l2.
Proof.
  induction 1 as [|x l1 l2 _ IH|x y l|l1 l2 l3 _ IH1 _ IH2]; simpl.
  - done.
  - destruct (f x); [by constructor | done].
  - destruct (f x), (f y); try done. apply perm_swap.
  - by etrans.
Qed.

Lemma key_le_fold t k :
  is_Some (t !! k) -> k <= map_fold (fun k _ acc => Z.max k acc) 0 t.
Proof.
  revert k.
  apply (map_fold_weak_ind
           (fun (b : Z) (m : gmap Z A) => forall k, is_Some (m !! k) -> k <= b)).
  - intros k [x Hx]. by rewrite lookup_empty in Hx.
  - intros i x m b Hi IH k Hk.
    destruct (decide (i = k)) as [->|Hne]; [lia|].
    rewrite lookup_insert_ne in Hk by done. specialize (IH k Hk). lia.
Qed.

Lemma next_id_fresh t : t !! next_id t = None.
Proof.
  destruct (t !! next_id t) eqn:E; [|done].
  assert (next_id t <= map_fold (fun k _ acc => Z.max k acc) 0 t) as Hle
    by (apply key_le_fold; eauto).
  unfold next_id in Hle. lia.
Qed.

Lemma objects_get_found P t k r :
  objects_get P t = Found k r -> t !! k = Some r /\ P k r = true.
Proof.
  unfold objects_get. intros Hget.
  apply elem_of_objects_filter.
  destruct (objects_filter P t) as [|[k1 r1] [|]]; try done.
  injection Hget as -> ->. left.
Qed.

Lemma objects_get_missing P t :
  objects_get P t = DoesNotExist -> forall k r, t !! k = Some r -> P k r = false.
Proof.
  unfold objects_get. intros Hget. apply objects_filter_nil.
  destruct (objects_filter P t) as [|[k1 r1] [|]]; done.
Qed.

(** After inserting a matching row under a fresh key into a table with no
    matching row, the lookup finds exactly that row. *)
Lemma objects_get_created P t k r :
  t !! k = None -> P k r = true -> objects_filter P t = [] ->
  objects_get P (<[k := r]> t) = Found k r.
Proof.
  intros Hk HP Hnil. unfold objects_get.
  assert (objects_filter P (<[k := r]> t) ≡ₚ [(k, r)]) as Hperm.
  { unfold objects_filter in *.
    rewrite (filter_Permutation_bool _ _ _ (map_to_list_insert t k r Hk)).
    simpl. rewrite HP, Hnil. done. }
  apply Permutation_singleton_r in Hperm. by rewrite Hperm.
Qed.

End TableFacts.

(** ** Read marks *)

(** C6: [ChatMessage.mark_as_read] is idempotent.  After one call the
    message is read, and an unread message has been stamped with the time of
    that call and saved; a second call, at any later clock reading, returns
    the same object and leaves the database as the first call left it, so
    [read_at] is not stamped again. *)
Theorem mark_as_read_idempotent (t1 t2 k : Z) (m : ChatMessage) (db : DB) :
  let m1 := (ChatMessage_mark_as_read t1 k m db).1 in
  let db1 := (ChatMessage_mark_as_read t1 k m db).2 in
  cm_is_read m1 = true
  /\ cm_read_at m1 = (if cm_is_read m then cm_read_at m else Some t1)
  /\ (if cm_is_read m then db1 = db else chat_messages db1 !! k = Some m1)
  /\ ChatMessage_mark_as_read t2 k m1 db1 = (m1, db1).
Proof.
  unfold ChatMessage_mark_as_read.
  destruct (cm_is_read m) eqn:Hread; simpl.
  - rewrite Hread. simpl. done.
  - repeat split. unfold save. apply lookup_insert_eq.
Qed.

(** C10: [mark_all_notifications_read] marks every unread notification of
    the requesting user as read and writes nothing else: [read_at] keeps the
    value it had (null stays null), the other columns are unchanged, and the
    notifications of other users and those already read are the same rows as
    before.  [mark_notification_read] on an unread notification of the user
    sets [is_read] and stamps [read_at] with the time of the call, leaving
    the other columns and every other notification unchanged. *)
Theorem notifications_read_frame (now : Z) (req : Request) (u : User) (db : DB) :
  user req = Some u ->
  (let db1 := (mark_all_notifications_read req db).2 in
   forall k,
     match notifications db !! k with
     | None => notifications db1 !! k = None
     | Some n =>
         if decide (nt_recipient n = user_id u /\ nt_is_read n = false) then
           exists n1, notifications db1 !! k = Some n1
             /\ nt_is_read n1 = true
             /\ nt_read_at n1 = nt_read_at n
             /\ nt_recipient n1 = nt_recipient n
             /\ nt_notification_type n1 = nt_notification_type n
             /\ nt_title n1 = nt_title n
             /\ nt_message n1 = nt_message n
             /\ nt_link_url n1 = nt_link_url n
             /\ nt_created_at n1 = nt_created_at n
         else notifications db1 !! k = Some n
     end)
  /\
  (forall id n,
     notifications db !! id = Some n ->
     nt_recipient n = user_id u ->
     nt_is_read n = false ->
     let db1 := (mark_notification_read now id req db).2 in
     (exists n1, notifications db1 !! id = Some n1
        /\ nt_is_read n1 = true
        /\ nt_read_at n1 = Some now
        /\ nt_recipient n1 = nt_recipient n
        /\ nt_notification_type n1 = nt_notification_type n
        /\ nt_title n1 = nt_title n
        /\ nt_message n1 = nt_message n
        /\ nt_link_url n1 = nt_link_url n
        /\ nt_created_at n1 = nt_created_at n)
     /\ forall k, k <> id -> notifications db1 !! k = notifications db !! k).
Proof.
  intros Hu. split.
  - intros db1 k. subst db1.
    unfold mark_all_notifications_read, login_required. rewrite Hu. simpl.
    unfold update_where. rewrite lookup_fmap.
    destruct (notifications db !! k) as [n|] eqn:Hk; simpl; [|done].
    destruct (decide _) as [[Hr Hread]|Hnot].
    + rewrite Hr, Z.eqb_refl, Hread. simpl. eexists. split; [done|]. simpl. done.
    + destruct (nt_recipient n =? user_id u) eqn:Hr; simpl; [|done].
      destruct (nt_is_read n) eqn:Hread; simpl; [done|].
      exfalso. apply Hnot. split; [by apply Z.eqb_eq | done].
  - intros id n Hid Hr Hread db1. subst db1.
    unfold mark_notification_read, login_required, get_object_or_404, get_by_id.
    rewrite Hu, Hid, Hr, Z.eqb_refl.
    unfold Notification_mark_as_read. rewrite Hread. simpl.
    split.
    + destruct (is_ajax req); simpl; unfold save; rewrite lookup_insert_eq;
        eexists; (split; [done|]); simpl; done.
    + intros k Hne.
      destruct (is_ajax req); simpl; unfold save; by rewrite lookup_insert_ne.
Qed.

(** ** Chat rooms *)

Lemma objects_get_not_multiple (pa te : Z) (rooms : gmap Z ChatRoom) :
  unique_together rooms ->
  objects_get (room_of_pair pa te) rooms <> MultipleObjectsReturned.
Proof.
  intros Huniq Hget. unfold objects_get in Hget.
  destruct (objects_filter (room_of_pair pa te) rooms) as [|[k1 r1] [|[k2 r2] l]] eqn:E;
    try done.
  assert (NoDup ((k1, r1) :: (k2, r2) :: l)) as Hnd.
  { rewrite <- E. unfold objects_filter. apply NoDup_ListNoDup, List.NoDup_filter,
      NoDup_ListNoDup, NoDup_map_to_list. }
  assert ((k1, r1) ∈ objects_filter (room_of_pair pa te) rooms) as H1
    by (rewrite E; left).
  assert ((k2, r2) ∈ objects_filter (room_of_pair pa te) rooms) as H2
    by (rewrite E; right; left).
  apply elem_of_objects_filter in H1 as [H1 P1], H2 as [H2 P2].
  unfold room_of_pair in P1, P2.
  apply andb_true_iff in P1 as [P1a P1b], P2 as [P2a P2b].
  apply Z.eqb_eq in P1a, P1b, P2a, P2b.
  assert (k1 = k2) as -> by (eapply Huniq; eauto; congruence).
  assert (r1 = r2) as -> by congruence.
  apply NoDup_cons in Hnd as [Hnotin _]. apply Hnotin. left.
Qed.

Lemma unique_together_insert (rooms : gmap Z ChatRoom) (k : Z) (r : ChatRoom) :
  unique_together rooms ->
  rooms !! k = None ->
  (forall k' r', rooms !! k' = Some r' -> room_of_pair (cr_parent r) (cr_teacher r) k' r' = false) ->
  unique_together (<[k := r]> rooms).
Proof.
  intros Huniq Hfresh Hnone k1 k2 r1 r2 H1 H2 Hp Ht.
  assert (forall k' r', rooms !! k' = Some r' ->
            cr_parent r' = cr_parent r -> cr_teacher r' = cr_teacher r -> False) as Hno.
  { intros k' r' Hk' Hp' Ht'. specialize (Hnone k' r' Hk').
    unfold room_of_pair in Hnone. rewrite Hp', Ht', !Z.eqb_refl in Hnone. done. }
  destruct (decide (k1 = k)) as [->|Hne1], (decide (k2 = k)) as [->|Hne2]; [done|..].
  - rewrite lookup_insert_eq in H1. rewrite lookup_insert_ne in H2 by done.
    injection H1 as <-. exfalso. eapply Hno; eauto.
  - rewrite lookup_insert_eq in H2. rewrite lookup_insert_ne in H1 by done.
    injection H2 as <-. exfalso. eapply Hno; eauto.
  - rewrite lookup_insert_ne in H1, H2 by done. eapply Huniq; eauto.
Qed.

(** What [start_chat] does for a parent and an existing teacher. *)
Lemma start_chat_parent (now teacher_id pa : Z) (req : Request) (u : User) (db : DB) :
  user req = Some u ->
  role u = parent ->
  parent_profile u = Some pa ->
  is_Some (teachers db !! teacher_id) ->
  start_chat now teacher_id req db
  = match objects_get (room_of_pair pa teacher_id) (chat_rooms db) with
    | Found room_id _ => (Redirect "information:chat_room" [room_id], db)
    | DoesNotExist =>
        (Redirect "information:chat_room" [next_id (chat_rooms db)],
         add_message success "Chat started successfully!"
           (set_chat_rooms
              (fun _ => <[next_id (chat_rooms db) :=
                            new_chat_room now pa teacher_id]> (chat_rooms db)) db))
    | MultipleObjectsReturned => (ServerError "MultipleObjectsReturned", db)
    end.
Proof.
  intros Hu Hrole Hprof [te Hte].
  unfold start_chat, login_required, parent_required, is_parent,
    with_profile, get_object_or_404, get_by_id.
  rewrite Hu, Hrole, Hprof, Hte. simpl.
  destruct (objects_get _ _); done.
Qed.

(** C5: on a table of rooms that satisfies the uniqueness constraint,
    [start_chat] by a parent for an existing teacher redirects to a room of
    that (parent, teacher) pair and keeps the constraint, so at most one room
    of the pair exists afterwards; calling it again redirects to the room of
    the same identifier and changes nothing in the database. *)
Theorem start_chat_same_room (now1 now2 teacher_id pa : Z) (req : Request) (u : User)
    (db : DB) :
  user req = Some u ->
  role u = parent ->
  parent_profile u = Some pa ->
  is_Some (teachers db !! teacher_id) ->
  unique_together (chat_rooms db) ->
  exists room_id room,
    let db1 := (start_chat now1 teacher_id req db).2 in
    (start_chat now1 teacher_id req db).1 = Redirect "information:chat_room" [room_id]
    /\ chat_rooms db1 !! room_id = Some room
    /\ cr_parent room = pa /\ cr_teacher room = teacher_id
    /\ unique_together (chat_rooms db1)
    /\ (forall k r, chat_rooms db1 !! k = Some r ->
                    cr_parent r = pa -> cr_teacher r = teacher_id -> k = room_id)
    /\ start_chat now2 teacher_id req db1
       = (Redirect "information:chat_room" [room_id], db1).
Proof.
  intros Hu Hrole Hprof Hte Huniq.
  pose proof (fun now d (Hd : is_Some (teachers d !! teacher_id)) =>
                start_chat_parent now teacher_id pa req u d Hu Hrole Hprof Hd) as Hstep.
  rewrite (Hstep now1 db Hte).
  destruct (objects_get (room_of_pair pa teacher_id) (chat_rooms db))
    as [room_id room| |] eqn:Hget.
  - (* the room exists *)
    pose proof (objects_get_found _ _ _ _ Hget) as [Hroom HP].
    unfold room_of_pair in HP. apply andb_true_iff in HP as [HPa HPb].
    apply Z.eqb_eq in HPa, HPb.
    exists room_id, room. simpl. repeat split; try done.
    + intros k r Hk Hp Ht. eapply Huniq; eauto; congruence.
    + rewrite (Hstep now2 db Hte), Hget. done.
  - (* no room yet: one is created under a fresh key *)
    set (k := next_id (chat_rooms db)).
    set (room := new_chat_room now1 pa teacher_id).
    pose proof (next_id_fresh (chat_rooms db)) as Hfresh. fold k in Hfresh.
    pose proof (objects_get_missing _ _ Hget) as Hnone.
    assert (unique_together (<[k := room]> (chat_rooms db))) as Huniq1
      by (apply unique_together_insert; done).
    exists k, room. simpl. repeat split; try done.
    + apply lookup_insert_eq.
    + intros k' r' Hk' Hp Ht.
      eapply Huniq1; [exact Hk' | apply lookup_insert_eq | done | done].
    + rewrite Hstep by done. simpl.
      rewrite (objects_get_created _ _ k room Hfresh); [done| |].
      * unfold room_of_pair. simpl. by rewrite !Z.eqb_refl.
      * by apply objects_filter_nil.
  - by apply objects_get_not_multiple in Hget.
Qed.

(** ** Sending a message *)

Lemma truthy_nonempty (s : string) : s <> "" -> truthy s = true.
Proof. by destruct s. Qed.

(** A participant's POST with content left after stripping: the message is
    inserted under the next key, the room is touched, the reply is the
    success object. *)
Lemma send_message_participant (created now saved room_id : Z) (req : Request)
    (u : User) (db : DB) (room : ChatRoom) :
  user req = Some u ->
  method req = POST ->
  strip (POST_get req "content") <> "" ->
  chat_rooms db !! room_id = Some room ->
  participant u room ->
  let content := strip (POST_get req "content") in
  let message_id := next_id (chat_messages db) in
  send_message created now saved room_id req db
  = (JsonResponse [("success", JBool true); ("message_id", JInt message_id);
                   ("content", JStr content); ("created_at", JDateTime created)] 200,
     set_chat_rooms (save room_id (touch_room now saved room))
       (set_chat_messages
          (fun _ => <[message_id := new_chat_message created room_id (user_id u) content]>
                      (chat_messages db)) db)).
Proof.
  intros Hu Hpost Hcontent Hroom Hpart. simpl.
  unfold send_message, login_required. rewrite Hu, Hpost.
  rewrite (truthy_nonempty _ Hcontent). simpl.
  unfold is_parent, is_teacher, with_profile, get_object_or_404, get_by_id.
  destruct Hpart as [[Hrole Hprof]|[Hrole Hprof]]; rewrite Hrole, Hprof; simpl;
    rewrite Hroom, Z.eqb_refl; done.
Qed.

(** C3: a POST to [send_message] whose content is empty or only whitespace
    is answered with an error object and status 400, and the database, with
    its messages and every field of every room, is what it was; a participant's
    POST whose stripped content is not empty adds exactly one row to the
    table of messages. *)
Theorem send_message_rejects_blank (created now saved room_id : Z) (req : Request)
    (u : User) (db : DB) :
  user req = Some u ->
  method req = POST ->
  (strip (POST_get req "content") = "" ->
   send_message created now saved room_id req db
   = (JsonResponse [("error", JStr "Message cannot be empty")] 400, db))
  /\
  (forall room,
     strip (POST_get req "content") <> "" ->
     chat_rooms db !! room_id = Some room ->
     participant u room ->
     let db1 := (send_message created now saved room_id req db).2 in
     exists message_id msg,
       chat_messages db !! message_id = None
       /\ chat_messages db1 = <[message_id := msg]> (chat_messages db)
       /\ size (chat_messages db1) = S (size (chat_messages db))).
Proof.
  intros Hu Hpost. split.
  - intros Hblank. unfold send_message, login_required.
    rewrite Hu, Hpost, Hblank. done.
  - intros room Hcontent Hroom Hpart db1. subst db1.
    rewrite (send_message_participant _ _ _ _ _ _ _ _ Hu Hpost Hcontent Hroom Hpart).
    simpl. eexists _, _. split; [apply next_id_fresh|]. split; [done|].
    apply map_size_insert_None, next_id_fresh.
Qed.

(** C9, amended: a participant's POST whose content is not empty once
    stripped persists exactly one message, with the stripped content, the
    sender's identity and the room; sets the room's [last_message_at] to the
    time read by the handler, keeping the pair, subject and flags of the room
    and every other room; and answers with the object
    [{success: true, message_id, content, created_at}].  A user who is neither
    parent nor teacher gets an error object with status 403 and the database
    is unchanged. *)
Theorem send_message_persists (created now saved room_id : Z) (req : Request)
    (u : User) (db : DB) :
  user req = Some u ->
  method req = POST ->
  strip (POST_get req "content") <> "" ->
  let content := strip (POST_get req "content") in
  let db1 := (send_message created now saved room_id req db).2 in
  (forall room,
     chat_rooms db !! room_id = Some room ->
     participant u room ->
     exists message_id msg room1,
       (send_message created now saved room_id req db).1
       = JsonResponse [("success", JBool true); ("message_id", JInt message_id);
                       ("content", JStr content); ("created_at", JDateTime created)] 200
       /\ chat_messages db !! message_id = None
       /\ chat_messages db1 = <[message_id := msg]> (chat_messages db)
       /\ cm_content msg = content
       /\ cm_sender msg = user_id u
       /\ cm_chat_room msg = room_id
       /\ cm_created_at msg = created
       /\ chat_rooms db1 !! room_id = Some room1
       /\ cr_last_message_at room1 = Some now
       /\ cr_parent room1 = cr_parent room /\ cr_teacher room1 = cr_teacher room
       /\ cr_subject room1 = cr_subject room
       /\ cr_is_active room1 = cr_is_active room
       /\ cr_is_archived room1 = cr_is_archived room
       /\ cr_created_at room1 = cr_created_at room
       /\ (forall k, k <> room_id -> chat_rooms db1 !! k = chat_rooms db !! k))
  /\
  (role u = admin ->
   send_message created now saved room_id req db
   = (JsonResponse [("error", JStr "Unauthorized")] 403, db)).
Proof.
  intros Hu Hpost Hcontent content db1. split.
  - intros room Hroom Hpart. subst db1.
    rewrite (send_message_participant _ _ _ _ _ _ _ _ Hu Hpost Hcontent Hroom Hpart).
    simpl. eexists _, _, _.
    split; [done|]. split; [apply next_id_fresh|]. split; [done|].
    do 4 (split; [done|]). unfold save.
    split; [apply lookup_insert_eq|]. simpl. do 7 (split; [done|]).
    intros k Hne. by rewrite lookup_insert_ne.
  - intros Hrole. unfold send_message, login_required.
    rewrite Hu, Hpost, (truthy_nonempty _ Hcontent). simpl.
    unfold is_parent, is_teacher. rewrite Hrole. done.
Qed.

(** ** The parent's pages *)

Section ParentPages.
Context `{PyFloatOps}.

Lemma count_nonneg {A} (rows : list A) : 0 <= count rows.
Proof. unfold count. lia. Qed.

(** The guarded division never raises, and yields the specified rate. *)
Lemma guarded_rate (present_days total_days : Z) :
  0 <= total_days ->
  match
    (if 0 <? total_days
     then match truediv present_days total_days with
          | inl e => inl e
          | inr q => inr (PyFloat (float_mul_int q 100))
          end
     else inr (PyInt 0))
  with
  | inl e => inl e
  | inr rate => inr (round rate 1)
  end = inr (spec_attendance_rate present_days total_days).
Proof.
  intros Hnn. unfold spec_attendance_rate, truediv.
  destruct (0 <? total_days) eqn:Hpos.
  - apply Z.ltb_lt in Hpos.
    destruct (total_days =? 0) eqn:Hz; [apply Z.eqb_eq in Hz; lia | done].
  - apply Z.ltb_ge in Hpos. assert (total_days = 0) as -> by lia. done.
Qed.

Lemma child_data_ok (today : Date) (db : DB) (child : Z * Child) :
  let rows := current_month_attendance today child.1 db in
  exists grades recent,
    child_data today db child
    = inr {| cdt_child := child; cdt_latest_grades := grades;
             cdt_recent_attendance := recent;
             cdt_attendance_stats :=
               {| st_total_days := count rows;
                  st_present_days := count (with_status present rows);
                  st_attendance_rate :=
                    spec_attendance_rate (count (with_status present rows)) (count rows) |} |}.
Proof.
  intros rows. unfold child_data. fold rows.
  pose proof (guarded_rate (count (with_status present rows)) (count rows)
                (count_nonneg rows)) as Hrate.
  destruct (if 0 <? count rows then _ else _) as [e|rate]; [done|].
  injection Hrate as <-. eauto.
Qed.

Lemma for_each_child_data (today : Date) (db : DB) (l : list (Z * Child)) :
  exists children_data,
    for_each (child_data today db) l = inr children_data
    /\ map cdt_child children_data = l
    /\ Forall (fun d =>
                 let rows := current_month_attendance today (cdt_child d).1 db in
                 let stats := cdt_attendance_stats d in
                 st_total_days stats = count rows
                 /\ st_present_days stats = count (with_status present rows)
                 /\ st_attendance_rate stats
                    = spec_attendance_rate (st_present_days stats) (st_total_days stats))
         children_data.
Proof.
  induction l as [|child l (ds & Hds & Hmap & Hall)]; simpl.
  - exists []. done.
  - destruct (child_data_ok today db child) as (grades & recent & ->).
    rewrite Hds. eexists. split; [done|]. split; [by rewrite <- Hmap|].
    constructor; [|done]. simpl. done.
Qed.

Lemma child_detail_parent (today : Date) (child_id pa : Z) (req : Request) (u : User)
    (db : DB) :
  user req = Some u ->
  role u = parent ->
  parent_profile u = Some pa ->
  child_detail today child_id req db
  = match get_by_id child_id (fun c => bool_decide (pa ∈ parents c)) (children db) with
    | None =>
        (Redirect "users:parent_dashboard" [],
         add_message error "Child not found or you do not have access." db)
    | Some child =>
        let recent := recent_attendance today child_id db in
        (Render "users/child_detail.html"
           {| cd_child := (child_id, child);
              cd_enrolled_classes := enrolled_classes child_id db;
              cd_grades_by_quarter := grades_by_quarter child_id db;
              cd_attendance :=
                take 30 (merge_sort by_date_desc
                           (objects_filter (fun _ a => at_child a =? child_id)
                              (attendance db)));
              cd_attendance_summary :=
                {| total_days := count recent;
                   present_days := count (with_status present recent);
                   absent_days := count (with_status absent recent);
                   late_days := count (with_status late recent);
                   attendance_rate :=
                     spec_attendance_rate (count (with_status present recent))
                       (count recent) |} |}, db)
    end.
Proof.
  intros Hu Hrole Hprof.
  unfold child_detail, login_required, parent_required, is_parent, with_profile.
  rewrite Hu, Hrole, Hprof. simpl.
  destruct (get_by_id _ _ _) as [child|]; [|done].
  set (recent := recent_attendance today child_id db).
  pose proof (guarded_rate (count (with_status present recent)) (count recent)
                (count_nonneg recent)) as Hrate.
  destruct (if 0 <? count recent then _ else _) as [e|rate]; [done|].
  injection Hrate as <-. done.
Qed.

(** C4: for a parent, [child_detail] renders the child's page exactly when
    the parent is in the guardian set of the child with that id.  For any
    other id, of another family's child or of no child, the answer is the
    not-found outcome: a redirect to the dashboard with the message
    "Child not found or you do not have access.", carrying no child data. *)
Theorem child_detail_guardian_only (today : Date) (child_id pa : Z) (req : Request)
    (u : User) (db : DB) :
  user req = Some u ->
  role u = parent ->
  parent_profile u = Some pa ->
  ((exists ctx, child_detail today child_id req db = (Render "users/child_detail.html" ctx, db))
   <-> guardian pa child_id db)
  /\ (forall child, children db !! child_id = Some child -> pa ∈ parents child ->
        exists ctx, child_detail today child_id req db
                    = (Render "users/child_detail.html" ctx, db)
                    /\ cd_child ctx = (child_id, child))
  /\ (~ guardian pa child_id db ->
        child_detail today child_id req db
        = (Redirect "users:parent_dashboard" [],
           add_message error "Child not found or you do not have access." db)).
Proof.
  intros Hu Hrole Hprof.
  rewrite (child_detail_parent today child_id pa req u db Hu Hrole Hprof).
  unfold guardian, get_by_id.
  destruct (children db !! child_id) as [child|] eqn:Hchild.
  - destruct (bool_decide (pa ∈ parents child)) eqn:Hin.
    + apply bool_decide_eq_true in Hin. split; [|split].
      * split; [eauto|]. intros _. eexists. reflexivity.
      * intros c [= <-] _. eexists. split; reflexivity.
      * intros Hnot. exfalso. apply Hnot. eauto.
    + apply bool_decide_eq_false in Hin. split; [|split].
      * split; [intros [ctx Hctx]; done|]. intros (c & [= <-] & Hc). done.
      * intros c [= <-] Hc. done.
      * done.
  - split; [|split].
    + split; [intros [ctx Hctx]; done|]. intros (c & Hc & _). done.
    + intros c Hc. done.
    + done.
Qed.

(** C7: on the parent dashboard, for every child of the parent, over the
    current calendar month, and on the child detail page, over the trailing
    30 days, the attendance rate shown is present_days / total_days * 100
    rounded to one decimal, where total_days counts the child's attendance
    rows in the window and present_days those marked present; with no row in
    the window the rate is the integer 0.  Neither page fails on a division
    by zero: both are rendered. *)
Theorem attendance_rate_guarded (today : Date) (pa : Z) (req : Request) (u : User)
    (db : DB) :
  user req = Some u ->
  role u = parent ->
  parent_profile u = Some pa ->
  (exists children_data,
     parent_dashboard today req db
     = (Render "users/parent_dashboard.html"
          {| dc_parent := pa; dc_children_data := children_data |}, db)
     /\ map cdt_child children_data
        = objects_filter (fun _ c => bool_decide (pa ∈ parents c)) (children db)
     /\ Forall (fun d =>
                  let rows := current_month_attendance today (cdt_child d).1 db in
                  let stats := cdt_attendance_stats d in
                  st_total_days stats = count rows
                  /\ st_present_days stats = count (with_status present rows)
                  /\ st_attendance_rate stats
                     = spec_attendance_rate (st_present_days stats) (st_total_days stats)
                  /\ (st_total_days stats = 0 -> st_attendance_rate stats = PyInt 0))
          children_data)
  /\
  (forall child_id, guardian pa child_id db ->
     exists ctx,
       child_detail today child_id req db = (Render "users/child_detail.html" ctx, db)
       /\ let rows := recent_attendance today child_id db in
          let summary := cd_attendance_summary ctx in
          total_days summary = count rows
          /\ present_days summary = count (with_status present rows)
          /\ attendance_rate summary
             = spec_attendance_rate (present_days summary) (total_days summary)
          /\ (total_days summary = 0 -> attendance_rate summary = PyInt 0)).
Proof.
  intros Hu Hrole Hprof. split.
  - unfold parent_dashboard, login_required, parent_required, is_parent, with_profile.
    rewrite Hu, Hrole, Hprof. simpl.
    destruct (for_each_child_data today db
                (objects_filter (fun _ c => bool_decide (pa ∈ parents c)) (children db)))
      as (ds & -> & Hmap & Hall).
    exists ds. split; [done|]. split; [done|].
    eapply Forall_impl; [exact Hall|]. simpl.
    intros d (Ht & Hp & Hr). repeat split; try done.
    intros Hz. rewrite Hr, Hz. done.
  - intros child_id (child & Hchild & Hin).
    rewrite (child_detail_parent today child_id pa req u db Hu Hrole Hprof).
    unfold get_by_id. rewrite Hchild, (bool_decide_eq_true_2 _ Hin).
    eexists. split; [reflexivity|]. simpl. repeat split.
    intros Hz. unfold spec_attendance_rate. by rewrite Hz.
Qed.

End ParentPages.

(** ** Strings *)

Local Open Scope string_scope.

Lemma str_app_cons (c : ascii) (a b : string) : String c a ++ b = String c (a ++ b).
Proof. reflexivity. Qed.

Lemma str_app_nil_l (b : string) : "" ++ b = b.
Proof. reflexivity. Qed.

(** Unfold the appends whose left operand shows its head. *)
Ltac str_app := rewrite ?str_app_cons, ?str_app_nil_l in *.

Lemma startswith_spec (p s : string) :
  startswith p s = true <-> exists post, s = p ++ post.
Proof.
  revert s. induction p as [|a p IH]; intros s; simpl.
  - split; [eauto|done].
  - destruct s as [|b s]; simpl.
    + split; [done|]. intros [post Hpost]. done.
    + rewrite andb_true_iff, IH, Ascii.eqb_eq. split.
      * intros [-> [post ->]]. eauto.
      * intros [post [= -> ->]]. eauto.
Qed.

Lemma contains_spec (sub s : string) :
  contains sub s = true <-> substring sub s.
Proof.
  unfold substring. induction s as [|c s IH]; simpl.
  - rewrite orb_false_r, startswith_spec. split.
    + intros [post Hpost]. exists "", post. done.
    + intros (pre & post & Hs). destruct pre; [|done]. eauto.
  - rewrite orb_true_iff, startswith_spec, IH. split.
    + intros [[post Hpost]|(pre & post & ->)].
      * exists "", post. done.
      * exists (String c pre), post. done.
    + intros (pre & post & Hs). destruct pre as [|c' pre]; simpl in Hs.
      * left. eauto.
      * right. injection Hs as -> ->. eauto.
Qed.

Lemma str_app_assoc (a b c : string) : (a ++ b) ++ c = a ++ b ++ c.
Proof. induction a as [|x a IH]; [done | by rewrite !str_app_cons, IH]. Qed.

Lemma str_app_nil_r (a : string) : a ++ "" = a.
Proof. induction a as [|x a IH]; [done | by rewrite str_app_cons, IH]. Qed.

Lemma substring_trans (a b c : string) :
  substring a b -> substring b c -> substring a c.
Proof.
  intros (p1 & q1 & ->) (p2 & q2 & ->).
  exists (p2 ++ p1), (q1 ++ q2). by rewrite !str_app_assoc.
Qed.

Lemma lstrip_head (s : string) : no_space_head (lstrip s).
Proof.
  induction s as [|c s IH]; simpl; [done|].
  destruct (is_space c) eqn:Hc; [done | exact Hc].
Qed.

Lemma lstrip_fixed (s : string) : no_space_head s -> lstrip s = s.
Proof. destruct s as [|c s]; simpl; [done|]. by intros ->. Qed.

Lemma lstrip_suffix (s : string) : exists ws, s = ws ++ lstrip s.
Proof.
  induction s as [|c s [ws IH]]; simpl.
  - by exists "".
  - destruct (is_space c).
    + exists (String c ws). by rewrite str_app_cons, <- IH.
    + by exists "".
Qed.

Lemma lstrip_app (pre x : string) :
  x <> "" -> no_space_head x -> lstrip (pre ++ x) = lstrip pre ++ x.
Proof.
  intros Hne Hhead. induction pre as [|c pre IH].
  - by apply lstrip_fixed.
  - rewrite str_app_cons. simpl. by destruct (is_space c).
Qed.

Lemma rstrip_prefix (s : string) : exists ws, s = rstrip s ++ ws.
Proof.
  induction s as [|c s [ws IH]]; simpl.
  - by exists "".
  - destruct (rstrip s) as [|d r] eqn:Hr.
    + destruct (is_space c).
      * exists (String c ws). by rewrite IH at 1.
      * exists ws. by rewrite str_app_cons, IH at 1.
    + exists ws. by rewrite str_app_cons, IH at 1.
Qed.

Lemma rstrip_head (s : string) : no_space_head s -> no_space_head (rstrip s).
Proof.
  destruct s as [|c s]; simpl; [done|]. intros Hc.
  destruct (rstrip s); [by rewrite Hc | done].
Qed.

Lemma rstrip_idemp (s : string) : rstrip (rstrip s) = rstrip s.
Proof.
  induction s as [|c s IH]; simpl; [done|].
  destruct (rstrip s) as [|d r] eqn:Hr.
  - destruct (is_space c) eqn:Hc; simpl; [done | by rewrite Hc].
  - simpl in *. rewrite IH. done.
Qed.

Lemma rstrip_app_blank (a b : string) : rstrip b = "" -> rstrip (a ++ b) = rstrip a.
Proof.
  intros Hb. induction a as [|c a IH]; [done|].
  rewrite str_app_cons. simpl. by rewrite IH.
Qed.

Lemma rstrip_app (a b : string) : rstrip b <> "" -> rstrip (a ++ b) = a ++ rstrip b.
Proof.
  intros Hb. induction a as [|c a IH]; [done|].
  rewrite !str_app_cons. simpl. rewrite IH.
  destruct (a ++ rstrip b) eqn:E; [|done].
  destruct a; str_app; done.
Qed.

Lemma strip_head (s : string) : no_space_head (strip s).
Proof. apply rstrip_head, lstrip_head. Qed.

Lemma strip_idemp (s : string) : strip (strip s) = strip s.
Proof.
  unfold strip at 1. rewrite (lstrip_fixed (strip s)) by apply strip_head.
  apply rstrip_idemp.
Qed.

Lemma strip_substring (s : string) : substring (strip s) s.
Proof.
  destruct (lstrip_suffix s) as [ws Hs], (rstrip_prefix (lstrip s)) as [ws' Hl].
  exists ws, ws'. unfold strip. by rewrite <- Hl.
Qed.

(** Stripping the haystack keeps every occurrence of a stripped needle. *)
Lemma substring_strip (kw s : string) :
  strip kw = kw -> (substring kw (strip s) <-> substring kw s).
Proof.
  intros Hkw. split.
  - intros Hsub. eapply substring_trans; [exact Hsub | apply strip_substring].
  - intros (pre & post & ->).
    destruct (decide (kw = "")) as [->|Hne]; [by exists "", (strip (pre ++ post))|].
    assert (no_space_head kw) as Hhead by (rewrite <- Hkw; apply strip_head).
    assert (rstrip kw = kw) as Hr.
    { rewrite <- Hkw at 1. unfold strip. rewrite rstrip_idemp. exact Hkw. }
    assert (exists post', rstrip (kw ++ post) = kw ++ post') as [post' Hpost].
    { destruct (decide (rstrip post = "")) as [Hb|Hb].
      - exists "". by rewrite rstrip_app_blank, str_app_nil_r.
      - exists (rstrip post). by apply rstrip_app. }
    exists (lstrip pre), post'. unfold strip.
    rewrite lstrip_app.
    + rewrite rstrip_app; [by rewrite Hpost|].
      rewrite Hpost. by destruct kw.
    + by destruct kw.
    + by destruct kw.
Qed.

Lemma is_space_lower_char (c : ascii) : is_space (lower_char c) = is_space c.
Proof. destruct c as [[] [] [] [] [] [] [] []]; reflexivity. Qed.

Lemma lower_lstrip (s : string) : lower (lstrip s) = lstrip (lower s).
Proof.
  induction s as [|c s IH]; simpl; [done|].
  rewrite is_space_lower_char. by destruct (is_space c).
Qed.

Lemma lower_rstrip (s : string) : lower (rstrip s) = rstrip (lower s).
Proof.
  induction s as [|c s IH]; simpl; [done|].
  rewrite <- IH, is_space_lower_char.
  destruct (rstrip s); simpl; [by destruct (is_space c) | done].
Qed.

Lemma lower_strip (s : string) : lower (strip s) = strip (lower s).
Proof. unfold strip. by rewrite lower_rstrip, lower_lstrip. Qed.

Lemma lower_nonempty (s : string) : s <> "" -> lower s <> "".
Proof. by destruct s. Qed.

(** Every keyword of a message is a stripped string. *)
Lemma keyword_stripped (m : BotMessage) (kw : string) :
  In kw (get_keywords_list m) -> strip kw = kw.
Proof.
  unfold get_keywords_list. rewrite in_map_iff. intros (x & <- & _).
  by rewrite lower_strip, strip_idemp.
Qed.

Lemma keyword_match_spec (query : string) (m : BotMessage) :
  keyword_match query m = true <-> matches query m.
Proof.
  unfold keyword_match, matches. rewrite existsb_exists.
  split; intros (kw & Hin & Hsub); exists kw; (split; [done|]);
    by apply contains_spec.
Qed.

(** Matching the query as the handler normalises it is matching the
    lower-cased query. *)
Lemma matches_normalised (q : string) (m : BotMessage) :
  matches (lower (strip q)) m <-> matches (lower q) m.
Proof.
  unfold matches. rewrite lower_strip.
  split; intros (kw & Hin & Hsub); exists kw; (split; [done|]);
    by apply (substring_strip kw (lower q) (keyword_stripped m kw Hin)).
Qed.

(** ** The chatbot *)

#[local] Instance by_priority_desc_trans : Transitive by_priority_desc.
Proof. unfold by_priority_desc. intros a b c. lia. Qed.

#[local] Instance by_priority_desc_total : Total by_priority_desc.
Proof. unfold by_priority_desc. intros a b. lia. Qed.

Lemma elem_of_active_by_priority (t : gmap Z BotMessage) (k : Z) (m : BotMessage) :
  (k, m) ∈ active_by_priority t <-> t !! k = Some m /\ bm_is_active m = true.
Proof.
  unfold active_by_priority. rewrite merge_sort_Permutation.
  apply elem_of_objects_filter.
Qed.

Lemma active_by_priority_sorted (t : gmap Z BotMessage) :
  StronglySorted by_priority_desc (active_by_priority t).
Proof. apply StronglySorted_merge_sort; apply _. Qed.

(** The scan returns a matching row, and every matching row of a list in
    descending priority order has at most the priority of the one returned. *)
Lemma first_match_some (query : string) (rows : list (Z * BotMessage)) k m :
  StronglySorted by_priority_desc rows ->
  first_match query rows = Some (k, m) ->
  (k, m) ∈ rows /\ keyword_match query m = true
  /\ forall k' m', (k', m') ∈ rows -> keyword_match query m' = true ->
                   bm_priority m' <= bm_priority m.
Proof.
  induction rows as [|[k0 m0] rows IH]; simpl; [done|].
  intros Hsorted Hfirst. apply StronglySorted_cons in Hsorted as [Hle Hsorted].
  destruct (keyword_match query m0) eqn:H0.
  - injection Hfirst as -> ->. split; [left|]. split; [done|].
    intros k' m' Hin _. apply elem_of_cons in Hin as [[= -> ->]|Hin]; [lia|].
    rewrite Forall_forall in Hle. exact (Hle _ Hin).
  - destruct (IH Hsorted Hfirst) as (Hin & Hm & Hmax).
    split; [by right|]. split; [done|].
    intros k' m' Hin' Hm'. apply elem_of_cons in Hin' as [[= -> ->]|Hin'].
    + congruence.
    + eauto.
Qed.

Lemma first_match_none (query : string) (rows : list (Z * BotMessage)) :
  first_match query rows = None <->
  forall k m, (k, m) ∈ rows -> keyword_match query m = false.
Proof.
  induction rows as [|[k0 m0] rows IH]; simpl.
  - split; [|done]. intros _ k m Hin. by apply elem_of_nil in Hin.
  - destruct (keyword_match query m0) eqn:H0.
    + split; [done|]. intros Hall. rewrite (Hall k0 m0) in H0; [done | left].
    + rewrite IH. split.
      * intros Hall k m Hin. apply elem_of_cons in Hin as [[= -> ->]|Hin]; eauto.
      * intros Hall k m Hin. apply (Hall k m). by right.
Qed.

(** What [chatbot_query] does with a POST whose query is not empty once
    stripped. *)
Lemma chatbot_query_post (saved : Z) (req : Request) (u : User) (db : DB) :
  user req = Some u ->
  method req = POST ->
  strip (POST_get req "query") <> "" ->
  chatbot_query saved req db
  = match first_match (lower (strip (POST_get req "query")))
            (active_by_priority (bot_messages db)) with
    | Some (k, bot_msg) =>
        (JsonResponse
           [("success", JBool true);
            ("response", JStr (if truthy (bm_response_text bot_msg)
                               then bm_response_text bot_msg else fallback_response))]
           200,
         set_bot_messages (save k (count_usage saved bot_msg)) db)
    | None =>
        (JsonResponse [("success", JBool true); ("response", JStr fallback_response)] 200,
         db)
    end.
Proof.
  intros Hu Hpost Hquery. unfold chatbot_query, login_required.
  rewrite Hu, Hpost, (truthy_nonempty _ (lower_nonempty _ Hquery)). simpl.
  destruct (first_match _ _) as [[k bot_msg]|]; done.
Qed.

(** C8: a POST whose stripped query is not empty and matches some active
    message increments, by exactly 1, the usage count of the message the scan
    stops at, an active matching message of the highest priority among the
    active matching ones, and saves that row alone: every other message row,
    and every other table, is unchanged.  A query matching no active message
    leaves the whole database as it was. *)
Theorem chatbot_query_usage_frame (saved : Z) (req : Request) (u : User) (db : DB) :
  user req = Some u ->
  method req = POST ->
  strip (POST_get req "query") <> "" ->
  let query := lower (strip (POST_get req "query")) in
  let db1 := (chatbot_query saved req db).2 in
  ((exists k m, bot_messages db !! k = Some m /\ bm_is_active m = true /\ matches query m) ->
   exists k m m1,
     bot_messages db !! k = Some m /\ bm_is_active m = true /\ matches query m
     /\ (forall k' m', bot_messages db !! k' = Some m' -> bm_is_active m' = true ->
                       matches query m' -> bm_priority m' <= bm_priority m)
     /\ bot_messages db1 !! k = Some m1
     /\ bm_usage_count m1 = bm_usage_count m + 1
     /\ bm_keywords m1 = bm_keywords m /\ bm_response_text m1 = bm_response_text m
     /\ bm_priority m1 = bm_priority m /\ bm_is_active m1 = bm_is_active m
     /\ bm_category m1 = bm_category m /\ bm_has_buttons m1 = bm_has_buttons m
     /\ bm_button_options m1 = bm_button_options m /\ bm_created_at m1 = bm_created_at m
     /\ (forall k', k' <> k -> bot_messages db1 !! k' = bot_messages db !! k')
     /\ db1 = set_bot_messages (fun _ => bot_messages db1) db)
  /\
  ((forall k m, bot_messages db !! k = Some m -> bm_is_active m = true -> ~ matches query m) ->
   db1 = db).
Proof.
  intros Hu Hpost Hquery query db1. subst db1.
  rewrite (chatbot_query_post saved req u db Hu Hpost Hquery). fold query.
  pose proof (active_by_priority_sorted (bot_messages db)) as Hsorted.
  destruct (first_match query (active_by_priority (bot_messages db)))
    as [[k m]|] eqn:Hfirst.
  - destruct (first_match_some _ _ _ _ Hsorted Hfirst) as (Hin & Hm & Hmax).
    apply elem_of_active_by_priority in Hin as [Hk Hactive].
    split.
    + intros _. exists k, m, (count_usage saved m). simpl.
      split; [done|]. split; [done|]. split; [by apply keyword_match_spec|].
      split.
      { intros k' m' Hk' Hactive' Hm'. apply (Hmax k' m').
        - by apply elem_of_active_by_priority.
        - by apply keyword_match_spec. }
      unfold save. split; [apply lookup_insert_eq|].
      do 9 (split; [done|]).
      split; [|done]. intros k' Hne. by rewrite lookup_insert_ne.
    + intros Hnone. exfalso. apply (Hnone k m Hk Hactive).
      by apply keyword_match_spec.
  - split; [|done].
    intros (k & m & Hk & Hactive & Hm). exfalso.
    rewrite first_match_none in Hfirst.
    assert (keyword_match query m = false) as Hno
      by (apply (Hfirst k); by apply elem_of_active_by_priority).
    apply keyword_match_spec in Hm. congruence.
Qed.

(** C1, amended: for a POST whose query is not empty once stripped, if the
    lower-cased query contains a keyword of an active message whose priority
    is higher than that of every other active message with a matching
    keyword, and whose response text is not empty, then [chatbot_query]
    answers with that message's response text, whatever lower-priority
    messages match as well: the scan goes through the active messages in
    descending priority order and stops at the first match. *)
Theorem chatbot_query_highest_priority (saved : Z) (req : Request) (u : User)
    (db : DB) (k : Z) (m : BotMessage) :
  user req = Some u ->
  method req = POST ->
  strip (POST_get req "query") <> "" ->
  bot_messages db !! k = Some m ->
  bm_is_active m = true ->
  matches (lower (POST_get req "query")) m ->
  (forall k' m', k' <> k -> bot_messages db !! k' = Some m' -> bm_is_active m' = true ->
                 matches (lower (POST_get req "query")) m' ->
                 bm_priority m' < bm_priority m) ->
  bm_response_text m <> "" ->
  StronglySorted by_priority_desc (active_by_priority (bot_messages db))
  /\ first_match (lower (strip (POST_get req "query")))
       (active_by_priority (bot_messages db)) = Some (k, m)
  /\ (chatbot_query saved req db).1
     = JsonResponse [("success", JBool true); ("response", JStr (bm_response_text m))] 200.
Proof.
  intros Hu Hpost Hquery Hk Hactive Hm Hstrict Htext.
  pose proof (active_by_priority_sorted (bot_messages db)) as Hsorted.
  split; [done|].
  set (query := lower (strip (POST_get req "query"))).
  assert (first_match query (active_by_priority (bot_messages db)) = Some (k, m))
    as Hfirst.
  { apply matches_normalised in Hm. fold query in Hm.
    destruct (first_match query (active_by_priority (bot_messages db)))
      as [[k1 m1]|] eqn:Hfirst.
    - destruct (first_match_some _ _ _ _ Hsorted Hfirst) as (Hin & Hm1 & Hmax).
      apply elem_of_active_by_priority in Hin as [Hk1 Hactive1].
      destruct (decide (k1 = k)) as [->|Hne]; [congruence|].
      assert (bm_priority m1 < bm_priority m) as Hlt.
      { apply (Hstrict k1 m1 Hne Hk1 Hactive1).
        apply matches_normalised. by apply keyword_match_spec. }
      assert (bm_priority m <= bm_priority m1) as Hle.
      { apply (Hmax k m); [by apply elem_of_active_by_priority|].
        by apply keyword_match_spec. }
      lia.
    - rewrite first_match_none in Hfirst.
      assert (keyword_match query m = false) as Hno
        by (apply (Hfirst k); by apply elem_of_active_by_priority).
      apply keyword_match_spec in Hm. congruence. }
  split; [done|].
  rewrite (chatbot_query_post saved req u db Hu Hpost Hquery). fold query.
  rewrite Hfirst. simpl. by rewrite (truthy_nonempty _ Htext).
Qed.

(** ** The statements above at the sample data *)

Import Sample.

Lemma start_chat_same_room_witness :
  exists room_id,
    (start_chat 200 4 (get_as mum) school_db).1 = Redirect "information:chat_room" [room_id]
    /\ start_chat 300 4 (get_as mum) (start_chat 200 4 (get_as mum) school_db).2
       = (Redirect "information:chat_room" [room_id],
          (start_chat 200 4 (get_as mum) school_db).2).
Proof.
  assert (unique_together (chat_rooms school_db)) as Huniq.
  { intros k1 k2 r1 r2 H1 H2 _ _. simpl in H1, H2.
    apply lookup_singleton_Some in H1 as [<- _], H2 as [<- _]. reflexivity. }
  destruct (start_chat_same_room 200 300 4 3 (get_as mum) mum school_db
              eq_refl eq_refl eq_refl (ex_intro _ _ eq_refl) Huniq)
    as (room_id & room & Hfirst & _ & _ & _ & _ & _ & Hsecond).
  exists room_id. split; [exact Hfirst | exact Hsecond].
Defined.

Lemma send_message_rejects_blank_witness :
  send_message 10 11 12 1 (post_as mum "content" "   ") school_db
  = (JsonResponse [("error", JStr "Message cannot be empty")] 400, school_db).
Proof.
  exact (proj1 (send_message_rejects_blank 10 11 12 1 (post_as mum "content" "   ")
                  mum school_db eq_refl eq_refl) eq_refl).
Defined.

Lemma send_message_persists_witness :
  participant mum room_3_4
  /\ exists message_id msg,
       (send_message 10 11 12 1 (post_as mum "content" " See you at 3pm ") school_db).1
       = JsonResponse [("success", JBool true); ("message_id", JInt message_id);
                       ("content", JStr "See you at 3pm"); ("created_at", JDateTime 10)] 200
       /\ chat_messages
            (send_message 10 11 12 1 (post_as mum "content" " See you at 3pm ") school_db).2
          = <[message_id := msg]> (chat_messages school_db)
       /\ cm_content msg = "See you at 3pm" /\ cm_sender msg = 7.
Proof.
  assert (participant mum room_3_4) as Hpart by (left; split; reflexivity).
  split; [exact Hpart|].
  assert (strip (POST_get (post_as mum "content" " See you at 3pm ") "content") <> "")
    as Hcontent by (vm_compute; discriminate).
  destruct (proj1 (send_message_persists 10 11 12 1
                     (post_as mum "content" " See you at 3pm ") mum school_db
                     eq_refl eq_refl Hcontent) room_3_4 eq_refl Hpart)
    as (message_id & msg & room1 & Hresp & _ & Hmsgs & Hc & Hs & _).
  exists message_id, msg. split; [exact Hresp|]. split; [exact Hmsgs|].
  split; [exact Hc | exact Hs].
Defined.

Lemma notifications_read_frame_witness :
  (exists n1, notifications (mark_all_notifications_read (get_as mum) school_db).2 !! 1
              = Some n1 /\ nt_is_read n1 = true /\ nt_read_at n1 = None)
  /\ notifications (mark_all_notifications_read (get_as mum) school_db).2 !! 2
     = Some (notice 8 false None)
  /\ (exists n1, notifications (mark_notification_read 50 1 (get_as mum) school_db).2 !! 1
                 = Some n1 /\ nt_is_read n1 = true /\ nt_read_at n1 = Some 50).
Proof.
  pose proof (notifications_read_frame 50 (get_as mum) mum school_db eq_refl)
    as [Hall Hone].
  split; [|split].
  - destruct (Hall 1) as (n1 & Hn1 & Hread & Hat & _). exists n1. auto.
  - exact (Hall 2).
  - destruct (Hone 1 (notice 7 false None) eq_refl eq_refl eq_refl)
      as [(n1 & Hn1 & Hread & Hat & _) _].
    exists n1. auto.
Defined.

Lemma child_detail_guardian_only_witness :
  (exists ctx, child_detail (H := binary64) today 5 (get_as mum) school_db
               = (Render "users/child_detail.html" ctx, school_db))
  /\ child_detail (H := binary64) today 6 (get_as mum) school_db
     = (Redirect "users:parent_dashboard" [],
        add_message error "Child not found or you do not have access." school_db).
Proof.
  pose proof (child_detail_guardian_only (H := binary64) today 5 3 (get_as mum) mum
                school_db eq_refl eq_refl eq_refl) as (Hiff & _ & _).
  pose proof (child_detail_guardian_only (H := binary64) today 6 3 (get_as mum) mum
                school_db eq_refl eq_refl eq_refl) as (_ & _ & Hnot).
  split.
  - apply Hiff. eexists. split; [reflexivity|]. vm_compute. reflexivity.
  - apply Hnot. intros (child & Hchild & Hin).
    assert (children school_db !! 6 = Some ben) as Hben by reflexivity.
    rewrite Hben in Hchild. injection Hchild as <-.
    simpl in Hin. apply elem_of_singleton in Hin. discriminate.
Defined.

Lemma attendance_rate_guarded_witness :
  exists ctx,
    child_detail (H := binary64) today 5 (get_as mum) school_db
    = (Render "users/child_detail.html" ctx, school_db)
    /\ total_days (cd_attendance_summary ctx) = 3
    /\ present_days (cd_attendance_summary ctx) = 2
    /\ attendance_rate (cd_attendance_summary ctx)
       = PyFloat (int_truediv (PyFloatOps := binary64) 667 10).
Proof.
  assert (guardian 3 5 school_db) as Hguard.
  { eexists. split; [reflexivity|]. vm_compute. reflexivity. }
  destruct (proj2 (attendance_rate_guarded (H := binary64) today 3 (get_as mum) mum
                     school_db eq_refl eq_refl eq_refl) 5 Hguard)
    as (ctx & Hctx & Htotal & Hpresent & Hrate & _).
  exists ctx. split; [exact Hctx|].
  rewrite Hrate, Hpresent, Htotal. vm_compute. repeat split.
Defined.

Lemma chatbot_db_rows (k : Z) (m : BotMessage) :
  bot_messages chatbot_db !! k = Some m ->
  (k = 1 /\ m = grade_bot) \/ (k = 2 /\ m = hello_bot).
Proof.
  unfold chatbot_db, with_bots. simpl. intros Hk.
  destruct (decide (k = 1)) as [->|H1].
  - rewrite lookup_insert_eq in Hk. left. split; congruence.
  - rewrite lookup_insert_ne in Hk by done.
    destruct (decide (k = 2)) as [->|H2].
    + rewrite lookup_insert_eq in Hk. right. split; congruence.
    + rewrite lookup_insert_ne, lookup_empty in Hk by done. done.
Defined.

Lemma chatbot_query_highest_priority_witness :
  matches (lower "Hello, what is my child's GRADE?") grade_bot
  /\ (chatbot_query 50 (post_as mum "query" "Hello, what is my child's GRADE?")
        chatbot_db).1
     = JsonResponse [("success", JBool true); ("response", JStr "Hello! How can I help?")]
         200.
Proof.
  assert (forall kw m, In kw (get_keywords_list m) ->
            contains kw (lower "Hello, what is my child's GRADE?") = true ->
            matches (lower "Hello, what is my child's GRADE?") m) as Hmatch.
  { intros kw m Hin Hsub. exists kw. split; [exact Hin | by apply contains_spec]. }
  split.
  - apply (Hmatch "grade"); [left|]; reflexivity.
  - refine (proj2 (proj2 (chatbot_query_highest_priority 50
                            (post_as mum "query" "Hello, what is my child's GRADE?")
                            mum chatbot_db 2 hello_bot eq_refl eq_refl _ eq_refl eq_refl
                            _ _ _))).
    + vm_compute. discriminate.
    + apply (Hmatch "hello"); [left|]; reflexivity.
    + intros k' m' Hne Hk' _ _.
      destruct (chatbot_db_rows k' m' Hk') as [[-> ->]|[-> ->]]; [|done].
      vm_compute. reflexivity.
    + vm_compute. discriminate.
Defined.

Lemma chatbot_query_usage_frame_witness :
  exists m1,
    bot_messages
      (chatbot_query 50 (post_as mum "query" "what is my child's grade") chatbot_db).2 !! 1
    = Some m1
    /\ bm_usage_count m1 = bm_usage_count grade_bot + 1
    /\ bot_messages
         (chatbot_query 50 (post_as mum "query" "what is my child's grade") chatbot_db).2 !! 2
       = Some hello_bot.
Proof.
  assert (strip (POST_get (post_as mum "query" "what is my child's grade") "query") <> "")
    as Hquery by (vm_compute; discriminate).
  assert (matches (lower (strip (POST_get (post_as mum "query" "what is my child's grade")
                                   "query"))) grade_bot) as Hgrade.
  { exists "grade". split; [left; reflexivity|]. by apply contains_spec. }
  destruct (proj1 (chatbot_query_usage_frame 50
                     (post_as mum "query" "what is my child's grade") mum chatbot_db
                     eq_refl eq_refl Hquery)
              (ex_intro _ 1 (ex_intro _ grade_bot (conj eq_refl (conj eq_refl Hgrade)))))
    as (k & m & m1 & Hk & _ & Hm & _ & Hk1 & Hcount & _ & _ & _ & _ & _ & _ & _ & _
        & Hother & _).
  destruct (chatbot_db_rows k m Hk) as [[-> ->]|[-> ->]].
  - exists m1. split; [exact Hk1|]. split; [exact Hcount|].
    rewrite Hother by done. reflexivity.
  - exfalso. apply keyword_match_spec in Hm. vm_compute in Hm. discriminate.
Defined.

(** ** Where two claims part from the code *)

(** C1 as first worded fails twice.  A query of one blank is not the empty
    string and, lower-cased, contains the empty keyword that the trailing
    comma of "hello," yields; the handler strips it and answers 400.  And a
    message whose response text is empty is matched and counted, yet the
    reply is the fallback sentence. *)
Lemma chatbot_query_blank_or_silent :
  (let m := bot "hello," "Hello! How can I help?" 10 in
   let db := with_bots {[ 1 := m ]} in
   let req := post_as mum "query" " " in
   POST_get req "query" <> ""
   /\ bot_messages db !! 1 = Some m /\ bm_is_active m = true
   /\ matches (lower (POST_get req "query")) m
   /\ (forall k' m', k' <> 1 -> bot_messages db !! k' = Some m' -> False)
   /\ (chatbot_query 50 req db).1
      = JsonResponse [("error", JStr "Query cannot be empty")] 400
   /\ (chatbot_query 50 req db).1
      <> JsonResponse [("success", JBool true); ("response", JStr (bm_response_text m))] 200)
  /\
  (let m := bot "fees" "" 10 in
   let db := with_bots {[ 1 := m ]} in
   let req := post_as mum "query" "school fees" in
   POST_get req "query" <> ""
   /\ bot_messages db !! 1 = Some m /\ bm_is_active m = true
   /\ matches (lower (POST_get req "query")) m
   /\ (forall k' m', k' <> 1 -> bot_messages db !! k' = Some m' -> False)
   /\ (chatbot_query 50 req db).1
      = JsonResponse [("success", JBool true); ("response", JStr fallback_response)] 200
   /\ (chatbot_query 50 req db).1
      <> JsonResponse [("success", JBool true); ("response", JStr (bm_response_text m))] 200).
Proof.
  split; simpl.
  - split; [discriminate|]. split; [reflexivity|]. split; [reflexivity|].
    split; [|split; [|split]].
    + exists "". split; [right; left; reflexivity|]. by apply contains_spec.
    + intros k' m' Hne Hk'. unfold with_bots in Hk'. simpl in Hk'.
      rewrite lookup_singleton_ne in Hk' by done. done.
    + reflexivity.
    + vm_compute. discriminate.
  - split; [discriminate|]. split; [reflexivity|]. split; [reflexivity|].
    split; [|split; [|split]].
    + exists "fees". split; [left; reflexivity|]. by apply contains_spec.
    + intros k' m' Hne Hk'. unfold with_bots in Hk'. simpl in Hk'.
      rewrite lookup_singleton_ne in Hk' by done. done.
    + reflexivity.
    + vm_compute. discriminate.
Qed.

(** C9 as first worded fails twice.  Content of three blanks sent by the
    room's parent is not the empty string, yet nothing is persisted and the
    answer is 400; and content with blanks around it is persisted without
    them, so the message does not carry the content that was sent. *)
Lemma send_message_blank_or_padded :
  participant mum room_3_4
  /\ chat_rooms school_db !! 1 = Some room_3_4
  /\ (let req := post_as mum "content" "   " in
      POST_get req "content" <> ""
      /\ send_message 10 11 12 1 req school_db
         = (JsonResponse [("error", JStr "Message cannot be empty")] 400, school_db))
  /\ (let req := post_as mum "content" " hi " in
      let db1 := (send_message 10 11 12 1 req school_db).2 in
      POST_get req "content" = " hi "
      /\ chat_messages school_db = ∅
      /\ chat_messages db1 = {[ 1 := new_chat_message 10 1 7 "hi" ]}
      /\ cm_content (new_chat_message 10 1 7 "hi") <> " hi ").
Proof.
  split; [left; split; reflexivity|]. split; [reflexivity|]. split; simpl.
  - split; [discriminate | reflexivity].
  - split; [reflexivity|]. split; [reflexivity|]. split; [|discriminate].
    vm_compute. reflexivity.
Qed.

(** C2 at the failing input: teacher profile 4 owns class 1 only, and child 6
    is enrolled in class 2 of teacher 10.  The class page of class 2 is
    refused, as the claim wants, but both student pages of child 6 are served:
    the attendance page lists the child's attendance rows, the grade page an
    empty list of grades. *)
Theorem student_pages_not_scoped :
  ~ enrolled_with 4 6 school_db
  /\ (class_detail 2 (get_as miss) school_db).1 = Http404
  /\ (student_attendance 6 (get_as miss) school_db).1
     = Render "monitoring/student_attendance.html"
         {| sa_student := (6, ben);
            sa_attendance := [(4, mark 6 (on 2026 10 1) late 10)];
            sa_teacher := 4 |}
  /\ (student_grades 6 (get_as miss) school_db).1
     = Render "monitoring/student_grades.html"
         {| sg_student := (6, ben); sg_grades := []; sg_teacher := 4 |}.
Proof.
  split; [|split; [|split]]; try reflexivity.
  intros (e_id & e & class_obj & He & Hstudent & Hclass & Hteacher).
  simpl in He.
  destruct (decide (e_id = 1)) as [->|H1].
  - rewrite lookup_insert_eq in He. injection He as <-. discriminate.
  - rewrite lookup_insert_ne in He by done.
    apply lookup_singleton_Some in He as [<- <-].
    simpl in Hclass. rewrite lookup_insert_ne in Hclass by done.
    apply lookup_singleton_Some in Hclass as [_ <-]. discriminate.
Qed.

(** * Further properties of the views *)

Import Chat.

(** ** Unread messages *)

Lemma NoDup_fst_filter {A} (f : Z * A -> bool) (l : list (Z * A)) :
  NoDup l.*1 -> NoDup (List.filter f l).*1.
Proof.
  induction l as [|x l IH]; simpl; [done|].
  rewrite NoDup_cons. intros [Hx Hl]. destruct (f x); simpl; [|by apply IH].
  apply NoDup_cons. split; [|by apply IH].
  intros Hin. apply Hx. apply list_elem_of_fmap in Hin as (y & -> & Hy).
  apply list_elem_of_fmap. exists y. split; [done|].
  apply list_elem_of_In in Hy. apply filter_In in Hy as [Hy _].
  by apply list_elem_of_In.
Qed.

Lemma NoDup_fst_objects_filter {A} (P : Z -> A -> bool) (t : gmap Z A) :
  NoDup (objects_filter P t).*1.
Proof. apply NoDup_fst_filter, NoDup_fst_map_to_list. Qed.

(** The rows a fresh insert adds to a filtered count. *)
Lemma count_objects_filter_insert {A} (P : Z -> A -> bool) (t : gmap Z A) (k : Z) (r : A) :
  t !! k = None ->
  count (objects_filter P (<[k := r]> t))
  = count (objects_filter P t) + (if P k r then 1 else 0).
Proof.
  intros Hk. unfold count, objects_filter.
  rewrite (Permutation_length
             (filter_Permutation_bool _ _ _ (map_to_list_insert t k r Hk))).
  simpl. destruct (P k r); simpl; lia.
Qed.

#[local] Instance by_created_at_trans : Transitive by_created_at.
Proof. unfold by_created_at. intros a b c. lia. Qed.

#[local] Instance by_created_at_total : Total by_created_at.
Proof. unfold by_created_at. intros a b. lia. Qed.

Lemma elem_of_unread_messages (room_id uid : Z) (db : DB) (k : Z) (m : ChatMessage) :
  (k, m) ∈ unread_messages room_id uid db
  <-> chat_messages db !! k = Some m /\ unread_for room_id uid k m = true.
Proof.
  unfold unread_messages. rewrite merge_sort_Permutation.
  apply elem_of_objects_filter.
Qed.

Lemma NoDup_unread_messages (room_id uid : Z) (db : DB) :
  NoDup (unread_messages room_id uid db).*1.
Proof.
  unfold unread_messages. rewrite merge_sort_Permutation.
  apply NoDup_fst_objects_filter.
Qed.

Lemma count_unread_messages (room_id uid : Z) (db : DB) :
  count (unread_messages room_id uid db) = get_unread_count room_id uid db.
Proof.
  unfold unread_messages, get_unread_count, count.
  by rewrite merge_sort_Permutation.
Qed.

Lemma mark_as_read_unread (now k : Z) (m : ChatMessage) (db : DB) :
  cm_is_read m = false ->
  (ChatMessage_mark_as_read now k m db).2
  = set_chat_messages (save k (marked now m)) db.
Proof. intros Hm. unfold ChatMessage_mark_as_read. by rewrite Hm. Qed.

(** The loop touches the table of messages only. *)
Lemma mark_each_frame (clock : nat -> Z) (rows : list (Z * ChatMessage)) (i : nat) (db : DB) :
  mark_each clock i rows db
  = set_chat_messages (fun _ => chat_messages (mark_each clock i rows db)) db.
Proof.
  revert i db. induction rows as [|[k m] rows IH]; intros i db; simpl.
  - by destruct db.
  - rewrite IH at 1. unfold ChatMessage_mark_as_read.
    destruct (negb (cm_is_read m)); simpl; [|by rewrite <- IH].
    by destruct db.
Qed.

Lemma mark_each_other (clock : nat -> Z) (rows : list (Z * ChatMessage)) (i : nat) (db : DB)
    (k : Z) :
  k ∉ rows.*1 ->
  chat_messages (mark_each clock i rows db) !! k = chat_messages db !! k.
Proof.
  revert i db. induction rows as [|[k0 m0] rows IH]; intros i db Hk; simpl; [done|].
  simpl in Hk. apply not_elem_of_cons in Hk as [Hne Hk].
  rewrite IH by done. unfold ChatMessage_mark_as_read.
  destruct (negb (cm_is_read m0)); simpl; [|done].
  unfold save. by rewrite lookup_insert_ne.
Qed.

Lemma mark_each_marked (clock : nat -> Z) (rows : list (Z * ChatMessage)) (i : nat) (db : DB)
    (k : Z) (m : ChatMessage) :
  NoDup rows.*1 ->
  (k, m) ∈ rows ->
  cm_is_read m = false ->
  exists j, chat_messages (mark_each clock i rows db) !! k = Some (marked (clock j) m).
Proof.
  revert i db. induction rows as [|[k0 m0] rows IH]; intros i db Hnd Hin Hm; simpl.
  - by apply elem_of_nil in Hin.
  - simpl in Hnd. apply NoDup_cons in Hnd as [Hk0 Hnd].
    apply elem_of_cons in Hin as [[= -> ->]|Hin].
    + exists i. rewrite mark_each_other by done.
      rewrite mark_as_read_unread by done. simpl. unfold save. apply lookup_insert_eq.
    + by apply IH.
Qed.

(** What the loop over the unread messages of a room leaves in the table. *)
Lemma mark_unread_lookup (clock : nat -> Z) (room_id uid : Z) (db : DB) (k : Z) :
  match chat_messages db !! k with
  | None =>
      chat_messages (mark_each clock 0 (unread_messages room_id uid db) db) !! k = None
  | Some m =>
      if unread_for room_id uid k m
      then exists j,
             chat_messages (mark_each clock 0 (unread_messages room_id uid db) db) !! k
             = Some (marked (clock j) m)
      else chat_messages (mark_each clock 0 (unread_messages room_id uid db) db) !! k
           = Some m
  end.
Proof.
  assert ((forall m, chat_messages db !! k = Some m ->
                     unread_for room_id uid k m = true -> False)
          \/ (exists m, chat_messages db !! k = Some m
                         /\ unread_for room_id uid k m = true))
    as [Hno|(m & Hk & Hunread)].
  { destruct (chat_messages db !! k) as [m|]; [|by left].
    destruct (unread_for room_id uid k m) eqn:E; [right; eauto | left].
    intros m' [= <-] ?. congruence. }
  - assert (k ∉ (unread_messages room_id uid db).*1) as Hnotin.
    { intros Hin. apply list_elem_of_fmap in Hin as ([k' m] & -> & Hin).
      apply elem_of_unread_messages in Hin as [Hk Hunread]. eauto. }
    rewrite mark_each_other by done.
    destruct (chat_messages db !! k) as [m|] eqn:Hk; [|done].
    destruct (unread_for room_id uid k m) eqn:E; [|done].
    exfalso. eauto.
  - rewrite Hk, Hunread.
    apply mark_each_marked.
    + apply NoDup_unread_messages.
    + by apply elem_of_unread_messages.
    + unfold unread_for in Hunread.
      apply andb_true_iff in Hunread as [Hunread _].
      apply andb_true_iff in Hunread as [_ Hunread].
      by destruct (cm_is_read m).
Qed.

Lemma unread_for_marked (room_id uid k now : Z) (m : ChatMessage) :
  unread_for room_id uid k (marked now m) = false.
Proof. unfold unread_for. simpl. by rewrite andb_false_r. Qed.

Lemma no_unread_after_marking (clock : nat -> Z) (room_id uid : Z) (db : DB) :
  objects_filter (unread_for room_id uid)
    (chat_messages (mark_each clock 0 (unread_messages room_id uid db) db)) = [].
Proof.
  apply objects_filter_nil. intros k m1 Hk1.
  pose proof (mark_unread_lookup clock room_id uid db k) as Hlook.
  destruct (chat_messages db !! k) as [m|]; [|congruence].
  destruct (unread_for room_id uid k m) eqn:E.
  - destruct Hlook as [j Hj]. rewrite Hj in Hk1. injection Hk1 as <-.
    apply unread_for_marked.
  - congruence.
Qed.

Lemma with_room_participant {C} (u : User) (room_id : Z) (room : ChatRoom)
    (other : Response C) (k : ChatRoom -> Response C * DB) (db : DB) :
  chat_rooms db !! room_id = Some room ->
  participant u room ->
  with_room u room_id other k db = k room.
Proof.
  intros Hroom Hpart.
  unfold with_room, is_parent, is_teacher, with_profile, get_object_or_404, get_by_id.
  destruct Hpart as [[Hrole Hprof]|[Hrole Hprof]]; rewrite Hrole, Hprof; simpl;
    by rewrite Hroom, Z.eqb_refl.
Qed.

(** X1: for a participant of the room, [mark_messages_read] answers with the
    number of unread messages the room held for the user, which is
    [get_unread_count] before the call, and leaves none: afterwards
    [get_unread_count] is 0.  Each unread message of the room sent by someone
    else becomes read with one of the clock readings as [read_at]; every
    other message (the user's own, those already read, those of other rooms)
    and every other table is unchanged. *)
Theorem mark_messages_read_clears (clock : nat -> Z) (room_id : Z) (req : Request)
    (u : User) (room : ChatRoom) (db : DB) :
  user req = Some u ->
  chat_rooms db !! room_id = Some room ->
  participant u room ->
  let db1 := (mark_messages_read clock room_id req db).2 in
  (mark_messages_read clock room_id req db).1
  = JsonResponse [("success", JBool true);
                  ("count", JInt (get_unread_count room_id (user_id u) db))] 200
  /\ get_unread_count room_id (user_id u) db1 = 0
  /\ (forall k,
        match chat_messages db !! k with
        | None => chat_messages db1 !! k = None
        | Some m =>
            if unread_for room_id (user_id u) k m
            then exists j, chat_messages db1 !! k = Some (marked (clock j) m)
            else chat_messages db1 !! k = Some m
        end)
  /\ db1 = set_chat_messages (fun _ => chat_messages db1) db.
Proof.
  intros Hu Hroom Hpart db1. subst db1.
  unfold mark_messages_read, login_required. rewrite Hu.
  rewrite (with_room_participant u room_id room _ _ db Hroom Hpart). simpl.
  rewrite count_unread_messages. split; [done|]. split; [|split].
  - unfold get_unread_count. by rewrite no_unread_after_marking.
  - apply mark_unread_lookup.
  - apply mark_each_frame.
Qed.

(** X2: [mark_messages_read] is idempotent: called again by the same
    participant, whatever the clock, it answers with count 0 and leaves the
    database as the first call left it. *)
Theorem mark_messages_read_twice (clock clock' : nat -> Z) (room_id : Z) (req : Request)
    (u : User) (room : ChatRoom) (db : DB) :
  user req = Some u ->
  chat_rooms db !! room_id = Some room ->
  participant u room ->
  let db1 := (mark_messages_read clock room_id req db).2 in
  mark_messages_read clock' room_id req db1
  = (JsonResponse [("success", JBool true); ("count", JInt 0)] 200, db1).
Proof.
  intros Hu Hroom Hpart db1.
  assert (db1 = mark_each clock 0 (unread_messages room_id (user_id u) db) db) as Hdb1.
  { subst db1. unfold mark_messages_read, login_required. rewrite Hu.
    by rewrite (with_room_participant u room_id room _ _ db Hroom Hpart). }
  assert (chat_rooms db1 !! room_id = Some room) as Hroom1.
  { rewrite Hdb1, mark_each_frame. exact Hroom. }
  assert (unread_messages room_id (user_id u) db1 = []) as Hnone.
  { unfold unread_messages. rewrite Hdb1, no_unread_after_marking. done. }
  unfold mark_messages_read, login_required. rewrite Hu.
  rewrite (with_room_participant u room_id room _ _ db1 Hroom1 Hpart). simpl.
  by rewrite Hnone.
Qed.

(** X3: a message a participant sends raises by one the unread count of the
    room for every user but the sender, leaves the sender's own count as it
    was, and changes the unread count of no other room. *)
Theorem send_message_unread_counts (created now saved room_id : Z) (req : Request)
    (u : User) (room : ChatRoom) (db : DB) :
  user req = Some u ->
  method req = POST ->
  strip (POST_get req "content") <> "" ->
  chat_rooms db !! room_id = Some room ->
  participant u room ->
  let db1 := (send_message created now saved room_id req db).2 in
  forall r v,
    get_unread_count r v db1
    = get_unread_count r v db
      + (if decide (r = room_id /\ v <> user_id u) then 1 else 0).
Proof.
  intros Hu Hpost Hcontent Hroom Hpart db1 r v. subst db1.
  rewrite (send_message_participant _ _ _ _ _ _ _ _ Hu Hpost Hcontent Hroom Hpart).
  unfold get_unread_count. simpl.
  rewrite count_objects_filter_insert by apply next_id_fresh.
  f_equal. unfold unread_for. simpl.
  destruct (decide (r = room_id /\ v <> user_id u)) as [[-> Hv]|Hnot].
  - rewrite Z.eqb_refl. simpl.
    destruct (user_id u =? v)%Z eqn:E; [apply Z.eqb_eq in E; congruence | done].
  - destruct (room_id =? r)%Z eqn:Er; simpl; [|done].
    destruct (user_id u =? v)%Z eqn:Ev; simpl; [done|].
    apply Z.eqb_eq in Er. apply Z.eqb_neq in Ev. exfalso. apply Hnot. split; congruence.
Qed.

(** X4: [chat_room], for a participant, renders the room with its messages
    oldest first.  The page lists exactly the messages the room has after the
    visit, none of the room's messages is missing or altered in content or
    sender, and every listed message that someone else sent is shown as
    read. *)
Theorem chat_room_shows_read (clock : nat -> Z) (room_id : Z) (req : Request)
    (u : User) (room : ChatRoom) (db : DB) :
  user req = Some u ->
  chat_rooms db !! room_id = Some room ->
  participant u room ->
  let db1 := (chat_room clock room_id req db).2 in
  exists msgs,
    (chat_room clock room_id req db).1
    = Render "information/chat_room.html"
        {| crc_room := (room_id, room); crc_messages := msgs |}
    /\ StronglySorted by_created_at msgs
    /\ (forall k m1, (k, m1) ∈ msgs
                     <-> chat_messages db1 !! k = Some m1 /\ cm_chat_room m1 = room_id)
    /\ (forall k m, chat_messages db !! k = Some m -> cm_chat_room m = room_id ->
                    exists m1, (k, m1) ∈ msgs /\ cm_content m1 = cm_content m
                               /\ cm_sender m1 = cm_sender m
                               /\ cm_created_at m1 = cm_created_at m)
    /\ (forall k m1, (k, m1) ∈ msgs -> cm_sender m1 <> user_id u -> cm_is_read m1 = true).
Proof.
  intros Hu Hroom Hpart db1. subst db1.
  unfold chat_room, login_required. rewrite Hu.
  rewrite (with_room_participant u room_id room _ _ db Hroom Hpart). simpl.
  set (db1 := mark_each clock 0 (unread_messages room_id (user_id u) db) db).
  assert (forall k m1, (k, m1) ∈ messages_list room_id db1
                       <-> chat_messages db1 !! k = Some m1 /\ cm_chat_room m1 = room_id)
    as Hmem.
  { intros k m1. unfold messages_list. rewrite merge_sort_Permutation.
    rewrite elem_of_objects_filter. by rewrite Z.eqb_eq. }
  eexists. split; [reflexivity|]. split; [|split; [|split]].
  - apply StronglySorted_merge_sort; apply _.
  - exact Hmem.
  - intros k m Hk Hr.
    pose proof (mark_unread_lookup clock room_id (user_id u) db k) as Hlook.
    fold db1 in Hlook. rewrite Hk in Hlook.
    destruct (unread_for room_id (user_id u) k m).
    + destruct Hlook as [j Hj]. exists (marked (clock j) m).
      split; [by apply Hmem|]. done.
    + exists m. split; [by apply Hmem|]. done.
  - intros k m1 Hin Hsender. apply Hmem in Hin as [Hk1 Hr1].
    pose proof (mark_unread_lookup clock room_id (user_id u) db k) as Hlook.
    fold db1 in Hlook. rewrite Hk1 in Hlook.
    destruct (chat_messages db !! k) as [m|]; [|done].
    destruct (unread_for room_id (user_id u) k m) eqn:E.
    + destruct Hlook as [j [= ->]]. done.
    + injection Hlook as ->. unfold unread_for in E.
      rewrite Hr1, Z.eqb_refl in E. simpl in E.
      destruct (cm_is_read m); [done|]. simpl in E.
      apply negb_false_iff, Z.eqb_eq in E. done.
Qed.

(** X5: whatever the request, [send_message] never alters or deletes a
    message already stored, changes no room but the one addressed, keeps that
    room's pair, subject, flags and creation time, and writes no other
    table. *)
Theorem send_message_frame (created now saved room_id : Z) (req : Request) (db : DB) :
  let db1 := (send_message created now saved room_id req db).2 in
  (forall k m, chat_messages db !! k = Some m -> chat_messages db1 !! k = Some m)
  /\ (forall k, k <> room_id -> chat_rooms db1 !! k = chat_rooms db !! k)
  /\ match chat_rooms db !! room_id with
     | None => chat_rooms db1 !! room_id = None
     | Some r =>
         exists r1, chat_rooms db1 !! room_id = Some r1
           /\ cr_parent r1 = cr_parent r /\ cr_teacher r1 = cr_teacher r
           /\ cr_subject r1 = cr_subject r /\ cr_is_active r1 = cr_is_active r
           /\ cr_is_archived r1 = cr_is_archived r /\ cr_created_at r1 = cr_created_at r
     end
  /\ db1 = set_chat_rooms (fun _ => chat_rooms db1)
             (set_chat_messages (fun _ => chat_messages db1) db).
Proof.
  assert (let d := db in
          (forall k m, chat_messages db !! k = Some m -> chat_messages d !! k = Some m)
          /\ (forall k, k <> room_id -> chat_rooms d !! k = chat_rooms db !! k)
          /\ match chat_rooms db !! room_id with
             | None => chat_rooms d !! room_id = None
             | Some r =>
                 exists r1, chat_rooms d !! room_id = Some r1
                   /\ cr_parent r1 = cr_parent r /\ cr_teacher r1 = cr_teacher r
                   /\ cr_subject r1 = cr_subject r /\ cr_is_active r1 = cr_is_active r
                   /\ cr_is_archived r1 = cr_is_archived r
                   /\ cr_created_at r1 = cr_created_at r
             end
          /\ d = set_chat_rooms (fun _ => chat_rooms d)
                   (set_chat_messages (fun _ => chat_messages d) db)) as Hsame.
  { simpl. split; [done|]. split; [done|]. split; [|by destruct db].
    destruct (chat_rooms db !! room_id) as [r|]; [|done]. by exists r. }
  assert (forall room content uid,
            chat_rooms db !! room_id = Some room ->
            let d := set_chat_rooms (save room_id (touch_room now saved room))
                       (set_chat_messages
                          (fun _ => <[next_id (chat_messages db) :=
                                        new_chat_message created room_id uid content]>
                                      (chat_messages db)) db) in
            (forall k m, chat_messages db !! k = Some m -> chat_messages d !! k = Some m)
            /\ (forall k, k <> room_id -> chat_rooms d !! k = chat_rooms db !! k)
            /\ match chat_rooms db !! room_id with
               | None => chat_rooms d !! room_id = None
               | Some r =>
                   exists r1, chat_rooms d !! room_id = Some r1
                     /\ cr_parent r1 = cr_parent r /\ cr_teacher r1 = cr_teacher r
                     /\ cr_subject r1 = cr_subject r /\ cr_is_active r1 = cr_is_active r
                     /\ cr_is_archived r1 = cr_is_archived r
                     /\ cr_created_at r1 = cr_created_at r
               end
            /\ d = set_chat_rooms (fun _ => chat_rooms d)
                     (set_chat_messages (fun _ => chat_messages d) db)) as Hsent.
  { intros room content uid Hroom. simpl. split; [|split; [|split]].
    - intros k m Hk. rewrite lookup_insert_ne; [done|].
      intros <-. by rewrite next_id_fresh in Hk.
    - intros k Hne. unfold save. by rewrite lookup_insert_ne.
    - rewrite Hroom. unfold save. rewrite lookup_insert_eq. eexists. by split.
    - done. }
  unfold send_message, login_required.
  destruct (user req) as [u|]; [|exact Hsame].
  destruct (method req); [exact Hsame|].
  destruct (negb (truthy (strip (POST_get req "content")))); [exact Hsame|].
  unfold with_profile, get_object_or_404, get_by_id.
  destruct (is_parent u).
  - destruct (parent_profile u) as [pa|]; [|exact Hsame].
    destruct (chat_rooms db !! room_id) as [room|] eqn:Hroom; [|exact Hsame].
    destruct (cr_parent room =? pa)%Z; [|exact Hsame].
    by apply Hsent.
  - destruct (is_teacher u); [|exact Hsame].
    destruct (teacher_profile u) as [te|]; [|exact Hsame].
    destruct (chat_rooms db !! room_id) as [room|] eqn:Hroom; [|exact Hsame].
    destruct (cr_teacher room =? te)%Z; [|exact Hsame].
    by apply Hsent.
Qed.

(** X6: a parent or teacher who addresses a room that does not exist, or a
    room of which they are not the parent or the teacher, gets 404, not 403,
    and nothing is written. *)
Theorem send_message_foreign_room (created now saved room_id : Z) (req : Request)
    (u : User) (db : DB) :
  user req = Some u ->
  method req = POST ->
  strip (POST_get req "content") <> "" ->
  (role u = parent /\ is_Some (parent_profile u)
   \/ role u = teacher /\ is_Some (teacher_profile u)) ->
  (forall room, chat_rooms db !! room_id = Some room -> ~ participant u room) ->
  send_message created now saved room_id req db = (Http404, db).
Proof.
  intros Hu Hpost Hcontent Hrole Hforeign.
  unfold send_message, login_required.
  rewrite Hu, Hpost, (truthy_nonempty _ Hcontent). simpl.
  unfold is_parent, is_teacher, with_profile, get_object_or_404, get_by_id.
  destruct Hrole as [[Hrole [p Hprof]]|[Hrole [p Hprof]]]; rewrite Hrole, Hprof; simpl.
  - destruct (chat_rooms db !! room_id) as [room|] eqn:Hroom; [|done].
    destruct (cr_parent room =? p)%Z eqn:E; [|done].
    apply Z.eqb_eq in E. exfalso. apply (Hforeign room eq_refl).
    left. split; [done | congruence].
  - destruct (chat_rooms db !! room_id) as [room|] eqn:Hroom; [|done].
    destruct (cr_teacher room =? p)%Z eqn:E; [|done].
    apply Z.eqb_eq in E. exfalso. apply (Hforeign room eq_refl).
    right. split; [done | congruence].
Qed.

(** ** Notifications *)

(** X7: [mark_notification_read] answers 404 and writes nothing when the id
    is unknown or the notification is addressed to another user. *)
Theorem mark_notification_read_foreign (now id : Z) (req : Request) (u : User) (db : DB) :
  user req = Some u ->
  (forall n, notifications db !! id = Some n -> nt_recipient n <> user_id u) ->
  mark_notification_read now id req db = (Http404, db).
Proof.
  intros Hu Hforeign.
  unfold mark_notification_read, login_required, get_object_or_404, get_by_id.
  rewrite Hu. destruct (notifications db !! id) as [n|] eqn:Hn; [|done].
  destruct (nt_recipient n =? user_id u)%Z eqn:E; [|done].
  apply Z.eqb_eq in E. by destruct (Hforeign n eq_refl).
Qed.

Lemma mark_all_lookup (req : Request) (u : User) (db : DB) (k : Z) :
  user req = Some u ->
  notifications (mark_all_notifications_read req db).2 !! k
  = (fun n => if (nt_recipient n =? user_id u)%Z && negb (nt_is_read n)
              then set_is_read n else n) <$> notifications db !! k.
Proof.
  intros Hu. unfold mark_all_notifications_read, login_required. rewrite Hu. simpl.
  unfold update_where. by rewrite lookup_fmap.
Qed.

Lemma mark_all_leaves_read (req : Request) (u : User) (db : DB) (k : Z) (n1 : Notification) :
  user req = Some u ->
  notifications (mark_all_notifications_read req db).2 !! k = Some n1 ->
  nt_recipient n1 = user_id u ->
  nt_is_read n1 = true.
Proof.
  intros Hu Hk Hr. rewrite (mark_all_lookup req u db k Hu) in Hk.
  destruct (notifications db !! k) as [n|]; [|done]. simpl in Hk.
  injection Hk as <-.
  destruct (nt_recipient n =? user_id u)%Z eqn:E; simpl in *.
  - destruct (nt_is_read n) eqn:Hread; simpl in *; done.
  - apply Z.eqb_neq in E. done.
Qed.

(** X8: after [mark_all_notifications_read] the user has no unread
    notification left, and a second call changes no notification at all. *)
Theorem mark_all_notifications_read_none_left (req : Request) (u : User) (db : DB) :
  user req = Some u ->
  let db1 := (mark_all_notifications_read req db).2 in
  (forall k n1, notifications db1 !! k = Some n1 -> nt_recipient n1 = user_id u ->
                nt_is_read n1 = true)
  /\ notifications (mark_all_notifications_read req db1).2 = notifications db1.
Proof.
  intros Hu db1. subst db1. split.
  - intros k n1. by apply mark_all_leaves_read.
  - apply map_eq. intros k.
    rewrite (mark_all_lookup req u _ k Hu), (mark_all_lookup req u db k Hu).
    destruct (notifications db !! k) as [n|]; [|done]. simpl. f_equal.
    destruct (nt_recipient n =? user_id u)%Z eqn:E; simpl; [|by rewrite E].
    destruct (nt_is_read n) eqn:Hread; simpl.
    + by rewrite E, Hread.
    + by rewrite E.
Qed.

(** X9: [mark_notification_read] on a notification that is already read
    writes nothing, so a read time is never replaced; and a notification read
    in bulk, whose [read_at] the bulk update left null, keeps it null however
    often it is marked afterwards. *)
Theorem read_at_never_restamped (now id : Z) (req : Request) (u : User) (db : DB) :
  user req = Some u ->
  (forall n, notifications db !! id = Some n -> nt_is_read n = true ->
             (mark_notification_read now id req db).2 = db)
  /\ (let db1 := (mark_all_notifications_read req db).2 in
      (mark_notification_read now id req db1).2 = db1
      /\ forall n, notifications db !! id = Some n -> nt_recipient n = user_id u ->
                   nt_read_at <$> notifications (mark_notification_read now id req db1).2 !! id
                   = Some (nt_read_at n)).
Proof.
  intros Hu.
  assert (forall d, (forall n, notifications d !! id = Some n ->
                               nt_recipient n = user_id u -> nt_is_read n = true) ->
                    (mark_notification_read now id req d).2 = d) as Hnoop.
  { intros d Hread.
    unfold mark_notification_read, login_required, get_object_or_404, get_by_id.
    rewrite Hu. destruct (notifications d !! id) as [n|] eqn:Hn; [|done].
    destruct (nt_recipient n =? user_id u)%Z eqn:E; [|done].
    apply Z.eqb_eq in E. unfold Notification_mark_as_read.
    rewrite (Hread n eq_refl E). simpl. by destruct (is_ajax req). }
  split.
  - intros n Hn Hread. apply Hnoop. intros n' Hn' _. congruence.
  - simpl.
    assert ((mark_notification_read now id req (mark_all_notifications_read req db).2).2
            = (mark_all_notifications_read req db).2) as Hsame
      by (apply Hnoop; intros n Hn Hr; by apply (mark_all_leaves_read req u db id)).
    split; [exact Hsame|].
    intros n Hn Hr. rewrite Hsame, (mark_all_lookup req u db id Hu), Hn. simpl.
    by destruct (_ && _).
Qed.

(** ** More on the chatbot *)

Import StrCount.

Lemma split_length (sep : ascii) (s : string) :
  length (split sep s) = S (str_count sep s).
Proof.
  induction s as [|c s IH]; simpl; [done|].
  destruct (Ascii.eqb c sep); simpl; [by rewrite IH|].
  destruct (split sep s) as [|w ws]; simpl in *; [done | exact IH].
Qed.

Lemma split_trailing (sep : ascii) (s : string) :
  exists l, l <> [] /\ split sep (s ++ String sep "") = (l ++ [""])%list.
Proof.
  induction s as [|c s (l & Hl & IH)].
  - exists [""]. split; [done|]. rewrite str_app_nil_l. simpl.
    by rewrite Ascii.eqb_refl.
  - rewrite str_app_cons. simpl. rewrite IH. destruct (Ascii.eqb c sep).
    + exists ("" :: l). done.
    + destruct l as [|w l]; [done|]. simpl. exists (String c w :: l). done.
Qed.

Lemma lower_char_idemp (c : ascii) : lower_char (lower_char c) = lower_char c.
Proof. destruct c as [[] [] [] [] [] [] [] []]; reflexivity. Qed.

Lemma lower_idemp (s : string) : lower (lower s) = lower s.
Proof.
  induction s as [|c s IH]; simpl; [done|]. by rewrite lower_char_idemp, IH.
Qed.

(** X10: [get_keywords_list] yields one keyword more than the field has
    commas, so never an empty list, and every keyword is in normal form:
    stripping or lower-casing it again changes nothing. *)
Theorem get_keywords_list_shape (m : BotMessage) :
  length (get_keywords_list m) = S (str_count "," (bm_keywords m))
  /\ forall keyword, In keyword (get_keywords_list m) ->
                     strip keyword = keyword /\ lower keyword = keyword.
Proof.
  split.
  - unfold get_keywords_list. by rewrite length_map, split_length.
  - intros kw Hin. split; [by apply (keyword_stripped m)|].
    unfold get_keywords_list in Hin. apply in_map_iff in Hin as (x & <- & _).
    apply lower_idemp.
Qed.

(** X11: a keywords field that is empty, or that ends with a comma, yields
    the empty keyword, and the empty keyword is found in every query: such a
    message matches whatever is asked. *)
Theorem blank_keyword_matches_all (m : BotMessage) :
  (bm_keywords m = "" \/ exists s, bm_keywords m = s ++ ",") ->
  In "" (get_keywords_list m)
  /\ forall query, keyword_match query m = true.
Proof.
  intros Hkw.
  assert (In "" (get_keywords_list m)) as Hin.
  { unfold get_keywords_list. apply in_map_iff. exists "". split; [done|].
    destruct Hkw as [->|[s ->]]; [by left|].
    destruct (split_trailing "," s) as (l & _ & ->).
    apply in_or_app. right. by left. }
  split; [exact Hin|].
  intros query. apply keyword_match_spec. exists "". split; [exact Hin|].
  by exists "", query.
Qed.

(** X12: whatever the request, [chatbot_query] either leaves the database
    as it is or saves one row of an active message with its usage count
    raised by one: it never touches an inactive message, another table, or
    more than one row, and never adds or removes a row. *)
Theorem chatbot_query_frame (saved : Z) (req : Request) (db : DB) :
  let db1 := (chatbot_query saved req db).2 in
  db1 = db
  \/ exists k m,
       bot_messages db !! k = Some m /\ bm_is_active m = true
       /\ db1 = set_bot_messages (save k (count_usage saved m)) db
       /\ dom (bot_messages db1) = dom (bot_messages db).
Proof.
  unfold chatbot_query, login_required. simpl.
  destruct (user req) as [u|]; [|by left].
  destruct (method req); [by left|].
  destruct (negb (truthy _)); [by left|].
  destruct (first_match _ _) as [[k m]|] eqn:Hfirst; [|by left].
  right. exists k, m.
  destruct (first_match_some _ _ _ _ (active_by_priority_sorted _) Hfirst)
    as (Hin & _ & _).
  apply elem_of_active_by_priority in Hin as [Hk Hactive].
  split; [done|]. split; [done|]. split; [done|]. simpl.
  unfold save. rewrite dom_insert_L.
  assert (k ∈ dom (bot_messages db)) as Hdom by (apply elem_of_dom; eauto).
  apply set_eq. intros k'. rewrite elem_of_union, elem_of_singleton.
  split; [intros [->|Hk']; done | by right].
Qed.

(** X13: a POST whose query is not empty once stripped is always answered
    with status 200 and a response text that is never empty: the text is the
    fallback sentence or the response text of an active message one of whose
    keywords occurs in the normalised query, and it is the fallback sentence
    whenever no active message matches. *)
Theorem chatbot_query_answer (saved : Z) (req : Request) (u : User) (db : DB) :
  user req = Some u ->
  method req = POST ->
  strip (POST_get req "query") <> "" ->
  let query := lower (strip (POST_get req "query")) in
  exists response,
    (chatbot_query saved req db).1
    = JsonResponse [("success", JBool true); ("response", JStr response)] 200
    /\ response <> ""
    /\ (response = fallback_response
        \/ exists k m, bot_messages db !! k = Some m /\ bm_is_active m = true
                       /\ matches query m /\ response = bm_response_text m)
    /\ ((forall k m, bot_messages db !! k = Some m -> bm_is_active m = true ->
                     ~ matches query m) -> response = fallback_response).
Proof.
  intros Hu Hpost Hquery query.
  rewrite (chatbot_query_post saved req u db Hu Hpost Hquery). fold query.
  destruct (first_match query (active_by_priority (bot_messages db)))
    as [[k m]|] eqn:Hfirst.
  - destruct (first_match_some _ _ _ _ (active_by_priority_sorted _) Hfirst)
      as (Hin & Hm & _).
    apply elem_of_active_by_priority in Hin as [Hk Hactive].
    apply keyword_match_spec in Hm.
    eexists. split; [reflexivity|].
    destruct (bm_response_text m) as [|c r] eqn:Htext; simpl.
    + split; [done|]. split; [by left|]. done.
    + split; [done|]. split.
      * right. exists k, m. by rewrite Htext.
      * intros Hnone. by destruct (Hnone k m Hk Hactive).
  - eexists. split; [reflexivity|]. split; [done|]. split; [by left | done].
Qed.

(** X14: the answer does not depend on letter case or on blanks around the
    query: a request whose query is the lower-cased, or the stripped, query
    of another request by the same user gets the same response and leaves
    the same database. *)
Theorem chatbot_query_case_insensitive (saved : Z) (req1 req2 : Request) (db : DB) :
  user req2 = user req1 ->
  method req2 = method req1 ->
  (POST_get req2 "query" = lower (POST_get req1 "query")
   \/ POST_get req2 "query" = strip (POST_get req1 "query")) ->
  chatbot_query saved req2 db = chatbot_query saved req1 db.
Proof.
  intros Hu Hm Hq.
  assert (lower (strip (POST_get req2 "query")) = lower (strip (POST_get req1 "query")))
    as Hnorm.
  { destruct Hq as [-> | ->].
    - by rewrite <- lower_strip, lower_idemp.
    - by rewrite strip_idemp. }
  unfold chatbot_query, login_required. rewrite Hu, Hm, Hnorm. done.
Qed.

(** ** More on starting a chat *)

(** X15: whatever the request, [start_chat] either writes nothing or adds
    one new room, and it adds one only for a parent, an existing teacher and
    a pair that has no room yet; no room already stored is changed or
    removed, and an unknown teacher id is answered with 404. *)
Theorem start_chat_creates_only_missing (now teacher_id : Z) (req : Request) (db : DB) :
  let db1 := (start_chat now teacher_id req db).2 in
  (db1 = db
   \/ exists u pa,
        user req = Some u /\ role u = parent /\ parent_profile u = Some pa
        /\ is_Some (teachers db !! teacher_id)
        /\ (forall k r, chat_rooms db !! k = Some r ->
                        ~ (cr_parent r = pa /\ cr_teacher r = teacher_id))
        /\ chat_rooms db !! next_id (chat_rooms db) = None
        /\ db1 = add_message success "Chat started successfully!"
                   (set_chat_rooms
                      (fun _ => <[next_id (chat_rooms db) :=
                                    new_chat_room now pa teacher_id]> (chat_rooms db)) db))
  /\ (forall k r, chat_rooms db !! k = Some r -> chat_rooms db1 !! k = Some r)
  /\ (forall u pa, user req = Some u -> role u = parent -> parent_profile u = Some pa ->
                   teachers db !! teacher_id = None ->
                   start_chat now teacher_id req db = (Http404, db)).
Proof.
  assert (let db1 := (start_chat now teacher_id req db).2 in
          db1 = db
          \/ exists u pa,
               user req = Some u /\ role u = parent /\ parent_profile u = Some pa
               /\ is_Some (teachers db !! teacher_id)
               /\ (forall k r, chat_rooms db !! k = Some r ->
                               ~ (cr_parent r = pa /\ cr_teacher r = teacher_id))
               /\ chat_rooms db !! next_id (chat_rooms db) = None
               /\ db1 = add_message success "Chat started successfully!"
                          (set_chat_rooms
                             (fun _ => <[next_id (chat_rooms db) :=
                                           new_chat_room now pa teacher_id]> (chat_rooms db))
                             db)) as Hcases.
  { simpl. unfold start_chat, login_required, parent_required, is_parent.
    destruct (user req) as [u|] eqn:Hu; [|by left].
    destruct (decide (role u = parent)) as [Hrole|Hrole];
      [rewrite (bool_decide_eq_true_2 _ Hrole) | rewrite (bool_decide_eq_false_2 _ Hrole)];
      [|by left].
    unfold with_profile, get_object_or_404, get_by_id.
    destruct (parent_profile u) as [pa|] eqn:Hprof; [|by left].
    destruct (teachers db !! teacher_id) as [te|] eqn:Hte; [|by left]. simpl.
    destruct (objects_get (room_of_pair pa teacher_id) (chat_rooms db))
      as [room_id room| |] eqn:Hget; [by left| |by left].
    right. exists u, pa. do 4 (split; [eauto|]). split; [|split].
    - intros k r Hk [Hp Ht].
      pose proof (objects_get_missing _ _ Hget k r Hk) as Hno.
      unfold room_of_pair in Hno. by rewrite Hp, Ht, !Z.eqb_refl in Hno.
    - apply next_id_fresh.
    - done. }
  split; [exact Hcases|]. split.
  - intros k r Hk. destruct Hcases as [->|(u & pa & _ & _ & _ & _ & _ & Hfresh & ->)];
      [done|]. simpl. rewrite lookup_insert_ne; [done|]. intros <-. congruence.
  - intros u pa Hu Hrole Hprof Hte.
    unfold start_chat, login_required, parent_required, is_parent,
      with_profile, get_object_or_404, get_by_id.
    by rewrite Hu, Hrole, Hprof, Hte.
Qed.

(** The room [start_chat] redirects a parent to is a room of the pair. *)
Lemma start_chat_room (now teacher_id pa : Z) (req : Request) (u : User) (db : DB) :
  user req = Some u ->
  role u = parent ->
  parent_profile u = Some pa ->
  is_Some (teachers db !! teacher_id) ->
  unique_together (chat_rooms db) ->
  exists room_id room,
    (start_chat now teacher_id req db).1 = Redirect "information:chat_room" [room_id]
    /\ chat_rooms (start_chat now teacher_id req db).2 !! room_id = Some room
    /\ cr_parent room = pa /\ cr_teacher room = teacher_id.
Proof.
  intros Hu Hrole Hprof Hte Huniq.
  rewrite (start_chat_parent now teacher_id pa req u db Hu Hrole Hprof Hte).
  destruct (objects_get (room_of_pair pa teacher_id) (chat_rooms db))
    as [room_id room| |] eqn:Hget.
  - pose proof (objects_get_found _ _ _ _ Hget) as [Hroom HP].
    unfold room_of_pair in HP. apply andb_true_iff in HP as [HPa HPb].
    apply Z.eqb_eq in HPa, HPb. exists room_id, room. done.
  - eexists _, _. simpl. split; [done|]. split; [apply lookup_insert_eq|]. done.
  - by apply objects_get_not_multiple in Hget.
Qed.

(** X16: the room [start_chat] sends a parent to can be written to at once:
    a message of that parent with content left after stripping, sent to the
    room id of the redirect, is accepted with the success object. *)
Theorem start_chat_then_send_message (now created sent saved teacher_id pa : Z)
    (req post : Request) (u : User) (db : DB) :
  user req = Some u ->
  role u = parent ->
  parent_profile u = Some pa ->
  is_Some (teachers db !! teacher_id) ->
  unique_together (chat_rooms db) ->
  user post = Some u ->
  method post = POST ->
  strip (POST_get post "content") <> "" ->
  exists room_id message_id,
    (start_chat now teacher_id req db).1 = Redirect "information:chat_room" [room_id]
    /\ (send_message created sent saved room_id post (start_chat now teacher_id req db).2).1
       = JsonResponse [("success", JBool true); ("message_id", JInt message_id);
                       ("content", JStr (strip (POST_get post "content")));
                       ("created_at", JDateTime created)] 200.
Proof.
  intros Hu Hrole Hprof Hte Huniq Hu' Hpost Hcontent.
  destruct (start_chat_room now teacher_id pa req u db Hu Hrole Hprof Hte Huniq)
    as (room_id & room & Hresp & Hroom & Hp & Ht).
  exists room_id. eexists. split; [exact Hresp|].
  rewrite (send_message_participant created sent saved room_id post u _ room
             Hu' Hpost Hcontent Hroom).
  - reflexivity.
  - left. split; [done | congruence].
Qed.

(** ** The teacher's pages *)

Import ClassPages.

#[local] Instance by_class_quarter_trans : Transitive by_class_quarter.
Proof. unfold by_class_quarter. intros a b c. lia. Qed.

#[local] Instance by_class_quarter_total : Total by_class_quarter.
Proof. unfold by_class_quarter. intros a b. lia. Qed.

#[local] Instance by_date_desc_trans : Transitive by_date_desc.
Proof. unfold by_date_desc. intros a b c. lia. Qed.

#[local] Instance by_date_desc_total : Total by_date_desc.
Proof. unfold by_date_desc. intros a b. lia. Qed.

(** Cutting a sorted list keeps its front: whatever is cut off comes after
    everything kept. *)
Lemma take_sorted_front {A} (R : relation A) (n : nat) (l : list A) (x y : A) :
  StronglySorted R l -> x ∈ take n l -> y ∈ l -> y ∉ take n l -> R x y.
Proof.
  intros Hsorted Hx Hy Hnot.
  rewrite <- (take_drop n l) in Hsorted, Hy.
  apply elem_of_app in Hy as [Hy|Hy]; [done|].
  by apply (StronglySorted_app_1_elem_of R _ _ x y Hsorted).
Qed.

(** X17: the grade page of a student lists, for a teacher, exactly the final
    grades of that student in classes the teacher owns, ordered by class and
    then by quarter: no grade of another teacher's class is shown.  The id of
    no child is answered with 404. *)
Theorem student_grades_scoped (student_id te : Z) (req : Request) (u : User) (db : DB) :
  user req = Some u ->
  role u = teacher ->
  teacher_profile u = Some te ->
  match children db !! student_id with
  | None => student_grades student_id req db = (Http404, db)
  | Some student =>
      exists grades,
        student_grades student_id req db
        = (Render "monitoring/student_grades.html"
             {| sg_student := (student_id, student); sg_grades := grades;
                sg_teacher := te |}, db)
        /\ StronglySorted by_class_quarter grades
        /\ forall k g,
             (k, g) ∈ grades
             <-> final_grades db !! k = Some g /\ fg_student g = student_id
                 /\ exists c, classes db !! fg_class_obj g = Some c /\ cl_teacher c = te
  end.
Proof.
  intros Hu Hrole Hprof. unfold student_grades.
  unfold login_required, teacher_required, is_teacher, with_profile.
  rewrite Hu, Hrole, Hprof. simpl.
  unfold get_object_or_404, get_by_id.
  destruct (children db !! student_id) as [student|]; [|done].
  eexists. split; [reflexivity|]. split.
  - apply StronglySorted_merge_sort; apply _.
  - intros k g. rewrite merge_sort_Permutation, elem_of_objects_filter.
    rewrite andb_true_iff, Z.eqb_eq. unfold in_class_of.
    destruct (classes db !! fg_class_obj g) as [c|].
    + rewrite Z.eqb_eq. split.
      * intros (Hk & Hs & Hc). eauto.
      * intros (Hk & Hs & c' & [= <-] & Hc). done.
    + split; [intros (_ & _ & ?); done|]. intros (_ & _ & c & ? & _). done.
Qed.

(** X18: the attendance page of a student shows at most 30 rows, all of them
    attendance rows of that student, latest date first, and they are the
    latest ones: no row of the student left out has a later date than a row
    shown. *)
Theorem student_attendance_latest (student_id te : Z) (req : Request) (u : User)
    (student : Child) (db : DB) :
  user req = Some u ->
  role u = teacher ->
  teacher_profile u = Some te ->
  children db !! student_id = Some student ->
  exists rows,
    student_attendance student_id req db
    = (Render "monitoring/student_attendance.html"
         {| sa_student := (student_id, student); sa_attendance := rows;
            sa_teacher := te |}, db)
    /\ (length rows <= 30)%nat
    /\ StronglySorted by_date_desc rows
    /\ (forall k a, (k, a) ∈ rows ->
                    attendance db !! k = Some a /\ at_child a = student_id)
    /\ (forall k a k' a',
          attendance db !! k = Some a -> at_child a = student_id -> (k, a) ∉ rows ->
          (k', a') ∈ rows ->
          toordinal (at_date a) <= toordinal (at_date a')).
Proof.
  intros Hu Hrole Hprof Hstudent. unfold student_attendance.
  unfold login_required, teacher_required, is_teacher, with_profile.
  rewrite Hu, Hrole, Hprof. simpl.
  unfold get_object_or_404, get_by_id. rewrite Hstudent.
  set (all := merge_sort by_date_desc
                (objects_filter (fun _ a => (at_child a =? student_id)%Z) (attendance db))).
  assert (StronglySorted by_date_desc all) as Hsorted
    by (apply StronglySorted_merge_sort; apply _).
  assert (forall k a, (k, a) ∈ all <-> attendance db !! k = Some a /\ at_child a = student_id)
    as Hall.
  { intros k a. unfold all. rewrite merge_sort_Permutation, elem_of_objects_filter.
    by rewrite Z.eqb_eq. }
  exists (take 30 all). split; [reflexivity|]. split; [|split; [|split]].
  - rewrite length_take. lia.
  - rewrite <- (take_drop 30 all) in Hsorted.
    by apply StronglySorted_app_1_l in Hsorted.
  - intros k a Hin. apply Hall. rewrite <- (take_drop 30 all).
    apply elem_of_app. by left.
  - intros k a k' a' Hk Hc Hnot Hin'.
    apply (take_sorted_front by_date_desc 30 all (k', a') (k, a) Hsorted Hin');
      [by apply Hall | done].
Qed.

(** X19: the class pages are served to the owner only: for a teacher,
    [class_detail] and [class_students] render the class exactly when it
    exists and is the teacher's, and answer 404 otherwise; the list of
    [class_students] holds exactly the enrollments of that class. *)
Theorem class_pages_owner_only (class_id te : Z) (req : Request) (u : User) (db : DB) :
  user req = Some u ->
  role u = teacher ->
  teacher_profile u = Some te ->
  match classes db !! class_id with
  | Some class_obj =>
      if decide (cl_teacher class_obj = te) then
        class_detail class_id req db
        = (Render "monitoring/class_detail.html"
             {| cdc_class_obj := (class_id, class_obj); cdc_teacher := te |}, db)
        /\ exists rows,
             class_students class_id req db
             = (Render "monitoring/class_students.html"
                  {| cs_class_obj := (class_id, class_obj); cs_enrollments := rows;
                     cs_teacher := te |}, db)
             /\ forall k e, (k, e) ∈ rows
                            <-> enrollments db !! k = Some e /\ en_class_obj e = class_id
      else class_detail class_id req db = (Http404, db)
           /\ class_students class_id req db = (Http404, db)
  | None => class_detail class_id req db = (Http404, db)
            /\ class_students class_id req db = (Http404, db)
  end.
Proof.
  intros Hu Hrole Hprof. unfold class_detail, class_students.
  unfold login_required, teacher_required, is_teacher, with_profile.
  rewrite Hu, Hrole, Hprof. simpl.
  unfold get_object_or_404, get_by_id.
  destruct (classes db !! class_id) as [class_obj|]; [|done].
  destruct (decide (cl_teacher class_obj = te)) as [->|Hne].
  - rewrite Z.eqb_refl. split; [done|]. eexists. split; [reflexivity|].
    intros k e. rewrite elem_of_objects_filter. by rewrite Z.eqb_eq.
  - apply Z.eqb_neq in Hne. by rewrite Hne.
Qed.

(** ** More on the child's page *)

Section ChildPage.
Context `{PyFloatOps}.

Lemma with_status_partition (rows : list (Z * Attendance)) :
  count (with_status present rows) + count (with_status absent rows)
  + count (with_status late rows) = count rows.
Proof.
  unfold count, with_status. induction rows as [|[k a] rows IH]; simpl; [done|].
  destruct (at_status a); simpl; lia.
Qed.

Lemma with_status_le (s : AttendanceStatus) (rows : list (Z * Attendance)) :
  0 <= count (with_status s rows) <= count rows.
Proof.
  unfold count, with_status. split; [lia|].
  induction rows as [|[k a] rows IH]; simpl; [done|].
  destruct (bool_decide _); simpl; lia.
Qed.

(** X20: on the child's page the attendance summary is consistent: the
    present, absent and late days add up to the total of days, each lies
    between 0 and the total, and the total counts exactly the child's
    attendance rows dated 30 days before today or later. *)
Theorem child_detail_summary_adds_up (today : Date) (child_id pa : Z) (req : Request)
    (u : User) (db : DB) :
  user req = Some u ->
  role u = parent ->
  parent_profile u = Some pa ->
  guardian pa child_id db ->
  exists ctx,
    child_detail today child_id req db = (Render "users/child_detail.html" ctx, db)
    /\ let s := cd_attendance_summary ctx in
       present_days s + absent_days s + late_days s = total_days s
       /\ 0 <= present_days s <= total_days s
       /\ 0 <= absent_days s <= total_days s
       /\ 0 <= late_days s <= total_days s
       /\ exists rows,
            total_days s = Z.of_nat (length rows)
            /\ NoDup rows
            /\ forall k a,
                 (k, a) ∈ rows
                 <-> attendance db !! k = Some a /\ at_child a = child_id
                     /\ toordinal today - 30 <= toordinal (at_date a).
Proof.
  intros Hu Hrole Hprof (child & Hchild & Hin).
  rewrite (child_detail_parent today child_id pa req u db Hu Hrole Hprof).
  unfold get_by_id. rewrite Hchild, (bool_decide_eq_true_2 _ Hin).
  eexists. split; [reflexivity|]. simpl.
  split; [apply with_status_partition|].
  do 3 (split; [apply with_status_le|]).
  exists (recent_attendance today child_id db). split; [done|]. split.
  - unfold recent_attendance, objects_filter.
    apply NoDup_ListNoDup, List.NoDup_filter, NoDup_ListNoDup, NoDup_map_to_list.
  - intros k a. unfold recent_attendance. rewrite elem_of_objects_filter.
    by rewrite andb_true_iff, Z.eqb_eq, Z.leb_le.
Qed.

Lemma omap_keys_sublist {A B} (f : A -> option (A * B)) (l : list A) :
  (forall x y, f x = Some y -> y.1 = x) ->
  (omap f l).*1 `sublist_of` l.
Proof.
  intros Hkey. induction l as [|x l IH]; simpl; [done|].
  destruct (f x) as [y|] eqn:Hfx; simpl.
  - rewrite (Hkey x y Hfx). by apply sublist_skip.
  - by apply sublist_cons.
Qed.

(** X21: the grades of the child's page are grouped by quarter: the quarters
    shown are among 1, 2, 3 and 4, in that order and without repetition; no
    group is empty; a group holds exactly the child's final grades of its
    quarter; and every final grade of the child for one of the four quarters
    is in its group. *)
Theorem child_detail_grades_by_quarter (today : Date) (child_id pa : Z) (req : Request)
    (u : User) (db : DB) :
  user req = Some u ->
  role u = parent ->
  parent_profile u = Some pa ->
  guardian pa child_id db ->
  exists ctx,
    child_detail today child_id req db = (Render "users/child_detail.html" ctx, db)
    /\ (cd_grades_by_quarter ctx).*1 `sublist_of` [1; 2; 3; 4]
    /\ (forall quarter grades,
          (quarter, grades) ∈ cd_grades_by_quarter ctx ->
          grades <> []
          /\ forall k g, (k, g) ∈ grades
                         <-> final_grades db !! k = Some g /\ fg_student g = child_id
                             /\ fg_quarter g = quarter)
    /\ (forall k g,
          final_grades db !! k = Some g -> fg_student g = child_id ->
          1 <= fg_quarter g <= 4 ->
          exists grades, (fg_quarter g, grades) ∈ cd_grades_by_quarter ctx
                         /\ (k, g) ∈ grades).
Proof.
  intros Hu Hrole Hprof (child & Hchild & Hin).
  rewrite (child_detail_parent today child_id pa req u db Hu Hrole Hprof).
  unfold get_by_id. rewrite Hchild, (bool_decide_eq_true_2 _ Hin).
  eexists. split; [reflexivity|]. simpl.
  set (rows q := objects_filter
                   (fun _ g => (fg_student g =? child_id)%Z && (fg_quarter g =? q)%Z)
                   (final_grades db)).
  assert (forall q k g, (k, g) ∈ rows q
                        <-> final_grades db !! k = Some g /\ fg_student g = child_id
                            /\ fg_quarter g = q) as Hrows.
  { intros q k g. unfold rows. rewrite elem_of_objects_filter.
    by rewrite andb_true_iff, !Z.eqb_eq. }
  assert (forall q y,
            match rows q with [] => None | grades => Some (q, grades) end = Some y ->
            y = (q, rows q) /\ rows q <> []) as Hgroup.
  { intros q y. destruct (rows q); [done|]. by intros [= <-]. }
  split; [|split].
  - apply omap_keys_sublist. intros q y Hy.
    fold (rows q) in Hy. by destruct (Hgroup q y Hy) as [-> _].
  - intros quarter grades Hq. unfold grades_by_quarter in Hq.
    apply list_elem_of_omap in Hq as (q & _ & Hq).
    fold (rows q) in Hq. destruct (Hgroup q _ Hq) as [Heq Hne].
    injection Heq as Hq1 Hq2. subst quarter grades.
    split; [done|]. apply Hrows.
  - intros k g Hk Hs Hq. exists (rows (fg_quarter g)).
    assert ((k, g) ∈ rows (fg_quarter g)) as Hkg by (by apply Hrows).
    split; [|done]. unfold grades_by_quarter.
    apply list_elem_of_omap. exists (fg_quarter g). split.
    + assert (fg_quarter g = 1 \/ fg_quarter g = 2 \/ fg_quarter g = 3 \/ fg_quarter g = 4)
        as [E | [E | [E | E]]] by lia;
        rewrite E; apply list_elem_of_In; simpl; auto 6.
    + fold (rows (fg_quarter g)).
      destruct (rows (fg_quarter g)); [by apply elem_of_nil in Hkg | done].
Qed.

End ChildPage.

(** ** Events and announcements *)

Import Board.

#[local] Instance by_start_date_trans : Transitive by_start_date.
Proof. unfold by_start_date. intros a b c. lia. Qed.

#[local] Instance by_start_date_total : Total by_start_date.
Proof. unfold by_start_date. intros a b. lia. Qed.

#[local] Instance by_created_desc_trans : Transitive by_created_desc.
Proof. unfold by_created_desc. intros a b c. lia. Qed.

#[local] Instance by_created_desc_total : Total by_created_desc.
Proof. unfold by_created_desc. intros a b. lia. Qed.

(** A lookup whose condition at most one row can meet never finds two. *)
Lemma objects_get_single {A} (P : Z -> A -> bool) (t : gmap Z A) :
  (forall k1 k2 r1 r2, t !! k1 = Some r1 -> t !! k2 = Some r2 ->
                       P k1 r1 = true -> P k2 r2 = true -> k1 = k2) ->
  objects_get P t <> MultipleObjectsReturned.
Proof.
  intros Huniq Hget. unfold objects_get in Hget.
  destruct (objects_filter P t) as [|[k1 r1] [|[k2 r2] l]] eqn:E; try done.
  assert (NoDup ((k1, r1) :: (k2, r2) :: l)) as Hnd.
  { rewrite <- E. unfold objects_filter. apply NoDup_ListNoDup, List.NoDup_filter,
      NoDup_ListNoDup, NoDup_map_to_list. }
  assert ((k1, r1) ∈ objects_filter P t) as H1 by (rewrite E; left).
  assert ((k2, r2) ∈ objects_filter P t) as H2 by (rewrite E; right; left).
  apply elem_of_objects_filter in H1 as [H1 P1], H2 as [H2 P2].
  assert (k1 = k2) as -> by (eapply Huniq; eauto).
  assert (r1 = r2) as -> by congruence.
  apply NoDup_cons in Hnd as [Hnotin _]. apply Hnotin. left.
Qed.

Lemma read_of_spec (id uid k : Z) (r : AnnouncementRead) :
  read_of id uid k r = true <-> ar_announcement r = id /\ ar_user r = uid.
Proof. unfold read_of. by rewrite andb_true_iff, !Z.eqb_eq. Qed.

(** What one visit of a published announcement leaves behind. *)
Lemma announcement_detail_visit (now saved id : Z) (req : Request) (u : User)
    (a : Announcement) (b : BoardDB) :
  user req = Some u ->
  announcements b !! id = Some a ->
  an_is_published a = true ->
  one_read_each (announcement_reads b) ->
  exists reads,
    announcement_detail now saved id req b
    = (Render "information/announcement_detail.html" (id, count_view saved a),
       {| base := base b; events := events b;
          announcements := <[id := count_view saved a]> (announcements b);
          announcement_reads := reads |})
    /\ one_read_each reads
    /\ (exists k r, reads !! k = Some r /\ ar_announcement r = id /\ ar_user r = user_id u)
    /\ (forall k r, announcement_reads b !! k = Some r -> reads !! k = Some r)
    /\ ((exists k r, announcement_reads b !! k = Some r /\ ar_announcement r = id
                     /\ ar_user r = user_id u) -> reads = announcement_reads b).
Proof.
  intros Hu Ha Hpub Huniq.
  unfold announcement_detail, login_required_b, get_by_id. rewrite Hu, Ha, Hpub.
  destruct (objects_get (read_of id (user_id u)) (announcement_reads b))
    as [k r| |] eqn:Hget.
  - apply objects_get_found in Hget as [Hk Hr]. apply read_of_spec in Hr as [Hr1 Hr2].
    exists (announcement_reads b). split; [done|]. split; [done|].
    split; [eauto|]. done.
  - pose proof (objects_get_missing _ _ Hget) as Hnone.
    pose proof (next_id_fresh (announcement_reads b)) as Hfresh.
    eexists. split; [reflexivity|]. simpl. split; [|split; [|split]].
    + intros k1 k2 r1 r2 H1 H2 Ha12 Hu12.
      destruct (decide (k1 = next_id (announcement_reads b))) as [->|Hne1],
               (decide (k2 = next_id (announcement_reads b))) as [->|Hne2]; [done|..].
      * rewrite lookup_insert_eq in H1. rewrite lookup_insert_ne in H2 by done.
        injection H1 as <-. simpl in *. exfalso.
        assert (read_of id (user_id u) k2 r2 = true) as Hr by (by apply read_of_spec).
        by rewrite (Hnone k2 r2 H2) in Hr.
      * rewrite lookup_insert_eq in H2. rewrite lookup_insert_ne in H1 by done.
        injection H2 as <-. simpl in *. exfalso.
        assert (read_of id (user_id u) k1 r1 = true) as Hr by (by apply read_of_spec).
        by rewrite (Hnone k1 r1 H1) in Hr.
      * rewrite lookup_insert_ne in H1, H2 by done. eapply Huniq; eauto.
    + eexists _, _. split; [apply lookup_insert_eq|]. done.
    + intros k r Hk. rewrite lookup_insert_ne; [done|]. intros <-. congruence.
    + intros (k & r & Hk & Hr1 & Hr2). exfalso.
      assert (read_of id (user_id u) k r = true) as Hr by (by apply read_of_spec).
      by rewrite (Hnone k r Hk) in Hr.
  - exfalso. revert Hget. apply objects_get_single.
    intros k1 k2 r1 r2 H1 H2 P1 P2.
    apply read_of_spec in P1 as [? ?], P2 as [? ?]. eapply Huniq; eauto; congruence.
Qed.

(** X22: viewing a published announcement raises its view count by exactly
    one and changes no other announcement; it leaves exactly the read markers
    there were plus, if the user had none for this announcement, one new
    marker, so that afterwards the user has one and the table still holds at
    most one marker per announcement and user.  A second view by the same
    user adds no marker and brings the count to two more than at the start. *)
Theorem announcement_detail_counts_views (now saved now' saved' id : Z) (req : Request)
    (u : User) (a : Announcement) (b : BoardDB) :
  user req = Some u ->
  announcements b !! id = Some a ->
  an_is_published a = true ->
  one_read_each (announcement_reads b) ->
  let b1 := (announcement_detail now saved id req b).2 in
  let b2 := (announcement_detail now' saved' id req b1).2 in
  (exists a1, announcements b1 !! id = Some a1
              /\ an_views_count a1 = an_views_count a + 1
              /\ an_title a1 = an_title a /\ an_content a1 = an_content a
              /\ an_is_published a1 = an_is_published a
              /\ an_target_audience a1 = an_target_audience a
              /\ an_posted_by a1 = an_posted_by a)
  /\ (forall k, k <> id -> announcements b1 !! k = announcements b !! k)
  /\ one_read_each (announcement_reads b1)
  /\ (exists k r, announcement_reads b1 !! k = Some r /\ ar_announcement r = id
                  /\ ar_user r = user_id u)
  /\ (forall k r, announcement_reads b !! k = Some r -> announcement_reads b1 !! k = Some r)
  /\ base b1 = base b /\ events b1 = events b
  /\ announcement_reads b2 = announcement_reads b1
  /\ (an_views_count <$> announcements b2 !! id) = Some (an_views_count a + 2).
Proof.
  intros Hu Ha Hpub Huniq b1 b2.
  destruct (announcement_detail_visit now saved id req u a b Hu Ha Hpub Huniq)
    as (reads & Hvisit & Huniq1 & Hmark & Hkeep & _).
  assert (b1 = {| base := base b; events := events b;
                  announcements := <[id := count_view saved a]> (announcements b);
                  announcement_reads := reads |}) as Hb1 by (subst b1; by rewrite Hvisit).
  assert (announcements b1 !! id = Some (count_view saved a)) as Ha1
    by (rewrite Hb1; apply lookup_insert_eq).
  assert (announcement_reads b1 = reads) as Hreads1 by (by rewrite Hb1).
  destruct (announcement_detail_visit now' saved' id req u (count_view saved a) b1
              Hu Ha1 Hpub) as (reads2 & Hvisit2 & _ & _ & _ & Hsame).
  { by rewrite Hreads1. }
  assert (reads2 = announcement_reads b1) as ->.
  { apply Hsame. by rewrite Hreads1. }
  split; [exists (count_view saved a); by split|].
  split; [intros k Hne; rewrite Hb1; simpl; by rewrite lookup_insert_ne|].
  rewrite Hreads1. do 3 (split; [done|]).
  split; [by rewrite Hb1|]. split; [by rewrite Hb1|].
  subst b2. rewrite Hvisit2. simpl. split; [done|].
  rewrite lookup_insert_eq. simpl. f_equal. lia.
Qed.

(** X23: an announcement that does not exist or is not published is
    answered with 404: no view is counted and no read marker is written. *)
Theorem announcement_detail_hidden (now saved id : Z) (req : Request) (u : User)
    (b : BoardDB) :
  user req = Some u ->
  (forall a, announcements b !! id = Some a -> an_is_published a = false) ->
  announcement_detail now saved id req b = (Http404, b).
Proof.
  intros Hu Hhidden. unfold announcement_detail, login_required_b, get_by_id.
  rewrite Hu. destruct (announcements b !! id) as [a|]; [|done].
  by rewrite (Hhidden a eq_refl).
Qed.

(** X24: the list of announcements shows, newest first, exactly the published
    announcements whose audience fits the user's role: "all" or "parents" for
    a parent, "all" or "teachers" for a teacher, any audience for an admin.
    Whether an announcement has expired plays no part. *)
Theorem announcement_list_by_role (req : Request) (u : User) (b : BoardDB) :
  user req = Some u ->
  exists rows,
    announcement_list req b = (Render "information/announcement_list.html" rows, b)
    /\ StronglySorted by_created_desc rows
    /\ forall k a,
         (k, a) ∈ rows
         <-> announcements b !! k = Some a /\ an_is_published a = true
             /\ match role u with
                | parent => an_target_audience a = "all" \/ an_target_audience a = "parents"
                | teacher => an_target_audience a = "all" \/ an_target_audience a = "teachers"
                | admin => True
                end.
Proof.
  intros Hu. unfold announcement_list, login_required_b. rewrite Hu.
  eexists. split; [reflexivity|]. split.
  - apply StronglySorted_merge_sort; apply _.
  - intros k a. rewrite merge_sort_Permutation, elem_of_objects_filter.
    rewrite andb_true_iff. unfold for_role, is_parent, is_teacher, audience_in.
    destruct (role u); simpl; rewrite ?orb_false_r, ?orb_true_iff, ?String.eqb_eq;
      tauto.
Qed.

(** X25: [delete_announcement] removes an announcement only on a POST by the
    teacher who posted it, and then removes its read markers with it and
    nothing else; the poster's request by another method deletes nothing;
    a teacher who is not the poster, as every teacher is for an announcement
    with no poster or of an unknown id, gets 404. *)
Theorem delete_announcement_by_poster (id te : Z) (req : Request) (u : User) (b : BoardDB) :
  user req = Some u ->
  role u = teacher ->
  teacher_profile u = Some te ->
  (forall a, announcements b !! id = Some a -> an_posted_by a = Some te ->
     match method req with
     | POST =>
       exists b1,
         delete_announcement id req b = (Redirect "information:announcement_list" [], b1)
         /\ announcements b1 = delete id (announcements b)
         /\ (forall k r, announcement_reads b1 !! k = Some r
                         <-> announcement_reads b !! k = Some r /\ ar_announcement r <> id)
         /\ events b1 = events b
         /\ base b1 = add_message success "Announcement deleted successfully!" (base b)
     | _ => delete_announcement id req b
            = (Redirect "information:announcement_detail" [id], b)
     end)
  /\ ((forall a, announcements b !! id = Some a -> an_posted_by a <> Some te) ->
      delete_announcement id req b = (Http404, b)).
Proof.
  intros Hu Hrole Hprof.
  unfold delete_announcement, login_required_b, teacher_required_b, is_teacher, get_by_id.
  rewrite Hu, Hrole, Hprof. simpl. split.
  - intros a Ha Hposter. rewrite Ha. unfold posted_by. rewrite Hposter, Z.eqb_refl.
    destruct (method req); [done|].
    eexists. split; [reflexivity|]. simpl. split; [done|]. split; [|done].
    intros k r. by rewrite map_lookup_filter_Some.
  - intros Hother. destruct (announcements b !! id) as [a|]; [|done].
    unfold posted_by. specialize (Hother a eq_refl).
    destruct (an_posted_by a) as [t|]; [|done].
    destruct (t =? te)%Z eqn:E; [|done]. apply Z.eqb_eq in E. congruence.
Qed.

(** X26: the list of events shows, earliest first, exactly the active events
    that start today or later.  Every active event that [is_upcoming] is in
    the list, and so is an active event still to start that was cancelled,
    which [is_upcoming] denies. *)
Theorem event_list_upcoming (today : Date) (req : Request) (u : User) (b : BoardDB) :
  user req = Some u ->
  exists rows,
    event_list today req b = (Render "information/event_list.html" rows, b)
    /\ StronglySorted by_start_date rows
    /\ (forall k e,
          (k, e) ∈ rows
          <-> events b !! k = Some e /\ ev_is_active e = true
              /\ toordinal today <= toordinal (ev_start_date e))
    /\ (forall k e, events b !! k = Some e -> ev_is_active e = true ->
                    is_upcoming today e = true -> (k, e) ∈ rows)
    /\ (forall k e, events b !! k = Some e -> ev_is_active e = true ->
                    toordinal today <= toordinal (ev_start_date e) ->
                    ev_is_cancelled e = true ->
                    (k, e) ∈ rows /\ is_upcoming today e = false).
Proof.
  intros Hu. unfold event_list, login_required_b. rewrite Hu.
  eexists. split; [reflexivity|].
  assert (forall k e,
            (k, e) ∈ merge_sort by_start_date
                       (objects_filter
                          (fun _ e => ev_is_active e
                                      && (toordinal today <=? toordinal (ev_start_date e))%Z)
                          (events b))
            <-> events b !! k = Some e /\ ev_is_active e = true
                /\ toordinal today <= toordinal (ev_start_date e)) as Hmem.
  { intros k e. rewrite merge_sort_Permutation, elem_of_objects_filter.
    by rewrite andb_true_iff, Z.leb_le. }
  split; [apply StronglySorted_merge_sort; apply _|].
  split; [exact Hmem|]. split.
  - intros k e Hk Hactive Hup. apply Hmem. unfold is_upcoming in Hup.
    apply andb_true_iff in Hup as [Hup _]. by apply Z.leb_le in Hup.
  - intros k e Hk Hactive Hstart Hcancelled. split; [by apply Hmem|].
    unfold is_upcoming. by rewrite Hcancelled, andb_false_r.
Qed.

(** X27: [delete_event] removes an event only on a POST by the teacher who
    created it, and then removes that event alone; the creator's request by
    another method deletes nothing; any other teacher gets 404, so an event
    whose creator is null can be deleted by no teacher. *)
Theorem delete_event_by_creator (id te : Z) (req : Request) (u : User) (b : BoardDB) :
  user req = Some u ->
  role u = teacher ->
  teacher_profile u = Some te ->
  (forall e, events b !! id = Some e -> ev_created_by e = Some te ->
     match method req with
     | POST =>
       exists b1,
         delete_event id req b = (Redirect "information:event_list" [], b1)
         /\ events b1 !! id = None
         /\ (forall k, k <> id -> events b1 !! k = events b !! k)
         /\ announcements b1 = announcements b
         /\ announcement_reads b1 = announcement_reads b
         /\ base b1 = add_message success "Event deleted successfully!" (base b)
     | _ => delete_event id req b = (Redirect "information:event_detail" [id], b)
     end)
  /\ ((forall e, events b !! id = Some e -> ev_created_by e <> Some te) ->
      delete_event id req b = (Http404, b)).
Proof.
  intros Hu Hrole Hprof.
  unfold delete_event, login_required_b, teacher_required_b, is_teacher, get_by_id.
  rewrite Hu, Hrole, Hprof. simpl. split.
  - intros e He Hcreator. rewrite He. unfold made_by. rewrite Hcreator, Z.eqb_refl.
    destruct (method req); [done|].
    eexists. split; [reflexivity|]. simpl. split; [apply lookup_delete_eq|].
    split; [|done]. intros k Hne. by rewrite lookup_delete_ne.
  - intros Hother. destruct (events b !! id) as [e|]; [|done].
    unfold made_by. specialize (Hother e eq_refl).
    destruct (ev_created_by e) as [t|]; [|done].
    destruct (t =? te)%Z eqn:E; [|done]. apply Z.eqb_eq in E. congruence.
Qed.

(** ** The further statements at the sample data *)

Lemma school_rooms_unique : unique_together (chat_rooms school_db).
Proof.
  intros k1 k2 r1 r2 H1 H2 _ _. simpl in H1, H2.
  apply lookup_singleton_Some in H1 as [<- _], H2 as [<- _]. reflexivity.
Defined.

Lemma mum_in_room : participant mum room_3_4.
Proof. left. split; reflexivity. Defined.

Lemma miss_in_room : participant miss room_3_4.
Proof. right. split; reflexivity. Defined.

Lemma mum_guards_ana : guardian 3 5 school_db.
Proof. eexists. split; [reflexivity|]. vm_compute. reflexivity. Defined.

Lemma mark_messages_read_clears_witness :
  (mark_messages_read (fun i => 40 + Z.of_nat i) 1 (post_as mum "" "") chat_db).1
  = JsonResponse [("success", JBool true); ("count", JInt 1)] 200
  /\ get_unread_count 1 7
       (mark_messages_read (fun i => 40 + Z.of_nat i) 1 (post_as mum "" "") chat_db).2 = 0.
Proof.
  destruct (mark_messages_read_clears (fun i => 40 + Z.of_nat i) 1 (post_as mum "" "")
              mum room_3_4 chat_db eq_refl eq_refl mum_in_room)
    as (Hresp & Hzero & _).
  split; [exact Hresp | exact Hzero].
Defined.

Lemma mark_messages_read_twice_witness :
  mark_messages_read (fun _ => 99) 1 (post_as miss "" "")
    (mark_messages_read (fun i => 40 + Z.of_nat i) 1 (post_as miss "" "") chat_db).2
  = (JsonResponse [("success", JBool true); ("count", JInt 0)] 200,
     (mark_messages_read (fun i => 40 + Z.of_nat i) 1 (post_as miss "" "") chat_db).2).
Proof.
  exact (mark_messages_read_twice (fun i => 40 + Z.of_nat i) (fun _ => 99) 1
           (post_as miss "" "") miss room_3_4 chat_db eq_refl eq_refl miss_in_room).
Defined.

Lemma send_message_unread_counts_witness :
  get_unread_count 1 8
    (send_message 50 51 52 1 (post_as mum "content" "On my way.") chat_db).2 = 2
  /\ get_unread_count 1 7
       (send_message 50 51 52 1 (post_as mum "content" "On my way.") chat_db).2 = 1.
Proof.
  assert (strip (POST_get (post_as mum "content" "On my way.") "content") <> "")
    as Hcontent by (vm_compute; discriminate).
  pose proof (send_message_unread_counts 50 51 52 1 (post_as mum "content" "On my way.")
                mum room_3_4 chat_db eq_refl eq_refl Hcontent eq_refl mum_in_room)
    as Hcount.
  split.
  - rewrite (Hcount 1 8). vm_compute. reflexivity.
  - rewrite (Hcount 1 7). vm_compute. reflexivity.
Defined.

Lemma chat_room_shows_read_witness :
  exists msgs,
    (chat_room (fun i => 40 + Z.of_nat i) 1 (get_as mum) chat_db).1
    = Render "information/chat_room.html"
        {| crc_room := (1, room_3_4); crc_messages := msgs |}
    /\ forall k m1, (k, m1) ∈ msgs -> cm_sender m1 <> 7 -> cm_is_read m1 = true.
Proof.
  destruct (chat_room_shows_read (fun i => 40 + Z.of_nat i) 1 (get_as mum) mum room_3_4
              chat_db eq_refl eq_refl mum_in_room)
    as (msgs & Hresp & _ & _ & _ & Hread).
  exists msgs. split; [exact Hresp | exact Hread].
Defined.

Lemma send_message_foreign_room_witness :
  send_message 50 51 52 9 (post_as mum "content" "Hello?") school_db = (Http404, school_db).
Proof.
  apply (send_message_foreign_room 50 51 52 9 (post_as mum "content" "Hello?") mum
           school_db eq_refl eq_refl).
  - vm_compute. discriminate.
  - left. split; [reflexivity | by eexists].
  - intros room Hroom. simpl in Hroom.
    rewrite lookup_singleton_ne in Hroom by done. discriminate.
Defined.

Lemma mark_notification_read_foreign_witness :
  mark_notification_read 50 2 (get_as mum) school_db = (Http404, school_db).
Proof.
  apply (mark_notification_read_foreign 50 2 (get_as mum) mum school_db eq_refl).
  intros n Hn. assert (notifications school_db !! 2 = Some (notice 8 false None)) as Hn2
    by reflexivity.
  rewrite Hn2 in Hn. injection Hn as <-. discriminate.
Defined.

Lemma mark_all_notifications_read_none_left_witness :
  notifications
    (mark_all_notifications_read (get_as mum)
       (mark_all_notifications_read (get_as mum) school_db).2).2
  = notifications (mark_all_notifications_read (get_as mum) school_db).2.
Proof.
  exact (proj2 (mark_all_notifications_read_none_left (get_as mum) mum school_db eq_refl)).
Defined.

Lemma read_at_never_restamped_witness :
  (nt_read_at
     <$> notifications
           (mark_notification_read 50 1 (get_as mum)
              (mark_all_notifications_read (get_as mum) school_db).2).2 !! 1)
  = Some None.
Proof.
  exact (proj2 (proj2 (read_at_never_restamped 50 1 (get_as mum) mum school_db eq_refl))
           (notice 7 false None) eq_refl eq_refl).
Defined.

Lemma blank_keyword_matches_all_witness :
  keyword_match "anything at all" (bot "hello," "Hello! How can I help?" 10) = true.
Proof.
  apply (blank_keyword_matches_all (bot "hello," "Hello! How can I help?" 10)).
  right. by exists "hello".
Defined.

Lemma chatbot_query_answer_witness :
  (chatbot_query 50 (post_as mum "query" "When is lunch?") chatbot_db).1
  = JsonResponse [("success", JBool true); ("response", JStr fallback_response)] 200.
Proof.
  assert (strip (POST_get (post_as mum "query" "When is lunch?") "query") <> "")
    as Hquery by (vm_compute; discriminate).
  destruct (chatbot_query_answer 50 (post_as mum "query" "When is lunch?") mum chatbot_db
              eq_refl eq_refl Hquery) as (response & Hresp & _ & _ & Hnone).
  rewrite Hresp, Hnone; [reflexivity|].
  intros k m Hk _ Hm. apply keyword_match_spec in Hm.
  destruct (chatbot_db_rows k m Hk) as [[-> ->]|[-> ->]]; vm_compute in Hm; discriminate.
Defined.

Lemma chatbot_query_case_insensitive_witness :
  chatbot_query 50 (post_as mum "query" "my child's grade") chatbot_db
  = chatbot_query 50 (post_as mum "query" "My Child's GRADE") chatbot_db.
Proof.
  apply chatbot_query_case_insensitive; [reflexivity | reflexivity | left; reflexivity].
Defined.

Lemma start_chat_then_send_message_witness :
  exists room_id message_id,
    (start_chat 200 4 (get_as mum) school_db).1 = Redirect "information:chat_room" [room_id]
    /\ (send_message 210 211 212 room_id (post_as mum "content" "Good morning")
          (start_chat 200 4 (get_as mum) school_db).2).1
       = JsonResponse [("success", JBool true); ("message_id", JInt message_id);
                       ("content", JStr "Good morning"); ("created_at", JDateTime 210)] 200.
Proof.
  apply (start_chat_then_send_message 200 210 211 212 4 3 (get_as mum)
           (post_as mum "content" "Good morning") mum school_db);
    try reflexivity.
  - by eexists.
  - exact school_rooms_unique.
  - vm_compute. discriminate.
Defined.

Lemma student_grades_scoped_witness :
  exists grades,
    student_grades 6 (get_as miss) school_db
    = (Render "monitoring/student_grades.html"
         {| sg_student := (6, ben); sg_grades := grades; sg_teacher := 4 |}, school_db)
    /\ forall k g, (k, g) ∈ grades -> fg_student g = 6.
Proof.
  pose proof (student_grades_scoped 6 4 (get_as miss) miss school_db
                eq_refl eq_refl eq_refl) as Hscoped.
  assert (children school_db !! 6 = Some ben) as Hben by reflexivity.
  rewrite Hben in Hscoped. destruct Hscoped as (grades & Hresp & _ & Hmem).
  exists grades. split; [exact Hresp|].
  intros k g Hin. apply Hmem in Hin. tauto.
Defined.

Lemma student_attendance_latest_witness :
  exists rows,
    student_attendance 6 (get_as miss) school_db
    = (Render "monitoring/student_attendance.html"
         {| sa_student := (6, ben); sa_attendance := rows; sa_teacher := 4 |}, school_db)
    /\ (length rows <= 30)%nat.
Proof.
  destruct (student_attendance_latest 6 4 (get_as miss) miss ben school_db
              eq_refl eq_refl eq_refl eq_refl) as (rows & Hresp & Hlen & _).
  exists rows. split; [exact Hresp | exact Hlen].
Defined.

Lemma class_pages_owner_only_witness :
  class_detail 2 (get_as miss) school_db = (Http404, school_db)
  /\ class_students 2 (get_as miss) school_db = (Http404, school_db).
Proof.
  pose proof (class_pages_owner_only 2 4 (get_as miss) miss school_db
                eq_refl eq_refl eq_refl) as Hgate.
  assert (classes school_db !! 2 = Some {| cl_teacher := 10; cl_name := "Kinder B" |})
    as Hclass by reflexivity.
  rewrite Hclass in Hgate. simpl in Hgate.
  destruct (decide (10 = 4)) as [Heq|_]; [discriminate | exact Hgate].
Defined.

Lemma child_detail_summary_adds_up_witness :
  exists ctx,
    child_detail (H := binary64) today 5 (get_as mum) school_db
    = (Render "users/child_detail.html" ctx, school_db)
    /\ present_days (cd_attendance_summary ctx) + absent_days (cd_attendance_summary ctx)
       + late_days (cd_attendance_summary ctx)
       = total_days (cd_attendance_summary ctx).
Proof.
  destruct (child_detail_summary_adds_up (H := binary64) today 5 3 (get_as mum) mum
              school_db eq_refl eq_refl eq_refl mum_guards_ana)
    as (ctx & Hresp & Hsum & _).
  exists ctx. split; [exact Hresp | exact Hsum].
Defined.

Lemma child_detail_grades_by_quarter_witness :
  exists ctx,
    child_detail (H := binary64) today 5 (get_as mum) school_db
    = (Render "users/child_detail.html" ctx, school_db)
    /\ (cd_grades_by_quarter ctx).*1 `sublist_of` [1; 2; 3; 4].
Proof.
  destruct (child_detail_grades_by_quarter (H := binary64) today 5 3 (get_as mum) mum
              school_db eq_refl eq_refl eq_refl mum_guards_ana)
    as (ctx & Hresp & Hsub & _).
  exists ctx. split; [exact Hresp | exact Hsub].
Defined.

Lemma board_reads_unique : one_read_each (announcement_reads board).
Proof. intros k1 k2 r1 r2 H1. simpl in H1. by rewrite lookup_empty in H1. Defined.

Lemma announcement_detail_counts_views_witness :
  (an_views_count
     <$> announcements
           (announcement_detail 120 121 1 (get_as mum)
              (announcement_detail 110 111 1 (get_as mum) board).2).2 !! 1)
  = Some 2.
Proof.
  destruct (announcement_detail_counts_views 110 111 120 121 1 (get_as mum) mum
              (posted "Parents' evening" "parents" (Some 4) true 80) board
              eq_refl eq_refl eq_refl board_reads_unique)
    as (_ & _ & _ & _ & _ & _ & _ & _ & Htwo).
  exact Htwo.
Defined.

Lemma announcement_detail_hidden_witness :
  announcement_detail 110 111 2 (get_as miss) board = (Http404, board).
Proof.
  apply (announcement_detail_hidden 110 111 2 (get_as miss) miss board eq_refl).
  intros a Ha.
  assert (announcements board !! 2
          = Some (posted "Staff meeting" "teachers" (Some 10) false 85)) as Ha2
    by reflexivity.
  rewrite Ha2 in Ha. injection Ha as <-. reflexivity.
Defined.

Lemma announcement_list_by_role_witness :
  exists rows,
    announcement_list (get_as miss) board
    = (Render "information/announcement_list.html" rows, board)
    /\ forall k a, (k, a) ∈ rows -> an_target_audience a <> "parents".
Proof.
  destruct (announcement_list_by_role (get_as miss) miss board eq_refl)
    as (rows & Hresp & _ & Hmem).
  exists rows. split; [exact Hresp|].
  intros k a Hin. apply Hmem in Hin as (_ & _ & [Hall|Hteachers]); simpl; congruence.
Defined.

Lemma delete_announcement_by_poster_witness :
  exists b1,
    delete_announcement 1 (post_as miss "" "") board
    = (Redirect "information:announcement_list" [], b1)
    /\ announcements b1 = delete 1 (announcements board).
Proof.
  destruct (proj1 (delete_announcement_by_poster 1 4 (post_as miss "" "") miss board
                     eq_refl eq_refl eq_refl)
              (posted "Parents' evening" "parents" (Some 4) true 80) eq_refl eq_refl)
    as (b1 & Hresp & Hgone & _).
  exists b1. split; [exact Hresp | exact Hgone].
Defined.

Lemma event_list_upcoming_witness :
  exists rows,
    event_list today (get_as mum) board = (Render "information/event_list.html" rows, board)
    /\ (2, outing (on 2026 12 1) None true) ∈ rows
    /\ is_upcoming today (outing (on 2026 12 1) None true) = false.
Proof.
  destruct (event_list_upcoming today (get_as mum) mum board eq_refl)
    as (rows & Hresp & _ & _ & _ & Hcancelled).
  exists rows. split; [exact Hresp|].
  apply Hcancelled; try reflexivity. vm_compute. discriminate.
Defined.

Lemma delete_event_by_creator_witness :
  delete_event 2 (post_as miss "" "") board = (Http404, board).
Proof.
  apply (delete_event_by_creator 2 4 (post_as miss "" "") miss board
           eq_refl eq_refl eq_refl).
  intros e He.
  assert (events board !! 2 = Some (outing (on 2026 12 1) None true)) as He2
    by reflexivity.
  rewrite He2 in He. injection He as <-. discriminate.
Defined.
